(** * GA4 report fetcher: request construction, pagination and tabulation

    A shallow embedding of [ga4_api.py] (module-level functions) and of
    [ga4_app.py] (class [GA4AnalyticsClient]) together with the properties
    their specification states about them.

    Layout: the Python run-time fragments the two files rely on ([Py]), the
    messages of the analytics SDK ([SDK]), the part of pandas that is used
    ([Pandas]), the two source files ([Ga4Api], [Ga4App]), sample inputs, and
    then the lemmas and theorems. *)

From Stdlib Require Import ZArith List String Ascii Bool Lia Arith DecimalString.
Import ListNotations.
Open Scope string_scope.
Open Scope list_scope.

(* ================================================================== *)
(** ** Python run-time fragments *)

Module Py.

(** Exceptions.  Only instances of [Exception] occur: both files catch with
    [except Exception], and the errors of the SDK, of sequence indexing and of
    date parsing all derive from it.  [str(e)] of an exception built from one
    message is that message. *)
Inductive ExcClass : Type :=
| RuntimeError
| IndexError
| ValueError
| ApiError.      (* any other Exception subclass raised by the SDK *)

Inductive PyExc : Type :=
| Exc (cls : ExcClass) (msg : string).

Definition exc_class (e : PyExc) : ExcClass := let 'Exc c _ := e in c.
Definition str_exc (e : PyExc) : string := let 'Exc _ m := e in m.

(** A computation that returns or raises. *)
Inductive result (A : Type) : Type :=
| Ok (a : A)
| Raise (e : PyExc).
Arguments Ok {A} a.
Arguments Raise {A} e.

Definition bind {A B} (m : result A) (k : A -> result B) : result B :=
  match m with
  | Ok a => k a
  | Raise e => Raise e
  end.

(** [try: body except Exception as e: raise h(e)] *)
Definition try_except {A} (body : result A) (h : PyExc -> PyExc) : result A :=
  match body with
  | Ok a => Ok a
  | Raise e => Raise (h e)
  end.

(** [for x in xs: acc = step(acc, x)], stopping at the first exception. *)
Fixpoint for_each {A S} (step : S -> A -> result S) (xs : list A) (acc : S)
  : result S :=
  match xs with
  | [] => Ok acc
  | x :: xs' => bind (step acc x) (for_each step xs')
  end.

(** [[f(x) for x in xs]], stopping at the first exception. *)
Fixpoint list_comp {A B} (f : A -> result B) (xs : list A) : result (list B) :=
  match xs with
  | [] => Ok []
  | x :: xs' => bind (f x) (fun y => bind (list_comp f xs') (fun ys => Ok (y :: ys)))
  end.

(** [xs[i]] for [i >= 0]; [index_error_text i] is the text of the
    [IndexError] raised past the end, which depends on the kind of sequence. *)
Definition getitem {A} (index_error_text : nat -> string) (xs : list A)
    (i : nat) : result A :=
  match nth_error xs i with
  | Some x => Ok x
  | None => Raise (Exc IndexError (index_error_text i))
  end.

(** [str(n)] for an [int]. *)
Definition str_int (n : Z) : string := NilZero.string_of_int (Z.to_int n).

(** [range(n)] and [enumerate(xs)]. *)
Definition range (n : nat) : list nat := seq 0 n.
Definition enumerate {A} (xs : list A) : list (nat * A) :=
  combine (seq 0 (List.length xs)) xs.

(** [xs or []] for an optional list argument. *)
Definition or_empty {A} (xs : option (list A)) : list A :=
  match xs with
  | Some l => l
  | None => []
  end.

(** Truth value of an optional list or dict: [None] and the empty container
    are falsy. *)
Definition truthy {A} (xs : option (list A)) : bool :=
  match xs with
  | Some (_ :: _) => true
  | _ => false
  end.

(** A [dict] with string keys: insertion-ordered, one binding per key.
    Assigning to a key that is present keeps its position. *)
Definition dict (V : Type) : Type := list (string * V).

Fixpoint dict_get {V} (d : dict V) (k : string) : option V :=
  match d with
  | [] => None
  | (k', v) :: d' => if String.eqb k' k then Some v else dict_get d' k
  end.

Fixpoint dict_set {V} (d : dict V) (k : string) (v : V) : dict V :=
  match d with
  | [] => [(k, v)]
  | (k', v') :: d' =>
      if String.eqb k' k then (k', v) :: d' else (k', v') :: dict_set d' k v
  end.

Definition keys {V} (d : dict V) : list string := map fst d.

(** [d.update(kvs)] *)
Definition dict_update {V} (d : dict V) (kvs : list (string * V)) : dict V :=
  fold_left (fun acc kv => dict_set acc (fst kv) (snd kv)) kvs d.

(** [d1 | d2]: a copy of [d1] updated with the items of [d2]. *)
Definition dict_or {V} (d1 d2 : dict V) : dict V := dict_update d1 d2.

(** The values a caller may put in a filter mapping ([Dict[str, Any]]). *)
Inductive PyValue : Type :=
| PyList (items : list string)
| PyStr (s : string)
| PyInt (n : Z)
| PyBool (b : bool)
| PyTuple (items : list string)
| PyNone.

End Py.

Declare Scope py_scope.
Delimit Scope py_scope with py.
Notation "x <- m ;; k" := (Py.bind m (fun x => k))
  (at level 61, m at next level, right associativity) : py_scope.

(* ================================================================== *)
(** ** Messages of the analytics SDK ([google.analytics.data_v1beta.types])

    Each message is a record of the fields the two files set or read.  A field
    that a constructor call does not pass keeps its protobuf default, which is
    [false] for a [bool]: that is how [case_sensitive] is filled below. *)

Module SDK.

Inductive MatchType : Type :=
| MATCH_TYPE_UNSPECIFIED
| EXACT
| BEGINS_WITH
| ENDS_WITH
| CONTAINS
| FULL_REGEXP
| PARTIAL_REGEXP.

(** [Filter.StringFilter(match_type=..., value=..., case_sensitive=...)] *)
Record StringFilter : Type := {
  match_type : MatchType;
  value : string;
  sf_case_sensitive : bool
}.

(** [Filter.InListFilter(values=..., case_sensitive=...)] *)
Record InListFilter : Type := {
  values : list string;
  il_case_sensitive : bool
}.

(** The [one_filter] choice of a [Filter]. *)
Inductive OneFilter : Type :=
| string_filter (f : StringFilter)
| in_list_filter (f : InListFilter).

Record Filter : Type := {
  field_name : string;
  one_filter : OneFilter
}.

(** [FilterExpression] with the three alternatives the sources build, and
    [FilterExpressionList(expressions=...)]. *)
Inductive FilterExpression : Type :=
| and_group (l : FilterExpressionList)
| or_group (l : FilterExpressionList)
| filter (f : Filter)
with FilterExpressionList : Type :=
| Build_FilterExpressionList (expressions : list FilterExpression).

Definition expressions (l : FilterExpressionList) : list FilterExpression :=
  let 'Build_FilterExpressionList es := l in es.

Record DateRange : Type := { start_date : string; end_date : string }.
Record Dimension : Type := { dimension_name_of : string }.
Record Metric : Type := { metric_name_of : string }.

(** [OrderBy(dimension={"dimension_name": name})] *)
Record DimensionOrderBy : Type := { dimension_name : string }.
Record OrderBy : Type := { dimension : DimensionOrderBy }.

(** The request message built from [request_dict].  [dimension_filter] is a message field
    and has presence ([None]: the key is not in [request_dict]); [order_bys]
    is a repeated field, where absent and empty coincide. *)
Record RunReportRequest : Type := {
  property : string;
  date_ranges : list DateRange;
  dimensions : list Dimension;
  metrics : list Metric;
  keep_empty_rows : bool;
  offset : Z;
  limit : Z;
  dimension_filter : option FilterExpression;
  order_bys : list OrderBy
}.

(** A row of a response: [row.dimension_values[i].value] and
    [row.metric_values[i].value] are strings. *)
Record DimensionValue : Type := { dv_value : string }.
Record MetricValue : Type := { mv_value : string }.
Record Row : Type := {
  dimension_values : list DimensionValue;
  metric_values : list MetricValue
}.

(** Of a response only [rows] is read. *)
Record RunReportResponse : Type := { rows : list Row }.

(** [client.run_report(request)]: the injected fetch capability.  It may keep
    state of its own ([St]) between calls, and a call returns a response or
    raises. *)
Definition Fetcher (St : Type) : Type :=
  St -> RunReportRequest -> Py.result RunReportResponse * St.

End SDK.

(* ================================================================== *)
(** ** The part of pandas that [ga4_app.py] and [ga4_api.py] use

    pandas is a library, not code of the repository; what follows is its
    documented behaviour on the calls the sources make: [pd.DataFrame(data)]
    on a list of dicts, ['date' in df.columns], [df['date']],
    [df['date'] = ...] and [pd.to_datetime(series, format='%Y%m%d')]. *)

Module Pandas.
Import Py.
Open Scope Z_scope.

(** A calendar date; [pd.to_datetime] yields timestamps at midnight. *)
Record Date : Type := { year : Z; month : Z; day : Z }.

Inductive Cell : Type :=
| CStr (s : string)
| CTimestamp (d : Date)
| CNaN
| CNaT.

(** A table: column names, and one list of cells per row, aligned with the
    column names. *)
Record DataFrame : Type := {
  columns : list string;
  data : list (list Cell)
}.

Definition has_name (name : string) (names : list string) : bool :=
  existsb (String.eqb name) names.

Definition add_column_name (names : list string) (name : string) : list string :=
  if has_name name names then names else names ++ [name].

Definition cell_of (r : dict string) (c : string) : Cell :=
  match dict_get r c with
  | Some v => CStr v
  | None => CNaN
  end.

(** [pd.DataFrame(records)]: the columns are the keys of the records in order
    of first appearance; a record without a key gets NaN there. *)
Definition pd_DataFrame (records : list (dict string)) : DataFrame :=
  let cols :=
    fold_left (fun acc r => fold_left add_column_name (keys r) acc) records [] in
  {| columns := cols;
     data := map (fun r => map (cell_of r) cols) records |}.

(** [len(df)] *)
Definition len (df : DataFrame) : nat := List.length (data df).

Fixpoint index_of (name : string) (names : list string) : option nat :=
  match names with
  | [] => None
  | n :: names' =>
      if String.eqb n name then Some O
      else option_map S (index_of name names')
  end.

(** [df[name]] for a column that exists. *)
Definition get_column (df : DataFrame) (name : string) : list Cell :=
  match index_of name (columns df) with
  | Some i => map (fun r => nth i r CNaN) (data df)
  | None => []
  end.

Fixpoint replace_nth {A} (i : nat) (x : A) (l : list A) : list A :=
  match l, i with
  | [], _ => []
  | _ :: l', O => x :: l'
  | y :: l', S i' => y :: replace_nth i' x l'
  end.

(** [df[name] = series] for a series of [len(df)] cells. *)
Definition set_column (df : DataFrame) (name : string) (series : list Cell)
  : DataFrame :=
  match index_of name (columns df) with
  | Some i =>
      {| columns := columns df;
         data := map (fun rc => replace_nth i (snd rc) (fst rc))
                     (combine (data df) series) |}
  | None =>
      {| columns := columns df ++ [name];
         data := map (fun rc => fst rc ++ [snd rc]) (combine (data df) series) |}
  end.

(** *** Dates in the format [%Y%m%d] *)

Definition digit_of_ascii (c : ascii) : option Z :=
  let n := Z.of_N (N_of_ascii c) in
  if (48 <=? n) && (n <=? 57) then Some (n - 48) else None.

Definition ascii_of_digit (d : Z) : ascii := ascii_of_N (Z.to_N (48 + d)).

Definition is_leap (y : Z) : bool :=
  (y mod 4 =? 0) && (negb (y mod 100 =? 0) || (y mod 400 =? 0)).

Definition days_in_month (y m : Z) : Z :=
  match m with
  | 1 | 3 | 5 | 7 | 8 | 10 | 12 => 31
  | 4 | 6 | 9 | 11 => 30
  | 2 => if is_leap y then 29 else 28
  | _ => 0
  end.

Definition valid_date (d : Date) : bool :=
  (1 <=? year d) && (year d <=? 9999) &&
  (1 <=? month d) && (month d <=? 12) &&
  (1 <=? day d) && (day d <=? days_in_month (year d) (month d)).

(** Parsing with [%Y%m%d]: four digits of year, two of month, two of day, and
    the date must exist.  pandas also accepts a few other shapes (a one-digit
    month or day); the sources feed it the eight-digit dates of the API, and
    here every other shape is rejected. *)
Definition strptime_Ymd (s : string) : option Date :=
  match map digit_of_ascii (list_ascii_of_string s) with
  | [Some y1; Some y2; Some y3; Some y4; Some m1; Some m2; Some d1; Some d2] =>
      let d := {| year := 1000 * y1 + 100 * y2 + 10 * y3 + y4;
                  month := 10 * m1 + m2;
                  day := 10 * d1 + d2 |} in
      if valid_date d then Some d else None
  | _ => None
  end.

(** Writing a date with [%Y%m%d]: zero-padded, eight characters. *)
Definition strftime_Ymd (d : Date) : string :=
  string_of_list_ascii
    (map ascii_of_digit
       [year d / 1000; (year d / 100) mod 10; (year d / 10) mod 10; year d mod 10;
        month d / 10; month d mod 10;
        day d / 10; day d mod 10]).

(** One cell of [pd.to_datetime(..., format='%Y%m%d')].  The text of the
    [ValueError] differs between pandas versions. *)
Definition to_datetime_cell (c : Cell) : result Cell :=
  match c with
  | CStr s =>
      match strptime_Ymd s with
      | Some d => Ok (CTimestamp d)
      | None => Raise (Exc ValueError ("time data " ++ s ++ " does not match format %Y%m%d"))
      end
  | CTimestamp d => Ok (CTimestamp d)
  | CNaN | CNaT => Ok CNaT
  end.

(** [pd.to_datetime(series, format='%Y%m%d')] *)
Definition to_datetime (series : list Cell) : result (list Cell) :=
  list_comp to_datetime_cell series.

End Pandas.

(* ================================================================== *)
(** ** What a paginated run leaves behind *)

Module Trace.
Import Py SDK.

(** [outcome] is [None] when the [while True] loop was cut off by the fuel of
    the model, [Some (Ok v)] on return and [Some (Raise e)] on an exception.
    [state] is the state the run leaves, and [calls] lists, in order, the
    requests handed to [run_report] (a ghost record: the sources keep none). *)
Record Run (A S : Type) : Type := {
  outcome : option (result A);
  state : S;
  calls : list RunReportRequest
}.
Arguments outcome {A S} r.
Arguments state {A S} r.
Arguments calls {A S} r.

End Trace.

(* ================================================================== *)
(** ** [ga4_api.py] *)

Module Ga4Api.
Import Py SDK Pandas Trace.
Open Scope py_scope.

Definition MAX_ROWS_PER_REQUEST : Z := 100000.

(** [dimension_filtering]: the loop over [dimensions_filter.items()]. *)
Definition dimension_filtering (dimensions_filter : dict PyValue)
  : list FilterExpression :=
  fold_left
    (fun filter_expressions item =>
       let '(dimension, values) := item in
       match values with
       | PyList vs =>
           filter_expressions ++
           [filter {| field_name := dimension;
                      one_filter := in_list_filter
                        {| SDK.values := vs; il_case_sensitive := false |} |}]
       | PyStr s =>
           filter_expressions ++
           [filter {| field_name := dimension;
                      one_filter := string_filter
                        {| match_type := CONTAINS; value := s;
                           sf_case_sensitive := false |} |}]
       | _ => filter_expressions
       end)
    dimensions_filter [].

(** [create_request].  An optional argument is [None] when the caller omits
    it; [offset] then is 0 and [limit] 100000, the defaults of the signature. *)
Definition create_request (property_id start_date end_date : string)
    (dimensions : option (list string))
    (dimensions_filter : option (dict PyValue))
    (metrics order_bys : option (list string))
    (offset limit : option Z) : RunReportRequest :=
  {| property := "properties/" ++ property_id;
     date_ranges := [{| SDK.start_date := start_date; SDK.end_date := end_date |}];
     SDK.dimensions := map Build_Dimension (or_empty dimensions);
     SDK.metrics := map Build_Metric (or_empty metrics);
     keep_empty_rows := true;
     SDK.offset := match offset with Some o => o | None => 0%Z end;
     SDK.limit := match limit with Some l => l | None => 100000%Z end;
     dimension_filter :=
       match dimensions_filter with
       | Some ((_ :: _) as d) =>
           Some (and_group (Build_FilterExpressionList (dimension_filtering d)))
       | _ => None
       end;
     SDK.order_bys :=
       if truthy order_bys
       then map (fun ord => {| dimension := {| dimension_name := ord |} |})
                (or_empty order_bys)
       else [] |}.

Section WithClient.

(** The SDK client: [connect] opens it from a credentials file,
    [run_report] is its fetch method, [St] what the client object holds. *)
Variable St : Type.
Variable connect : string -> result St.
Variable run_report : Fetcher St.

(** [establish_connection] *)
Definition establish_connection (secrets : string) : result St :=
  try_except (connect secrets)
    (fun e => Exc RuntimeError ("Failed to establish a connection: " ++ str_exc e)).

(** The [while True] loop of [run_paginated_request]. *)
Fixpoint run_paginated_request_loop (fuel : nat) (client : St)
    (property_id start_date end_date : string)
    (dimensions : option (list string))
    (dimensions_filter : option (dict PyValue))
    (metrics order_bys : option (list string))
    (all_rows : list Row) (offset : Z) (calls : list RunReportRequest)
  : Run (list Row) St :=
  match fuel with
  | O => {| outcome := None; state := client; calls := calls |}
  | S fuel' =>
      let request :=
        create_request property_id start_date end_date dimensions
          dimensions_filter metrics order_bys
          (Some offset) (Some MAX_ROWS_PER_REQUEST) in
      match run_report client request with
      | (Raise e, client') =>
          {| outcome :=
               Some (Raise (Exc RuntimeError
                 ("Failed to run request at offset " ++ str_int offset ++ ": "
                  ++ str_exc e)));
             state := client';
             calls := calls ++ [request] |}
      | (Ok response, client') =>
          match rows response with
          | [] =>
              {| outcome := Some (Ok all_rows);
                 state := client';
                 calls := calls ++ [request] |}
          | _ :: _ =>
              run_paginated_request_loop fuel' client'
                property_id start_date end_date dimensions dimensions_filter
                metrics order_bys
                (all_rows ++ rows response)
                (offset + MAX_ROWS_PER_REQUEST)%Z
                (calls ++ [request])
          end
      end
  end.

(** [run_paginated_request]: [all_rows = []], [offset = 0], then the loop. *)
Definition run_paginated_request (fuel : nat) (client : St)
    (property_id start_date end_date : string)
    (dimensions : option (list string))
    (dimensions_filter : option (dict PyValue))
    (metrics order_bys : option (list string)) : Run (list Row) St :=
  run_paginated_request_loop fuel client property_id start_date end_date
    dimensions dimensions_filter metrics order_bys [] 0%Z [].

End WithClient.

Section Tabulator.

(** The text of the [IndexError] that indexing a sequence at [i] past its end
    raises; for the repeated fields of a row it depends on the protobuf
    run-time in use. *)
Variable index_error_text : nat -> string.

(** [{dimensions[i]: row.dimension_values[i].value
      for i in range(len(dimensions))}] *)
Definition dimension_dict (dimensions : list string) (row : Row)
  : result (dict string) :=
  for_each (fun acc i =>
              k <- getitem index_error_text dimensions i ;;
              v <- getitem index_error_text (dimension_values row) i ;;
              Ok (dict_set acc k (dv_value v)))
           (range (List.length dimensions)) [].

(** [{metrics[i]: row.metric_values[i].value for i in range(len(metrics))}] *)
Definition metric_dict (metrics : list string) (row : Row)
  : result (dict string) :=
  for_each (fun acc i =>
              k <- getitem index_error_text metrics i ;;
              v <- getitem index_error_text (metric_values row) i ;;
              Ok (dict_set acc k (mv_value v)))
           (range (List.length metrics)) [].

(** The element [{...} | {...}] of the list comprehension, for one [row]. *)
Definition row_to_dict (dimensions metrics : list string) (row : Row)
  : result (dict string) :=
  d <- dimension_dict dimensions row ;;
  m <- metric_dict metrics row ;;
  Ok (dict_or d m).

(** The list comprehension [data] of [convert_response_to_dataframe]. *)
Definition convert_response_data (all_data : list Row)
    (dimensions metrics : list string) : result (list (dict string)) :=
  list_comp (row_to_dict dimensions metrics) all_data.

(** [convert_response_to_dataframe] *)
Definition convert_response_to_dataframe (all_data : list Row)
    (dimensions metrics : list string) : result DataFrame :=
  try_except
    (data <- convert_response_data all_data dimensions metrics ;;
     Ok (pd_DataFrame data))
    (fun e => Exc RuntimeError
                ("Failed to convert response to DataFrame: " ++ str_exc e)).

End Tabulator.

End Ga4Api.

(* ================================================================== *)
(** ** [ga4_app.py]: class [GA4AnalyticsClient]

    Calls to [logger] have no effect on the values computed and are left
    out. *)

Module Ga4App.
Import Py SDK Pandas Trace.
Open Scope py_scope.

Definition MAX_ROWS_PER_REQUEST : Z := 250000.

(** [_create_filter_expressions]: the loop over [dimensions_filter.items()]. *)
Definition _create_filter_expressions (dimensions_filter : dict PyValue)
  : list FilterExpression :=
  fold_left
    (fun filter_expressions item =>
       let '(dimension, values) := item in
       match values with
       | PyList vs =>
           filter_expressions ++
           [filter {| field_name := dimension;
                      one_filter := in_list_filter
                        {| SDK.values := vs; il_case_sensitive := false |} |}]
       | PyStr s =>
           filter_expressions ++
           [filter {| field_name := dimension;
                      one_filter := string_filter
                        {| match_type := CONTAINS; value := s;
                           sf_case_sensitive := false |} |}]
       | _ => filter_expressions
       end)
    dimensions_filter [].

(** [a or b] for optional strings: [None] and the empty string are falsy. *)
Definition str_or (a b : option string) : option string :=
  match a with
  | Some EmptyString | None => b
  | Some _ => a
  end.

(** [f"{x}"] for an optional string. *)
Definition str_opt (x : option string) : string :=
  match x with
  | Some s => s
  | None => "None"
  end.

Section WithClient.

(** The SDK client ([connect] opens it from a credentials file, [run_report]
    is its fetch method, [St] what the client object holds), the process
    environment, and the text of the [IndexError] of a sequence. *)
Variable St : Type.
Variable connect : option string -> result St.
Variable run_report : Fetcher St.
Variable getenv : string -> option string.
Variable index_error_text : nat -> string.

(** The attributes of [self]. *)
Record GA4AnalyticsClient : Type := {
  credentials_path : option string;
  property_id : option string;
  _client : option St
}.

(** [__init__] *)
Definition __init__ (credentials_path property_id : option string)
  : GA4AnalyticsClient :=
  {| credentials_path := str_or credentials_path (getenv "GA4_CREDENTIALS_PATH");
     property_id := str_or property_id (getenv "GA4_PROPERTY_ID");
     _client := None |}.

Definition with_client (self : GA4AnalyticsClient) (c : St)
  : GA4AnalyticsClient :=
  {| credentials_path := credentials_path self;
     property_id := property_id self;
     _client := Some c |}.

(** [_establish_connection] *)
Definition _establish_connection (self : GA4AnalyticsClient) : result St :=
  try_except (connect (credentials_path self))
    (fun e => Exc RuntimeError
                ("Failed to establish GA4 API connection: " ++ str_exc e)).

(** The property [client]: lazy initialisation of [self._client]. *)
Definition client (self : GA4AnalyticsClient)
  : result St * GA4AnalyticsClient :=
  match _client self with
  | None =>
      match _establish_connection self with
      | Ok c => (Ok c, with_client self c)
      | Raise e => (Raise e, self)
      end
  | Some c => (Ok c, self)
  end.

(** [_create_request].  [offset] is [None] when the caller omits it (then 0);
    [limit] defaults to [None], and [limit or self.MAX_ROWS_PER_REQUEST]
    replaces [None] and 0. *)
Definition _create_request (self : GA4AnalyticsClient)
    (start_date end_date : string)
    (dimensions metrics : option (list string))
    (dimensions_filter : option (dict PyValue))
    (order_bys : option (list string))
    (offset limit : option Z) : RunReportRequest :=
  let dimensions := or_empty dimensions in
  let metrics := or_empty metrics in
  let limit :=
    match limit with
    | Some 0%Z | None => MAX_ROWS_PER_REQUEST
    | Some l => l
    end in
  let order_bys :=
    if negb (truthy order_bys) && negb (Nat.eqb (List.length dimensions) 0)
    then Some dimensions
    else order_bys in
  {| property := "properties/" ++ str_opt (property_id self);
     date_ranges := [{| SDK.start_date := start_date; SDK.end_date := end_date |}];
     SDK.dimensions := map Build_Dimension dimensions;
     SDK.metrics := map Build_Metric metrics;
     keep_empty_rows := true;
     SDK.offset := match offset with Some o => o | None => 0%Z end;
     SDK.limit := limit;
     dimension_filter :=
       match dimensions_filter with
       | Some ((_ :: _) as d) =>
           Some (or_group
                   (Build_FilterExpressionList (_create_filter_expressions d)))
       | _ => None
       end;
     SDK.order_bys :=
       if truthy order_bys
       then map (fun order_by => {| dimension := {| dimension_name := order_by |} |})
                (or_empty order_bys)
       else [] |}.

(** The [while True] loop of [_run_paginated_request].  [self.client] is
    evaluated inside the [try], so a failure to connect is wrapped like a
    failure of the fetch; no request has been sent then. *)
Fixpoint _run_paginated_request_loop (fuel : nat) (self : GA4AnalyticsClient)
    (start_date end_date : string)
    (dimensions metrics : option (list string))
    (dimensions_filter : option (dict PyValue))
    (order_bys : option (list string))
    (all_rows : list Row) (offset : Z) (calls : list RunReportRequest)
  : Run (list Row) GA4AnalyticsClient :=
  match fuel with
  | O => {| outcome := None; state := self; calls := calls |}
  | S fuel' =>
      let request :=
        _create_request self start_date end_date dimensions metrics
          dimensions_filter order_bys
          (Some offset) (Some MAX_ROWS_PER_REQUEST) in
      let failed (e : PyExc) : result (list Row) :=
        Raise (Exc RuntimeError
                 ("API request failed at offset " ++ str_int offset ++ ": "
                  ++ str_exc e)) in
      match client self with
      | (Raise e, self') =>
          {| outcome := Some (failed e); state := self'; calls := calls |}
      | (Ok c, self') =>
          match run_report c request with
          | (Raise e, c') =>
              {| outcome := Some (failed e);
                 state := with_client self' c';
                 calls := calls ++ [request] |}
          | (Ok response, c') =>
              match rows response with
              | [] =>
                  {| outcome := Some (Ok all_rows);
                     state := with_client self' c';
                     calls := calls ++ [request] |}
              | _ :: _ =>
                  _run_paginated_request_loop fuel' (with_client self' c')
                    start_date end_date dimensions metrics dimensions_filter
                    order_bys
                    (all_rows ++ rows response)
                    (offset + MAX_ROWS_PER_REQUEST)%Z
                    (calls ++ [request])
              end
          end
      end
  end.

(** [_run_paginated_request]: [all_rows = []], [offset = 0], then the loop. *)
Definition _run_paginated_request (fuel : nat) (self : GA4AnalyticsClient)
    (start_date end_date : string)
    (dimensions metrics : option (list string))
    (dimensions_filter : option (dict PyValue))
    (order_bys : option (list string))
  : Run (list Row) GA4AnalyticsClient :=
  _run_paginated_request_loop fuel self start_date end_date dimensions metrics
    dimensions_filter order_bys [] 0%Z [].

(** The body of [for row in all_data] in [_convert_to_dataframe]: the two
    [enumerate] loops that fill [row_dict]. *)
Definition row_dict_of (dimensions metrics : list string) (row : Row)
  : result (dict string) :=
  row_dict <-
    for_each (fun row_dict item =>
                let '(i, dimension) := item in
                v <- getitem index_error_text (dimension_values row) i ;;
                Ok (dict_set row_dict dimension (dv_value v)))
             (enumerate dimensions) [] ;;
  for_each (fun row_dict item =>
              let '(i, metric) := item in
              v <- getitem index_error_text (metric_values row) i ;;
              Ok (dict_set row_dict metric (mv_value v)))
           (enumerate metrics) row_dict.

(** The list [data] that [_convert_to_dataframe] accumulates. *)
Definition _convert_to_dataframe_data (all_data : list Row)
    (dimensions metrics : list string) : result (list (dict string)) :=
  for_each (fun data row =>
              row_dict <- row_dict_of dimensions metrics row ;;
              Ok (data ++ [row_dict]))
           all_data [].

(** [_convert_to_dataframe] *)
Definition _convert_to_dataframe (all_data : list Row)
    (dimensions metrics : list string) : result DataFrame :=
  try_except
    (data <- _convert_to_dataframe_data all_data dimensions metrics ;;
     Ok (pd_DataFrame data))
    (fun e => Exc RuntimeError ("DataFrame conversion failed: " ++ str_exc e)).

(** The date step of [get_report]:
    [if convert_date_columns and 'date' in df.columns:
       df['date'] = pd.to_datetime(df['date'], format='%Y%m%d')]. *)
Definition convert_date_step (convert_date_columns : bool) (df : DataFrame)
  : result DataFrame :=
  if convert_date_columns && has_name "date" (columns df)
  then series <- to_datetime (get_column df "date") ;;
       Ok (set_column df "date" series)
  else Ok df.

(** [get_report]: paginate, tabulate, then the date step. *)
Definition get_report (fuel : nat) (self : GA4AnalyticsClient)
    (start_date end_date : string)
    (dimensions metrics : option (list string))
    (dimensions_filter : option (dict PyValue))
    (order_bys : option (list string))
    (convert_date_columns : bool) : Run DataFrame GA4AnalyticsClient :=
  let dimensions := or_empty dimensions in
  let metrics := or_empty metrics in
  let fetched :=
    _run_paginated_request fuel self start_date end_date
      (Some dimensions) (Some metrics) dimensions_filter order_bys in
  {| outcome :=
       match outcome fetched with
       | None => None
       | Some (Raise e) => Some (Raise e)
       | Some (Ok all_data) =>
           Some (df <- _convert_to_dataframe all_data dimensions metrics ;;
                 convert_date_step convert_date_columns df)
       end;
     state := state fetched;
     calls := calls fetched |}.

End WithClient.

End Ga4App.

(* ================================================================== *)
(** ** The specification's vocabulary *)

Module Spec.
Import Py SDK Pandas Trace.

(** *** Filter predicates *)

(** "field value is a member of this set" *)
Definition membership (field : string) (members : list string)
  : FilterExpression :=
  filter {| field_name := field;
            one_filter := in_list_filter
              {| values := members; il_case_sensitive := false |} |}.

(** "field value contains this substring", case-sensitive or not. *)
Definition containment (case_sensitive : bool) (field substring : string)
  : FilterExpression :=
  filter {| field_name := field;
            one_filter := string_filter
              {| match_type := CONTAINS; value := substring;
                 sf_case_sensitive := case_sensitive |} |}.

(** The predicate the specification assigns to one entry of the mapping,
    with the case sensitivity of containment left open. *)
Definition predicate_of (case_sensitive : bool) (item : string * PyValue)
  : list FilterExpression :=
  match snd item with
  | PyList members => [membership (fst item) members]
  | PyStr substring => [containment case_sensitive (fst item) substring]
  | _ => []
  end.

(** *** Rows and records *)

(** The values of a row, dimension values first. *)
Definition row_values (row : Row) : list string :=
  map dv_value (dimension_values row) ++ map mv_value (metric_values row).

(** The record of a row: the names zipped positionally against the values. *)
Definition record_of (dimensions metrics : list string) (row : Row)
  : dict string :=
  combine (dimensions ++ metrics) (row_values row).

(** Zipping names against values into a dict, position by position from
    index [i]; a missing value is an [IndexError] at its index. *)
Fixpoint zip_into (index_error_text : nat -> string) (names values : list string)
    (i : nat) (acc : dict string) : result (dict string) :=
  match names, values with
  | [], _ => Ok acc
  | _ :: _, [] => Raise (Exc IndexError (index_error_text i))
  | k :: names', v :: values' =>
      zip_into index_error_text names' values' (S i) (dict_set acc k v)
  end.

(** The record [ga4_api] builds for a row that is long enough: the dict of
    the dimensions merged with the dict of the metrics. *)
Definition merged_record (dimensions metrics : list string) (row : Row)
  : dict string :=
  dict_update
    (dict_update [] (combine dimensions (map dv_value (dimension_values row))))
    (dict_update [] (combine metrics (map mv_value (metric_values row)))).

(** The record [ga4_app] builds for a row that is long enough: the dimensions
    assigned into an empty dict, then the metrics. *)
Definition assigned_record (dimensions metrics : list string) (row : Row)
  : dict string :=
  dict_update
    (dict_update [] (combine dimensions (map dv_value (dimension_values row))))
    (combine metrics (map mv_value (metric_values row))).

(** A row lacks a value for some name. *)
Definition too_short (dimensions metrics : list string) (row : Row) : Prop :=
  (List.length (dimension_values row) < List.length dimensions)%nat \/
  (List.length (metric_values row) < List.length metrics)%nat.

(** A row carries exactly as many values as there are names. *)
Definition well_shaped (dimensions metrics : list string) (row : Row) : Prop :=
  List.length (dimension_values row) = List.length dimensions /\
  List.length (metric_values row) = List.length metrics.

(** A row carries at least as many values as there are names. *)
Definition long_enough (dimensions metrics : list string) (row : Row) : Prop :=
  (List.length dimensions <= List.length (dimension_values row))%nat /\
  (List.length metrics <= List.length (metric_values row))%nat.

(** A row with the values beyond the names dropped. *)
Definition truncated (dimensions metrics : list string) (row : Row) : Row :=
  {| dimension_values := firstn (List.length dimensions) (dimension_values row);
     metric_values := firstn (List.length metrics) (metric_values row) |}.

(** The index at which tabulation first runs past the end of a value
    sequence, if it does: rows in order, dimension values before metric
    values. *)
Fixpoint first_missing (dimensions metrics : list string) (all_data : list Row)
  : option nat :=
  match all_data with
  | [] => None
  | row :: all_data' =>
      if (List.length (dimension_values row) <? List.length dimensions)%nat
      then Some (List.length (dimension_values row))
      else if (List.length (metric_values row) <? List.length metrics)%nat
      then Some (List.length (metric_values row))
      else first_missing dimensions metrics all_data'
  end.

Definition is_list (v : PyValue) : bool :=
  match v with PyList _ => true | _ => false end.

Definition is_supported (v : PyValue) : bool :=
  match v with PyList _ | PyStr _ => true | _ => false end.

End Spec.

Module PaginationSpec.
Import Py SDK Trace.

Section Source.

(** A source of pages as the paginator sees it: the fetch capability, the
    request the paginator builds for an offset, and the page size. *)
Variable St : Type.
Variable run_report : Fetcher St.
Variable request_at : Z -> RunReportRequest.
Variable page_size : Z.

(** The offsets [offset], [offset + page_size], ... ([n] of them). *)
Fixpoint offsets (offset : Z) (n : nat) : list Z :=
  match n with
  | O => []
  | S n' => offset :: offsets (offset + page_size)%Z n'
  end.

(** Queried at [offset], [offset + page_size], ..., the source returns the
    given pages, each of them full, and then an empty page; [final] is the
    state it is left in. *)
Fixpoint serves (client : St) (offset : Z) (pages : list (list Row))
    (final : St) : Prop :=
  match pages with
  | [] =>
      exists response,
        run_report client (request_at offset) = (Ok response, final) /\
        rows response = []
  | page :: pages' =>
      exists response client',
        run_report client (request_at offset) = (Ok response, client') /\
        rows response = page /\
        Z.of_nat (List.length page) = page_size /\
        serves client' (offset + page_size)%Z pages' final
  end.

(** Queried at [offset], [offset + page_size], ..., the source returns the
    given non-empty pages and then, on the next call, raises [e]. *)
Fixpoint fails_after (client : St) (offset : Z) (pages : list (list Row))
    (e : PyExc) (final : St) : Prop :=
  match pages with
  | [] => run_report client (request_at offset) = (Raise e, final)
  | page :: pages' =>
      exists response client',
        run_report client (request_at offset) = (Ok response, client') /\
        rows response = page /\
        page <> [] /\
        fails_after client' (offset + page_size)%Z pages' e final
  end.

End Source.


Arguments serves {St} run_report request_at page_size client offset pages final.
Arguments fails_after {St} run_report request_at page_size client offset pages e final.

End PaginationSpec.

(* ================================================================== *)
(** ** Sample inputs *)

Module Samples.
Import Py SDK Pandas Trace.

(** A fetch capability that replays a script of replies, one per call, and
    keeps the replies still to come as its state. *)
Definition scripted : Fetcher (list (result RunReportResponse)) :=
  fun script _ =>
    match script with
    | [] => (Raise (Exc ApiError "no reply left"), [])
    | reply :: script' => (reply, script')
    end.

Definition reply (page : list Row) : result RunReportResponse :=
  Ok {| rows := page |}.

Definition unavailable : PyExc :=
  Exc ApiError "503 The service is currently unavailable.".

(** The names of a report and a row of it. *)
Definition sample_dimensions : list string := ["date"; "deviceCategory"].
Definition sample_metrics : list string := ["sessions"].

Definition sample_row : Row :=
  {| dimension_values := [{| dv_value := "20250601" |}; {| dv_value := "mobile" |}];
     metric_values := [{| mv_value := "42" |}] |}.

(** A page of [page_size] rows. *)
Definition full_page (page_size : Z) : list Row :=
  repeat sample_row (Z.to_nat page_size).

(** A row with one dimension value more than [sample_dimensions] names. *)
Definition surplus_row : Row :=
  {| dimension_values := [{| dv_value := "20250601" |}; {| dv_value := "mobile" |};
                          {| dv_value := "Poland" |}];
     metric_values := [{| mv_value := "42" |}] |}.

(** A row with one dimension value fewer than [sample_dimensions] names. *)
Definition short_row : Row :=
  {| dimension_values := [{| dv_value := "20250601" |}];
     metric_values := [{| mv_value := "42" |}] |}.

(** Names where "sessions" is asked for both as a dimension and as a
    metric. *)
Definition clash_dimensions : list string := ["date"; "sessions"].
Definition clash_metrics : list string := ["sessions"].

(** The text CPython gives the [IndexError] of a list. *)
Definition list_index_error (i : nat) : string := "list index out of range".

(** An object of [GA4AnalyticsClient] before its first use. *)
Definition sample_self (St : Type) : Ga4App.GA4AnalyticsClient St :=
  {| Ga4App.credentials_path := Some "credentials.json";
     Ga4App.property_id := Some "123456789";
     Ga4App._client := None |}.

(** Filter mappings: one string value; list values only; and one with a
    value of a type the filter builder does not handle. *)
Definition substring_filter : Py.dict PyValue := [("country", PyStr "Pol")].
Definition list_filters : Py.dict PyValue :=
  [("continent", PyList ["Europe"]);
   ("deviceCategory", PyList ["mobile"; "desktop"])].
Definition mixed_filters : Py.dict PyValue :=
  [("continent", PyList ["Europe"]); ("year", PyInt 2025);
   ("country", PyStr "Pol")].

(** The table of [sample_row] under the names of the sample report, and the
    table of a report without the date dimension. *)
Definition sample_frame : DataFrame :=
  {| columns := ["date"; "deviceCategory"; "sessions"];
     data := [[CStr "20250601"; CStr "mobile"; CStr "42"]] |}.
Definition dateless_frame : DataFrame :=
  {| columns := ["deviceCategory"; "sessions"];
     data := [[CStr "mobile"; CStr "42"]] |}.
Definition june_first : Date := {| year := 2025; month := 6; day := 1 |}.

End Samples.

(* ================================================================== *)
(** ** Sources of pages in general, and further sample inputs *)

Module RunSpec.
Import Py SDK Trace.

Section Source.

Variable St : Type.
Variable run_report : Fetcher St.
Variable request_at : Z -> RunReportRequest.
Variable page_size : Z.

(** Queried at [offset], [offset + page_size], ..., the source returns the
    given pages, each with at least one row but of any length, and then an
    empty page; [final] is the state it is left in. *)
Fixpoint answers (client : St) (offset : Z) (pages : list (list Row))
    (final : St) : Prop :=
  match pages with
  | [] =>
      exists response,
        run_report client (request_at offset) = (Ok response, final) /\
        rows response = []
  | page :: pages' =>
      exists response client',
        run_report client (request_at offset) = (Ok response, client') /\
        rows response = page /\
        page <> [] /\
        answers client' (offset + page_size)%Z pages' final
  end.

(** The source answers every request, in every state, with a page of at
    least one row. *)
Definition never_empty : Prop :=
  forall (client : St) (request : RunReportRequest),
    exists response client',
      run_report client request = (Ok response, client') /\
      rows response <> [].

End Source.

Arguments answers {St} run_report request_at page_size client offset pages final.
Arguments never_empty {St} run_report.

End RunSpec.

Module TableSpec.
Import Py SDK Pandas.

(** The names in order of first appearance, each once: the keys of a dict
    the names are assigned into one after the other. *)
Definition unique_names (names : list string) : list string :=
  fold_left add_column_name names [].

(** The cell of the [i]-th metric value of a row. *)
Definition metric_cell (i : nat) (row : Row) (cell : Cell) : Prop :=
  exists v, nth_error (metric_values row) i = Some v /\ cell = CStr (mv_value v).

End TableSpec.

Module MoreSamples.
Import Py SDK Trace.

(** A source that returns the same one-row page for ever. *)
Definition endless : Fetcher unit :=
  fun st _ => (Ok {| rows := [Samples.sample_row] |}, st).

(** A credentials file that cannot be read. *)
Definition no_credentials : PyExc :=
  Exc ApiError "[Errno 2] No such file or directory: 'credentials.json'".

(** A mapping whose only value is of a type the filter builder skips. *)
Definition unsupported_filter : Py.dict PyValue := [("year", PyInt 2025)].

(** Pages of one and of two rows. *)
Definition short_pages : list (list Row) :=
  [[Samples.sample_row]; [Samples.sample_row; Samples.surplus_row]].

(** The row in which the API sums up what exceeds its row limit: its date
    is not a date. *)
Definition other_row : Row :=
  {| dimension_values := [{| dv_value := "(other)" |}; {| dv_value := "(other)" |}];
     metric_values := [{| mv_value := "7" |}] |}.

End MoreSamples.

(* ================================================================== *)
(** ** Filter builder and request builder *)

Section FilterBuilder.
Import Py SDK Spec.

Lemma api_filtering_acc (d : dict PyValue) (acc : list FilterExpression) :
  fold_left
    (fun filter_expressions item =>
       let '(dimension, values) := item in
       match values with
       | PyList vs =>
           filter_expressions ++
           [filter {| field_name := dimension;
                      one_filter := in_list_filter
                        {| SDK.values := vs; il_case_sensitive := false |} |}]
       | PyStr s =>
           filter_expressions ++
           [filter {| field_name := dimension;
                      one_filter := string_filter
                        {| match_type := CONTAINS; value := s;
                           sf_case_sensitive := false |} |}]
       | _ => filter_expressions
       end) d acc
  = acc ++ flat_map (predicate_of false) d.
Proof.
  revert acc; induction d as [|[k v] d IH]; intros acc; simpl.
  - now rewrite app_nil_r.
  - rewrite IH. destruct v; unfold predicate_of; simpl;
      rewrite <- ?app_assoc; reflexivity.
Qed.

Lemma dimension_filtering_flat_map (d : dict PyValue) :
  Ga4Api.dimension_filtering d = flat_map (predicate_of false) d.
Proof. unfold Ga4Api.dimension_filtering. now rewrite api_filtering_acc. Qed.

Lemma create_filter_expressions_flat_map (d : dict PyValue) :
  Ga4App._create_filter_expressions d = flat_map (predicate_of false) d.
Proof. unfold Ga4App._create_filter_expressions. now rewrite api_filtering_acc. Qed.

Lemma flat_map_predicate_length (cs : bool) (d : dict PyValue) :
  List.length (flat_map (predicate_of cs) d)
  = List.length (List.filter (fun item => is_supported (snd item)) d).
Proof.
  induction d as [|[k v] d IH]; [reflexivity|].
  change (flat_map (predicate_of cs) ((k, v) :: d))
    with (predicate_of cs (k, v) ++ flat_map (predicate_of cs) d).
  rewrite length_app, IH. destruct v; reflexivity.
Qed.

Lemma filter_all_lists (d : dict PyValue) :
  forallb (fun item => is_list (snd item)) d = true ->
  List.filter (fun item => is_supported (snd item)) d = d.
Proof.
  induction d as [|[k v] d IH]; simpl; [reflexivity|].
  intros H. apply andb_prop in H as [Hv Hd].
  destruct v; try discriminate; simpl; now rewrite IH.
Qed.

End FilterBuilder.

(** C3, as the specification words it, fails: a string value gives a
    containment predicate on which the case-sensitivity flag of the SDK is
    not set, in both files. *)
Lemma filter_builder_containment_not_case_sensitive :
  Ga4Api.dimension_filtering Samples.substring_filter
    <> flat_map (Spec.predicate_of true) Samples.substring_filter
  /\
  Ga4App._create_filter_expressions Samples.substring_filter
    <> flat_map (Spec.predicate_of true) Samples.substring_filter.
Proof. split; discriminate. Qed.

(** C3, amended.  The filter builder of either file yields, in the order of
    the mapping, one predicate per entry whose value is a list (membership) or
    a string (containment, match type CONTAINS, case-sensitivity flag left at
    its default [false]) and nothing for an entry of another type; so the
    number of predicates is the number of list and string entries, and the
    size of the mapping when every value is a list. *)
Theorem filter_builder_predicates (d : Py.dict Py.PyValue) :
  Ga4Api.dimension_filtering d = flat_map (Spec.predicate_of false) d /\
  Ga4App._create_filter_expressions d = flat_map (Spec.predicate_of false) d /\
  List.length (Ga4Api.dimension_filtering d)
  = List.length (List.filter (fun item => Spec.is_supported (snd item)) d) /\
  List.length (Ga4App._create_filter_expressions d)
  = List.length (List.filter (fun item => Spec.is_supported (snd item)) d) /\
  (forallb (fun item => Spec.is_list (snd item)) d = true ->
   List.length (Ga4Api.dimension_filtering d) = List.length d /\
   List.length (Ga4App._create_filter_expressions d) = List.length d /\
   Forall2 (fun item predicate =>
              exists members,
                snd item = Py.PyList members /\
                predicate = Spec.membership (fst item) members)
           d (Ga4Api.dimension_filtering d)).
Proof.
  rewrite dimension_filtering_flat_map, create_filter_expressions_flat_map.
  rewrite flat_map_predicate_length.
  repeat split.
  - now rewrite filter_all_lists.
  - now rewrite filter_all_lists.
  - induction d as [|[k v] d IH]; [constructor|].
    simpl in H. apply andb_prop in H as [Hv Hd].
    destruct v; try discriminate. simpl. constructor; [|now apply IH].
    exists items. split; reflexivity.
Qed.

(** A mapping of two list values gives two membership predicates. *)
Lemma filter_builder_predicates_witness :
  List.length (Ga4Api.dimension_filtering Samples.list_filters) = 2%nat /\
  List.length (Ga4App._create_filter_expressions Samples.list_filters) = 2%nat /\
  Forall2 (fun item predicate =>
             exists members,
               snd item = Py.PyList members /\
               predicate = Spec.membership (fst item) members)
          Samples.list_filters
          (Ga4Api.dimension_filtering Samples.list_filters).
Proof.
  exact (proj2 (proj2 (proj2 (proj2
           (filter_builder_predicates Samples.list_filters)))) eq_refl).
Defined.

(** An entry whose value is an [int] gives no predicate and no error. *)
Example filter_builder_skips_other_types :
  Ga4Api.dimension_filtering Samples.mixed_filters
  = [Spec.membership "continent" ["Europe"];
     Spec.containment false "country" "Pol"] /\
  Ga4App._create_filter_expressions Samples.mixed_filters
  = [Spec.membership "continent" ["Europe"];
     Spec.containment false "country" "Pol"].
Proof. split; reflexivity. Qed.

(** C4.  On a non-empty filter mapping the request of [create_request]
    carries the predicates in an AND group and the request of
    [_create_request] carries the same predicates in an OR group; the two
    requests differ, whatever the other arguments. *)
Theorem request_builders_disagree_on_group
    (St : Type) (self : Ga4App.GA4AnalyticsClient St)
    (property_id start_date end_date : string)
    (dimensions metrics order_bys : option (list string))
    (offset limit : option Z) (d : Py.dict Py.PyValue) :
  d <> [] ->
  SDK.dimension_filter
    (Ga4Api.create_request property_id start_date end_date dimensions
       (Some d) metrics order_bys offset limit)
  = Some (SDK.and_group
            (SDK.Build_FilterExpressionList (Ga4Api.dimension_filtering d))) /\
  SDK.dimension_filter
    (Ga4App._create_request St self start_date end_date dimensions metrics
       (Some d) order_bys offset limit)
  = Some (SDK.or_group
            (SDK.Build_FilterExpressionList (Ga4Api.dimension_filtering d))) /\
  Ga4Api.create_request property_id start_date end_date dimensions
    (Some d) metrics order_bys offset limit
  <> Ga4App._create_request St self start_date end_date dimensions metrics
       (Some d) order_bys offset limit.
Proof.
  intros Hd. destruct d as [|item d]; [contradiction|].
  split; [reflexivity|]. split.
  - cbn [Ga4App._create_request SDK.dimension_filter].
    now rewrite dimension_filtering_flat_map, create_filter_expressions_flat_map.
  - intros Heq. apply (f_equal SDK.dimension_filter) in Heq.
    cbn [Ga4Api.create_request Ga4App._create_request SDK.dimension_filter] in Heq.
    discriminate.
Qed.

Lemma request_builders_disagree_on_group_witness :
  SDK.dimension_filter
    (Ga4Api.create_request "123456789" "30daysAgo" "today"
       (Some Samples.sample_dimensions) (Some Samples.substring_filter)
       (Some Samples.sample_metrics) None None None)
  = Some (SDK.and_group (SDK.Build_FilterExpressionList
            [Spec.containment false "country" "Pol"])) /\
  SDK.dimension_filter
    (Ga4App._create_request unit (Samples.sample_self unit) "30daysAgo" "today"
       (Some Samples.sample_dimensions) (Some Samples.sample_metrics)
       (Some Samples.substring_filter) None None None)
  = Some (SDK.or_group (SDK.Build_FilterExpressionList
            [Spec.containment false "country" "Pol"])).
Proof.
  destruct (request_builders_disagree_on_group unit (Samples.sample_self unit)
              "123456789" "30daysAgo" "today"
              (Some Samples.sample_dimensions) (Some Samples.sample_metrics)
              None None None Samples.substring_filter)
    as (Hand & Hor & _).
  - discriminate.
  - split; [exact Hand|exact Hor].
Defined.

(** C6.  For an empty filter mapping (and for none at all) the request of
    either builder has no [dimension_filter]. *)
Theorem empty_filter_mapping_attaches_no_group
    (St : Type) (self : Ga4App.GA4AnalyticsClient St)
    (property_id start_date end_date : string)
    (dimensions metrics order_bys : option (list string))
    (offset limit : option Z) :
  SDK.dimension_filter
    (Ga4Api.create_request property_id start_date end_date dimensions
       (Some []) metrics order_bys offset limit) = None /\
  SDK.dimension_filter
    (Ga4App._create_request St self start_date end_date dimensions metrics
       (Some []) order_bys offset limit) = None /\
  SDK.dimension_filter
    (Ga4Api.create_request property_id start_date end_date dimensions
       None metrics order_bys offset limit) = None /\
  SDK.dimension_filter
    (Ga4App._create_request St self start_date end_date dimensions metrics
       None order_bys offset limit) = None.
Proof. repeat split. Qed.

Section PaginatorLimits.
Import Py SDK Trace.

Lemma api_loop_limits St (run_report : Fetcher St) (fuel : nat) :
  forall client pid sd ed dims df mets obs all_rows offset calls,
    Forall (fun request => limit request = Ga4Api.MAX_ROWS_PER_REQUEST) calls ->
    Forall (fun request => limit request = Ga4Api.MAX_ROWS_PER_REQUEST)
      (Trace.calls
         (Ga4Api.run_paginated_request_loop St run_report fuel client pid sd
            ed dims df mets obs all_rows offset calls)).
Proof.
  induction fuel as [|fuel IH]; intros client pid sd ed dims df mets obs
    all_rows offset calls Hcalls; simpl; [exact Hcalls|].
  assert (Hnext : forall request,
             limit request = Ga4Api.MAX_ROWS_PER_REQUEST ->
             Forall (fun request => limit request = Ga4Api.MAX_ROWS_PER_REQUEST)
               (calls ++ [request])).
  { intros request Hl. apply Forall_app. split; [exact Hcalls|].
    constructor; [exact Hl|constructor]. }
  destruct (run_report client _) as [[response|e] client'].
  - destruct (rows response); [now apply Hnext|].
    apply IH. now apply Hnext.
  - now apply Hnext.
Qed.

Lemma app_loop_limits St connect (run_report : Fetcher St) (fuel : nat) :
  forall self sd ed dims mets df obs all_rows offset calls,
    Forall (fun request => limit request = Ga4App.MAX_ROWS_PER_REQUEST) calls ->
    Forall (fun request => limit request = Ga4App.MAX_ROWS_PER_REQUEST)
      (Trace.calls
         (Ga4App._run_paginated_request_loop St connect run_report fuel self
            sd ed dims mets df obs all_rows offset calls)).
Proof.
  induction fuel as [|fuel IH]; intros self sd ed dims mets df obs
    all_rows offset calls Hcalls; simpl; [exact Hcalls|].
  assert (Hnext : forall request,
             limit request = Ga4App.MAX_ROWS_PER_REQUEST ->
             Forall (fun request => limit request = Ga4App.MAX_ROWS_PER_REQUEST)
               (calls ++ [request])).
  { intros request Hl. apply Forall_app. split; [exact Hcalls|].
    constructor; [exact Hl|constructor]. }
  destruct (Ga4App.client St connect self) as [[c|e] self']; [|exact Hcalls].
  destruct (run_report c _) as [[response|e] c'].
  - destruct (rows response); [now apply Hnext|].
    apply IH. now apply Hnext.
  - now apply Hnext.
Qed.

End PaginatorLimits.

(** C5, as the specification words it, fails: a limit above the constant is
    passed on unchanged by both request builders. *)
Lemma request_limit_not_capped :
  ~ (SDK.limit
       (Ga4Api.create_request "123456789" "30daysAgo" "today" None None None
          None None (Some 500000%Z))
     <= Ga4Api.MAX_ROWS_PER_REQUEST)%Z
  /\
  ~ (SDK.limit
       (Ga4App._create_request unit (Samples.sample_self unit) "30daysAgo"
          "today" None None None None None (Some 500000%Z))
     <= Ga4App.MAX_ROWS_PER_REQUEST)%Z.
Proof. split; intros H; vm_compute in H; apply H; reflexivity. Qed.

(** C5, amended.  The limit of a request is the limit the caller gives;
    the constant (100,000 in [ga4_api], 250,000 in [ga4_app]) is what is used
    when no limit is given (in [ga4_app] also for a limit of 0).  So the limit
    stays within the constant when the caller's limit does, and every request
    a paginator sends has the constant as its limit. *)
Theorem request_limit_is_the_callers
    (St : Type) (connect : option string -> Py.result St)
    (run_report : SDK.Fetcher St) (self : Ga4App.GA4AnalyticsClient St)
    (client : St) (fuel : nat)
    (property_id start_date end_date : string)
    (dimensions metrics order_bys : option (list string))
    (dimensions_filter : option (Py.dict Py.PyValue))
    (offset limit : option Z) :
  let api_request :=
    Ga4Api.create_request property_id start_date end_date dimensions
      dimensions_filter metrics order_bys offset limit in
  let app_request :=
    Ga4App._create_request St self start_date end_date dimensions metrics
      dimensions_filter order_bys offset limit in
  SDK.limit api_request
  = match limit with Some l => l | None => 100000%Z end /\
  SDK.limit app_request
  = match limit with
    | Some 0%Z | None => 250000%Z
    | Some l => l
    end /\
  (match limit with
   | Some l => (l <= Ga4Api.MAX_ROWS_PER_REQUEST)%Z
   | None => True
   end -> (SDK.limit api_request <= Ga4Api.MAX_ROWS_PER_REQUEST)%Z) /\
  (match limit with
   | Some l => (l <= Ga4App.MAX_ROWS_PER_REQUEST)%Z
   | None => True
   end -> (SDK.limit app_request <= Ga4App.MAX_ROWS_PER_REQUEST)%Z) /\
  Forall (fun request => SDK.limit request = Ga4Api.MAX_ROWS_PER_REQUEST)
    (Trace.calls
       (Ga4Api.run_paginated_request St run_report fuel client property_id
          start_date end_date dimensions dimensions_filter metrics order_bys)) /\
  Forall (fun request => SDK.limit request = Ga4App.MAX_ROWS_PER_REQUEST)
    (Trace.calls
       (Ga4App._run_paginated_request St connect run_report fuel self
          start_date end_date dimensions metrics dimensions_filter order_bys)).
Proof.
  intros api_request app_request. subst api_request app_request.
  cbn [Ga4Api.create_request Ga4App._create_request SDK.limit].
  repeat split.
  - destruct limit as [l|]; [trivial|intros _; discriminate].
  - destruct limit as [[|l|l]|]; trivial; intros _; discriminate.
  - apply api_loop_limits. constructor.
  - apply app_loop_limits. constructor.
Qed.

(** A caller's limit of 5,000 is within both constants and is kept. *)
Lemma request_limit_is_the_callers_witness :
  (SDK.limit
     (Ga4Api.create_request "123456789" "30daysAgo" "today" None None None
        None None (Some 5000%Z))
   <= Ga4Api.MAX_ROWS_PER_REQUEST)%Z /\
  (SDK.limit
     (Ga4App._create_request unit (Samples.sample_self unit) "30daysAgo"
        "today" None None None None None (Some 5000%Z))
   <= Ga4App.MAX_ROWS_PER_REQUEST)%Z.
Proof.
  destruct (request_limit_is_the_callers unit (fun _ => Py.Ok tt)
              (fun st _ => (Py.Ok {| SDK.rows := [] |}, st))
              (Samples.sample_self unit) tt 1 "123456789" "30daysAgo" "today"
              None None None None None (Some 5000%Z))
    as (_ & _ & Hapi & Happ & _).
  split; [apply Hapi|apply Happ]; discriminate.
Defined.

(* ================================================================== *)
(** ** Paginator *)

Section PaginatorApi.
Import Py SDK Trace PaginationSpec.

Variable St : Type.
Variable run_report : Fetcher St.
Variables property_id start_date end_date : string.
Variables dimensions metrics order_bys : option (list string).
Variable dimensions_filter : option (dict PyValue).

(** The request [run_paginated_request] builds at an offset. *)
Let api_request (offset : Z) : RunReportRequest :=
  Ga4Api.create_request property_id start_date end_date dimensions
    dimensions_filter metrics order_bys (Some offset)
    (Some Ga4Api.MAX_ROWS_PER_REQUEST).

Let api_loop (fuel : nat) (client : St) :=
  Ga4Api.run_paginated_request_loop St run_report fuel client property_id
    start_date end_date dimensions dimensions_filter metrics order_bys.

Lemma full_page_nonempty (page_size : Z) (page : list Row) :
  (0 < page_size)%Z -> Z.of_nat (List.length page) = page_size -> page <> [].
Proof. intros Hpos Hlen ->. simpl in Hlen. lia. Qed.

Lemma api_loop_serves (pages : list (list Row)) :
  forall (fuel : nat) (client final : St) (offset : Z) (all_rows : list Row)
         (calls : list RunReportRequest),
    serves run_report api_request Ga4Api.MAX_ROWS_PER_REQUEST
      client offset pages final ->
    (List.length pages < fuel)%nat ->
    api_loop fuel client all_rows offset calls
    = {| outcome := Some (Ok (all_rows ++ List.concat pages));
         state := final;
         calls := calls ++ map api_request
                    (offsets Ga4Api.MAX_ROWS_PER_REQUEST offset
                       (S (List.length pages))) |}.
Proof.
  induction pages as [|page pages IH]; intros fuel client final offset all_rows
    calls Hserves Hfuel.
  - destruct Hserves as (response & Hcall & Hrows).
    destruct fuel as [|fuel]; [inversion Hfuel|].
    unfold api_loop; simpl. fold (api_request offset).
    rewrite Hcall, Hrows. now rewrite app_nil_r.
  - destruct Hserves as (response & client' & Hcall & Hrows & Hfull & Hrest).
    destruct fuel as [|fuel]; [inversion Hfuel|].
    assert (Hne : page <> []).
    { apply (full_page_nonempty Ga4Api.MAX_ROWS_PER_REQUEST); [reflexivity|exact Hfull]. }
    unfold api_loop; simpl Ga4Api.run_paginated_request_loop.
    fold (api_request offset). rewrite Hcall, Hrows.
    destruct page as [|row page]; [contradiction|].
    fold (api_loop fuel client').
    rewrite (IH fuel client' final); [|exact Hrest|simpl in Hfuel; lia].
    simpl. now rewrite <- !app_assoc.
Qed.

Lemma api_loop_fails (pages : list (list Row)) :
  forall (fuel : nat) (client final : St) (offset : Z) (all_rows : list Row)
         (calls : list RunReportRequest) (e : PyExc),
    fails_after run_report api_request Ga4Api.MAX_ROWS_PER_REQUEST
      client offset pages e final ->
    (List.length pages < fuel)%nat ->
    api_loop fuel client all_rows offset calls
    = {| outcome :=
           Some (Raise (Exc RuntimeError
             ("Failed to run request at offset "
              ++ str_int (offset + Z.of_nat (List.length pages)
                                   * Ga4Api.MAX_ROWS_PER_REQUEST)
              ++ ": " ++ str_exc e)));
         state := final;
         calls := calls ++ map api_request
                    (offsets Ga4Api.MAX_ROWS_PER_REQUEST offset
                       (S (List.length pages))) |}.
Proof.
  induction pages as [|page pages IH]; intros fuel client final offset all_rows
    calls e Hfails Hfuel.
  - simpl in Hfails.
    destruct fuel as [|fuel]; [inversion Hfuel|].
    unfold api_loop; simpl. fold (api_request offset).
    rewrite Hfails. now rewrite Z.add_0_r.
  - destruct Hfails as (response & client' & Hcall & Hrows & Hne & Hrest).
    destruct fuel as [|fuel]; [inversion Hfuel|].
    unfold api_loop; simpl Ga4Api.run_paginated_request_loop.
    fold (api_request offset). rewrite Hcall, Hrows.
    destruct page as [|row page]; [contradiction|].
    fold (api_loop fuel client').
    rewrite (IH fuel client' final _ _ _ e); [|exact Hrest|simpl in Hfuel; lia].
    cbn [offsets map List.length]. rewrite <- !app_assoc. cbn [app].
    replace (offset + Ga4Api.MAX_ROWS_PER_REQUEST
             + Z.of_nat (List.length pages) * Ga4Api.MAX_ROWS_PER_REQUEST)%Z
      with (offset + Z.of_nat (S (List.length pages))
                     * Ga4Api.MAX_ROWS_PER_REQUEST)%Z by lia.
    reflexivity.
Qed.

End PaginatorApi.

Section PaginatorApp.
Import Py SDK Trace PaginationSpec.

Variable St : Type.
Variable connect : option string -> result St.
Variable run_report : Fetcher St.
Variables start_date end_date : string.
Variables dimensions metrics order_bys : option (list string).
Variable dimensions_filter : option (dict PyValue).

(** The request [_run_paginated_request] builds at an offset. *)
Let app_request (self : Ga4App.GA4AnalyticsClient St) (offset : Z)
  : RunReportRequest :=
  Ga4App._create_request St self start_date end_date dimensions metrics
    dimensions_filter order_bys (Some offset)
    (Some Ga4App.MAX_ROWS_PER_REQUEST).

Let app_loop (fuel : nat) (self : Ga4App.GA4AnalyticsClient St) :=
  Ga4App._run_paginated_request_loop St connect run_report fuel self
    start_date end_date dimensions metrics dimensions_filter order_bys.

Lemma app_loop_serves (pages : list (list Row)) :
  forall (fuel : nat) (self : Ga4App.GA4AnalyticsClient St) (c final : St)
         (offset : Z) (all_rows : list Row) (calls : list RunReportRequest),
    Ga4App._client St self = Some c ->
    serves run_report (app_request self) Ga4App.MAX_ROWS_PER_REQUEST
      c offset pages final ->
    (List.length pages < fuel)%nat ->
    app_loop fuel self all_rows offset calls
    = {| outcome := Some (Ok (all_rows ++ List.concat pages));
         state := Ga4App.with_client St self final;
         calls := calls ++ map (app_request self)
                    (offsets Ga4App.MAX_ROWS_PER_REQUEST offset
                       (S (List.length pages))) |}.
Proof.
  induction pages as [|page pages IH]; intros fuel self c final offset all_rows
    calls Hc Hserves Hfuel.
  - destruct Hserves as (response & Hcall & Hrows).
    destruct fuel as [|fuel]; [inversion Hfuel|].
    unfold app_loop; simpl. unfold Ga4App.client. rewrite Hc.
    fold (app_request self offset).
    rewrite Hcall, Hrows. now rewrite app_nil_r.
  - destruct Hserves as (response & c' & Hcall & Hrows & Hfull & Hrest).
    destruct fuel as [|fuel]; [inversion Hfuel|].
    assert (Hne : page <> []).
    { apply (full_page_nonempty Ga4App.MAX_ROWS_PER_REQUEST); [reflexivity|exact Hfull]. }
    unfold app_loop; simpl Ga4App._run_paginated_request_loop.
    unfold Ga4App.client. rewrite Hc.
    fold (app_request self offset). rewrite Hcall, Hrows.
    destruct page as [|row page]; [contradiction|].
    fold (app_loop fuel (Ga4App.with_client St self c')).
    rewrite (IH fuel (Ga4App.with_client St self c') c' final);
      [|reflexivity|exact Hrest|simpl in Hfuel; lia].
    simpl. now rewrite <- !app_assoc.
Qed.

Lemma app_loop_fails (pages : list (list Row)) :
  forall (fuel : nat) (self : Ga4App.GA4AnalyticsClient St) (c final : St)
         (offset : Z) (all_rows : list Row) (calls : list RunReportRequest)
         (e : PyExc),
    Ga4App._client St self = Some c ->
    fails_after run_report (app_request self) Ga4App.MAX_ROWS_PER_REQUEST
      c offset pages e final ->
    (List.length pages < fuel)%nat ->
    app_loop fuel self all_rows offset calls
    = {| outcome :=
           Some (Raise (Exc RuntimeError
             ("API request failed at offset "
              ++ str_int (offset + Z.of_nat (List.length pages)
                                   * Ga4App.MAX_ROWS_PER_REQUEST)
              ++ ": " ++ str_exc e)));
         state := Ga4App.with_client St self final;
         calls := calls ++ map (app_request self)
                    (offsets Ga4App.MAX_ROWS_PER_REQUEST offset
                       (S (List.length pages))) |}.
Proof.
  induction pages as [|page pages IH]; intros fuel self c final offset all_rows
    calls e Hc Hfails Hfuel.
  - simpl in Hfails.
    destruct fuel as [|fuel]; [inversion Hfuel|].
    unfold app_loop; simpl. unfold Ga4App.client. rewrite Hc.
    fold (app_request self offset).
    rewrite Hfails. now rewrite Z.add_0_r.
  - destruct Hfails as (response & c' & Hcall & Hrows & Hne & Hrest).
    destruct fuel as [|fuel]; [inversion Hfuel|].
    unfold app_loop; simpl Ga4App._run_paginated_request_loop.
    unfold Ga4App.client. rewrite Hc.
    fold (app_request self offset). rewrite Hcall, Hrows.
    destruct page as [|row page]; [contradiction|].
    fold (app_loop fuel (Ga4App.with_client St self c')).
    rewrite (IH fuel (Ga4App.with_client St self c') c' final _ _ _ e);
      [|reflexivity|exact Hrest|simpl in Hfuel; lia].
    cbn [offsets map List.length]. rewrite <- !app_assoc. cbn [app].
    replace (offset + Ga4App.MAX_ROWS_PER_REQUEST
             + Z.of_nat (List.length pages) * Ga4App.MAX_ROWS_PER_REQUEST)%Z
      with (offset + Z.of_nat (S (List.length pages))
                     * Ga4App.MAX_ROWS_PER_REQUEST)%Z by lia.
    reflexivity.
Qed.

(** Connecting lazily: a run that starts unconnected and connects to [c]
    goes on as the run of the connected object. *)
Lemma app_loop_connect (fuel : nat) (self : Ga4App.GA4AnalyticsClient St)
    (c : St) (offset : Z) (all_rows : list Row) (calls : list RunReportRequest) :
  fst (Ga4App.client St connect self) = Ok c ->
  app_loop (S fuel) self all_rows offset calls
  = app_loop (S fuel) (Ga4App.with_client St self c) all_rows offset calls.
Proof.
  intros Hc. unfold app_loop; simpl Ga4App._run_paginated_request_loop.
  unfold Ga4App.client in *. cbn [Ga4App.with_client Ga4App._client].
  destruct (Ga4App._client St self) as [c0|] eqn:Hself.
  - simpl in Hc. injection Hc as ->. reflexivity.
  - destruct (Ga4App._establish_connection St connect self) as [c0|e0];
      simpl in Hc; [injection Hc as ->|discriminate].
    reflexivity.
Qed.

End PaginatorApp.

Section PaginationFacts.
Import Py SDK Trace PaginationSpec.

Lemma offsets_length (page_size offset : Z) (n : nat) :
  List.length (offsets page_size offset n) = n.
Proof. revert offset; induction n; intros; simpl; [reflexivity|now rewrite IHn]. Qed.

Lemma serves_full {St} (run_report : Fetcher St) request_at page_size
    (pages : list (list Row)) :
  forall client offset final,
    serves run_report request_at page_size client offset pages final ->
    Forall (fun page => Z.of_nat (List.length page) = page_size) pages.
Proof.
  induction pages as [|page pages IH]; intros client offset final H.
  - constructor.
  - destruct H as (response & client' & _ & _ & Hfull & Hrest).
    constructor; [exact Hfull|eapply IH; exact Hrest].
Qed.

Lemma concat_full_length (page_size : Z) (pages : list (list Row)) :
  Forall (fun page => Z.of_nat (List.length page) = page_size) pages ->
  Z.of_nat (List.length (List.concat pages))
  = (Z.of_nat (List.length pages) * page_size)%Z.
Proof.
  induction 1 as [|page pages Hpage _ IH]; [reflexivity|].
  cbn [List.concat List.length]. rewrite length_app. lia.
Qed.

Lemma api_request_offsets pid sd ed dims df mets obs (l : list Z) :
  map SDK.offset
    (map (fun o => Ga4Api.create_request pid sd ed dims df mets obs (Some o)
                     (Some Ga4Api.MAX_ROWS_PER_REQUEST)) l) = l.
Proof. rewrite map_map. simpl. apply map_id. Qed.

Lemma app_request_offsets St (self : Ga4App.GA4AnalyticsClient St)
    sd ed dims mets df obs (l : list Z) :
  map SDK.offset
    (map (fun o => Ga4App._create_request St self sd ed dims mets df obs
                     (Some o) (Some Ga4App.MAX_ROWS_PER_REQUEST)) l) = l.
Proof. rewrite map_map. simpl. apply map_id. Qed.

End PaginationFacts.

(** C1.  When the source, asked at offsets 0, page_size, 2 * page_size, ...,
    returns k full pages and then an empty page, the paginator of either file
    (given fuel for k + 1 iterations) returns: the result is the rows of the
    k pages in fetch order, k * page_size of them; exactly k + 1 requests were
    sent, with offsets 0, page_size, ..., k * page_size.  For k = 0 this is one
    request and an empty result. *)
Theorem paginator_returns_all_pages :
  (forall (St : Type) (run_report : SDK.Fetcher St)
          (property_id start_date end_date : string)
          (dimensions : option (list string))
          (dimensions_filter : option (Py.dict Py.PyValue))
          (metrics order_bys : option (list string))
          (client final : St) (pages : list (list SDK.Row)) (fuel : nat),
      PaginationSpec.serves run_report
        (fun offset =>
           Ga4Api.create_request property_id start_date end_date dimensions
             dimensions_filter metrics order_bys (Some offset)
             (Some Ga4Api.MAX_ROWS_PER_REQUEST))
        Ga4Api.MAX_ROWS_PER_REQUEST client 0%Z pages final ->
      (List.length pages < fuel)%nat ->
      let run :=
        Ga4Api.run_paginated_request St run_report fuel client property_id
          start_date end_date dimensions dimensions_filter metrics order_bys in
      Trace.outcome run = Some (Py.Ok (List.concat pages)) /\
      Trace.state run = final /\
      List.length (Trace.calls run) = S (List.length pages) /\
      map SDK.offset (Trace.calls run)
      = PaginationSpec.offsets Ga4Api.MAX_ROWS_PER_REQUEST 0%Z
          (S (List.length pages)) /\
      Z.of_nat (List.length (List.concat pages))
      = (Z.of_nat (List.length pages) * Ga4Api.MAX_ROWS_PER_REQUEST)%Z)
  /\
  (forall (St : Type) (connect : option string -> Py.result St)
          (run_report : SDK.Fetcher St)
          (self : Ga4App.GA4AnalyticsClient St)
          (start_date end_date : string)
          (dimensions metrics : option (list string))
          (dimensions_filter : option (Py.dict Py.PyValue))
          (order_bys : option (list string))
          (client final : St) (pages : list (list SDK.Row)) (fuel : nat),
      fst (Ga4App.client St connect self) = Py.Ok client ->
      PaginationSpec.serves run_report
        (fun offset =>
           Ga4App._create_request St self start_date end_date dimensions
             metrics dimensions_filter order_bys (Some offset)
             (Some Ga4App.MAX_ROWS_PER_REQUEST))
        Ga4App.MAX_ROWS_PER_REQUEST client 0%Z pages final ->
      (List.length pages < fuel)%nat ->
      let run :=
        Ga4App._run_paginated_request St connect run_report fuel self
          start_date end_date dimensions metrics dimensions_filter order_bys in
      Trace.outcome run = Some (Py.Ok (List.concat pages)) /\
      Trace.state run = Ga4App.with_client St self final /\
      List.length (Trace.calls run) = S (List.length pages) /\
      map SDK.offset (Trace.calls run)
      = PaginationSpec.offsets Ga4App.MAX_ROWS_PER_REQUEST 0%Z
          (S (List.length pages)) /\
      Z.of_nat (List.length (List.concat pages))
      = (Z.of_nat (List.length pages) * Ga4App.MAX_ROWS_PER_REQUEST)%Z).
Proof.
  split.
  - intros St run_report pid sd ed dims df mets obs client final pages fuel
      Hserves Hfuel run.
    assert (Hrun := api_loop_serves St run_report pid sd ed dims mets obs df
                      pages fuel client final 0%Z [] [] Hserves Hfuel).
    subst run. unfold Ga4Api.run_paginated_request. rewrite Hrun. cbn [Trace.outcome Trace.state Trace.calls app].
    repeat split.
    + now rewrite length_map, offsets_length.
    + apply api_request_offsets.
    + apply concat_full_length. eapply serves_full; exact Hserves.
  - intros St connect run_report self sd ed dims mets df obs client final
      pages fuel Hclient Hserves Hfuel run.
    destruct fuel as [|fuel]; [inversion Hfuel|].
    assert (Hrun := app_loop_serves St connect run_report sd ed dims mets obs
                      df pages (S fuel) (Ga4App.with_client St self client)
                      client final 0%Z [] [] eq_refl Hserves Hfuel).
    subst run. unfold Ga4App._run_paginated_request.
    rewrite (app_loop_connect St connect run_report sd ed dims mets obs df
               fuel self client 0%Z [] [] Hclient).
    rewrite Hrun. cbn [Trace.outcome Trace.state Trace.calls app].
    repeat split.
    + now rewrite length_map, offsets_length.
    + apply app_request_offsets.
    + apply concat_full_length. eapply serves_full; exact Hserves.
Qed.

Lemma full_page_length (page_size : Z) :
  (0 <= page_size)%Z ->
  Z.of_nat (List.length (Samples.full_page page_size)) = page_size.
Proof.
  intros H. unfold Samples.full_page. rewrite repeat_length. now apply Z2Nat.id.
Qed.

(** Two full pages and an empty one, replayed to both paginators. *)
Lemma paginator_returns_all_pages_witness :
  (let page := Samples.full_page Ga4Api.MAX_ROWS_PER_REQUEST in
   let run :=
     Ga4Api.run_paginated_request _ Samples.scripted 3
       [Samples.reply page; Samples.reply page; Samples.reply []]
       "123456789" "30daysAgo" "today" (Some Samples.sample_dimensions)
       None (Some Samples.sample_metrics) None in
   Trace.outcome run = Some (Py.Ok (page ++ page ++ [])) /\
   List.length (Trace.calls run) = 3%nat /\
   map SDK.offset (Trace.calls run) = [0; 100000; 200000]%Z)
  /\
  (let page := Samples.full_page Ga4App.MAX_ROWS_PER_REQUEST in
   let run :=
     Ga4App._run_paginated_request _
       (fun _ => Py.Ok [Samples.reply page; Samples.reply page; Samples.reply []])
       Samples.scripted 3 (Samples.sample_self _)
       "2025-06-01" "yesterday" (Some Samples.sample_dimensions)
       (Some Samples.sample_metrics) None None in
   Trace.outcome run = Some (Py.Ok (page ++ page ++ [])) /\
   List.length (Trace.calls run) = 3%nat /\
   map SDK.offset (Trace.calls run) = [0; 250000; 500000]%Z).
Proof.
  split.
  - pose proof (full_page_length Ga4Api.MAX_ROWS_PER_REQUEST) as Hfull.
    generalize dependent (Samples.full_page Ga4Api.MAX_ROWS_PER_REQUEST).
    intros page Hfull. specialize (Hfull ltac:(discriminate)). intros run.
    destruct (proj1 paginator_returns_all_pages _ Samples.scripted
                "123456789" "30daysAgo" "today" (Some Samples.sample_dimensions)
                None (Some Samples.sample_metrics) None
                [Samples.reply page; Samples.reply page; Samples.reply []] []
                [page; page] 3%nat)
      as (Hout & _ & Hlen & Hoff & _).
    + simpl. exists {| SDK.rows := page |}, [Samples.reply page; Samples.reply []].
      repeat split; [exact Hfull|].
      exists {| SDK.rows := page |}, [Samples.reply []].
      repeat split; [exact Hfull|].
      exists {| SDK.rows := [] |}. split; reflexivity.
    + simpl; lia.
    + repeat split; assumption.
  - pose proof (full_page_length Ga4App.MAX_ROWS_PER_REQUEST) as Hfull.
    generalize dependent (Samples.full_page Ga4App.MAX_ROWS_PER_REQUEST).
    intros page Hfull. specialize (Hfull ltac:(discriminate)). intros run.
    destruct (proj2 paginator_returns_all_pages _
                (fun _ => Py.Ok [Samples.reply page; Samples.reply page; Samples.reply []])
                Samples.scripted (Samples.sample_self _)
                "2025-06-01" "yesterday" (Some Samples.sample_dimensions)
                (Some Samples.sample_metrics) None None
                [Samples.reply page; Samples.reply page; Samples.reply []] []
                [page; page] 3%nat)
      as (Hout & _ & Hlen & Hoff & _).
    + reflexivity.
    + simpl. exists {| SDK.rows := page |}, [Samples.reply page; Samples.reply []].
      repeat split; [exact Hfull|].
      exists {| SDK.rows := page |}, [Samples.reply []].
      repeat split; [exact Hfull|].
      exists {| SDK.rows := [] |}. split; reflexivity.
    + simpl; lia.
    + repeat split; assumption.
Defined.

Section GetReportFetch.
Import Py SDK Trace PaginationSpec.

Lemma fails_after_ext {St} (run_report : Fetcher St)
    (f g : Z -> RunReportRequest) (page_size : Z) (pages : list (list Row)) :
  (forall o, f o = g o) ->
  forall client offset e final,
    fails_after run_report f page_size client offset pages e final ->
    fails_after run_report g page_size client offset pages e final.
Proof.
  intros Hfg. induction pages as [|page pages IH]; intros client offset e final;
    simpl; rewrite <- Hfg.
  - trivial.
  - intros (response & client' & Hcall & Hrows & Hne & Hrest).
    exists response, client'. repeat split; auto.
Qed.

(** [get_report] hands [dimensions or []] and [metrics or []] on; the
    requests are the same. *)
Lemma app_request_or_empty St (self : Ga4App.GA4AnalyticsClient St)
    sd ed dims mets df obs o l :
  Ga4App._create_request St self sd ed (Some (or_empty dims))
    (Some (or_empty mets)) df obs o l
  = Ga4App._create_request St self sd ed dims mets df obs o l.
Proof. destruct dims, mets; reflexivity. Qed.

End GetReportFetch.

(** C2.  When the j-th call of the source raises (the j - 1 calls before it
    having returned non-empty pages), the paginator of either file (given fuel
    for j iterations) raises: no rows are returned, exactly j requests were
    sent, and the [RuntimeError] raised names the offset (j - 1) * page_size of
    the failed call and ends with the text of the original exception.
    [get_report] then raises the same error and builds no table. *)
Theorem paginator_fetch_failure_aborts :
  (forall (St : Type) (run_report : SDK.Fetcher St)
          (property_id start_date end_date : string)
          (dimensions : option (list string))
          (dimensions_filter : option (Py.dict Py.PyValue))
          (metrics order_bys : option (list string))
          (client final : St) (pages : list (list SDK.Row)) (e : Py.PyExc)
          (fuel : nat),
      PaginationSpec.fails_after run_report
        (fun offset =>
           Ga4Api.create_request property_id start_date end_date dimensions
             dimensions_filter metrics order_bys (Some offset)
             (Some Ga4Api.MAX_ROWS_PER_REQUEST))
        Ga4Api.MAX_ROWS_PER_REQUEST client 0%Z pages e final ->
      (List.length pages < fuel)%nat ->
      let run :=
        Ga4Api.run_paginated_request St run_report fuel client property_id
          start_date end_date dimensions dimensions_filter metrics order_bys in
      Trace.outcome run
      = Some (Py.Raise (Py.Exc Py.RuntimeError
          ("Failed to run request at offset "
           ++ Py.str_int (Z.of_nat (List.length pages)
                          * Ga4Api.MAX_ROWS_PER_REQUEST)
           ++ ": " ++ Py.str_exc e))) /\
      Trace.state run = final /\
      List.length (Trace.calls run) = S (List.length pages) /\
      map SDK.offset (Trace.calls run)
      = PaginationSpec.offsets Ga4Api.MAX_ROWS_PER_REQUEST 0%Z
          (S (List.length pages)))
  /\
  (forall (St : Type) (connect : option string -> Py.result St)
          (run_report : SDK.Fetcher St) (index_error_text : nat -> string)
          (self : Ga4App.GA4AnalyticsClient St)
          (start_date end_date : string)
          (dimensions metrics : option (list string))
          (dimensions_filter : option (Py.dict Py.PyValue))
          (order_bys : option (list string)) (convert_date_columns : bool)
          (client final : St) (pages : list (list SDK.Row)) (e : Py.PyExc)
          (fuel : nat),
      fst (Ga4App.client St connect self) = Py.Ok client ->
      PaginationSpec.fails_after run_report
        (fun offset =>
           Ga4App._create_request St self start_date end_date dimensions
             metrics dimensions_filter order_bys (Some offset)
             (Some Ga4App.MAX_ROWS_PER_REQUEST))
        Ga4App.MAX_ROWS_PER_REQUEST client 0%Z pages e final ->
      (List.length pages < fuel)%nat ->
      let run :=
        Ga4App._run_paginated_request St connect run_report fuel self
          start_date end_date dimensions metrics dimensions_filter order_bys in
      let failure : Py.PyExc :=
        Py.Exc Py.RuntimeError
          ("API request failed at offset "
           ++ Py.str_int (Z.of_nat (List.length pages)
                          * Ga4App.MAX_ROWS_PER_REQUEST)
           ++ ": " ++ Py.str_exc e) in
      Trace.outcome run = Some (Py.Raise failure) /\
      Trace.state run = Ga4App.with_client St self final /\
      List.length (Trace.calls run) = S (List.length pages) /\
      map SDK.offset (Trace.calls run)
      = PaginationSpec.offsets Ga4App.MAX_ROWS_PER_REQUEST 0%Z
          (S (List.length pages)) /\
      Trace.outcome
        (Ga4App.get_report St connect run_report index_error_text fuel self
           start_date end_date dimensions metrics dimensions_filter order_bys
           convert_date_columns)
      = Some (Py.Raise failure)).
Proof.
  split.
  - intros St run_report pid sd ed dims df mets obs client final pages e fuel
      Hfails Hfuel run.
    assert (Hrun := api_loop_fails St run_report pid sd ed dims mets obs df
                      pages fuel client final 0%Z [] [] e Hfails Hfuel).
    subst run. unfold Ga4Api.run_paginated_request. rewrite Hrun.
    cbn [Trace.outcome Trace.state Trace.calls app]. rewrite Z.add_0_l.
    repeat split.
    + now rewrite length_map, offsets_length.
    + apply api_request_offsets.
  - intros St connect run_report index_error_text self sd ed dims mets df obs
      cdc client final pages e fuel Hclient Hfails Hfuel run failure.
    destruct fuel as [|fuel]; [inversion Hfuel|].
    assert (Hrun := app_loop_fails St connect run_report sd ed dims mets obs
                      df pages (S fuel) (Ga4App.with_client St self client)
                      client final 0%Z [] [] e eq_refl Hfails Hfuel).
    assert (Hfails' := fails_after_ext run_report _ _ _ pages
               (fun o => eq_sym (app_request_or_empty St self sd ed dims mets
                                   df obs (Some o)
                                   (Some Ga4App.MAX_ROWS_PER_REQUEST)))
               _ _ _ _ Hfails).
    assert (Hrun' := app_loop_fails St connect run_report sd ed
                      (Some (Py.or_empty dims)) (Some (Py.or_empty mets)) obs
                      df pages (S fuel) (Ga4App.with_client St self client)
                      client final 0%Z [] [] e eq_refl Hfails').
    subst run failure. unfold Ga4App.get_report, Ga4App._run_paginated_request.
    rewrite !(app_loop_connect St connect run_report _ _ _ _ _ _
                fuel self client 0%Z [] [] Hclient).
    rewrite Hrun, Hrun' by exact Hfuel.
    cbn [Trace.outcome Trace.state Trace.calls app]. rewrite Z.add_0_l.
    repeat split.
    + now rewrite length_map, offsets_length.
    + apply app_request_offsets.
Qed.

(** A page of one row, then a failure of the second call. *)
Lemma paginator_fetch_failure_aborts_witness :
  (let run :=
     Ga4Api.run_paginated_request _ Samples.scripted 2
       [Samples.reply [Samples.sample_row]; Py.Raise Samples.unavailable]
       "123456789" "30daysAgo" "today" (Some Samples.sample_dimensions)
       None (Some Samples.sample_metrics) None in
   Trace.outcome run
   = Some (Py.Raise (Py.Exc Py.RuntimeError
       "Failed to run request at offset 100000: 503 The service is currently unavailable.")) /\
   List.length (Trace.calls run) = 2%nat)
  /\
  (let run :=
     Ga4App._run_paginated_request _
       (fun _ => Py.Ok [Samples.reply [Samples.sample_row];
                        Py.Raise Samples.unavailable])
       Samples.scripted 2 (Samples.sample_self _)
       "2025-06-01" "yesterday" (Some Samples.sample_dimensions)
       (Some Samples.sample_metrics) None None in
   Trace.outcome run
   = Some (Py.Raise (Py.Exc Py.RuntimeError
       "API request failed at offset 250000: 503 The service is currently unavailable.")) /\
   List.length (Trace.calls run) = 2%nat).
Proof.
  split.
  - intros run.
    destruct (proj1 paginator_fetch_failure_aborts _ Samples.scripted
                "123456789" "30daysAgo" "today" (Some Samples.sample_dimensions)
                None (Some Samples.sample_metrics) None
                [Samples.reply [Samples.sample_row]; Py.Raise Samples.unavailable]
                [] [[Samples.sample_row]] Samples.unavailable 2%nat)
      as (Hout & _ & Hlen & _).
    + simpl. exists {| SDK.rows := [Samples.sample_row] |},
        [Py.Raise Samples.unavailable].
      repeat split; [discriminate].
    + simpl; lia.
    + split; assumption.
  - intros run.
    destruct (proj2 paginator_fetch_failure_aborts _
                (fun _ => Py.Ok [Samples.reply [Samples.sample_row];
                                 Py.Raise Samples.unavailable])
                Samples.scripted (fun _ => "list index out of range")
                (Samples.sample_self _)
                "2025-06-01" "yesterday" (Some Samples.sample_dimensions)
                (Some Samples.sample_metrics) None None true
                [Samples.reply [Samples.sample_row]; Py.Raise Samples.unavailable]
                [] [[Samples.sample_row]] Samples.unavailable 2%nat)
      as (Hout & _ & Hlen & _).
    + reflexivity.
    + simpl. exists {| SDK.rows := [Samples.sample_row] |},
        [Py.Raise Samples.unavailable].
      repeat split; [discriminate].
    + simpl; lia.
    + split; assumption.
Defined.

(* ================================================================== *)
(** ** Dicts *)

Section DictFacts.
Import Py.

Context {V : Type}.
Implicit Types (d : dict V) (k : string) (v : V) (kvs : list (string * V)).

Lemma dict_set_fresh d k v :
  ~ In k (keys d) -> dict_set d k v = d ++ [(k, v)].
Proof.
  induction d as [|[k' v'] d IH]; simpl; intros Hk; [reflexivity|].
  destruct (String.eqb_spec k' k) as [->|Hne].
  - exfalso. apply Hk. now left.
  - rewrite IH; [reflexivity|]. intros Hin. apply Hk. now right.
Qed.

Lemma dict_update_cons d k v kvs :
  dict_update d ((k, v) :: kvs) = dict_update (dict_set d k v) kvs.
Proof. reflexivity. Qed.

Lemma dict_update_app d kvs kvs' :
  dict_update d (kvs ++ kvs') = dict_update (dict_update d kvs) kvs'.
Proof. unfold dict_update. apply fold_left_app. Qed.

Lemma dict_update_fresh kvs :
  forall d, NoDup (keys d ++ map fst kvs) -> dict_update d kvs = d ++ kvs.
Proof.
  induction kvs as [|[k v] kvs IH]; intros d Hnd.
  - simpl. now rewrite app_nil_r.
  - rewrite dict_update_cons. simpl in Hnd.
    assert (Hk : ~ In k (keys d)).
    { apply NoDup_remove_2 in Hnd. intros Hin. apply Hnd.
      apply in_or_app. now left. }
    rewrite (dict_set_fresh d k v Hk).
    rewrite IH.
    + now rewrite <- app_assoc.
    + unfold keys. rewrite map_app. simpl. rewrite <- app_assoc. exact Hnd.
Qed.

Lemma keys_dict_set_in d k v k' :
  In k' (keys (dict_set d k v)) <-> k' = k \/ In k' (keys d).
Proof.
  induction d as [|[k0 v0] d IH]; simpl.
  - intuition.
  - destruct (String.eqb_spec k0 k) as [->|Hne]; simpl.
    + intuition.
    + rewrite IH. intuition.
Qed.

Lemma keys_dict_set_NoDup d k v :
  NoDup (keys d) -> NoDup (keys (dict_set d k v)).
Proof.
  induction d as [|[k0 v0] d IH]; simpl; intros Hnd.
  - constructor; [intros []|constructor].
  - inversion Hnd as [|? ? Hk0 Hd]; subst.
    destruct (String.eqb_spec k0 k) as [->|Hne]; simpl.
    + constructor; assumption.
    + constructor; [|now apply IH].
      intros Hin. apply keys_dict_set_in in Hin as [->|Hin]; [now apply Hne|].
      now apply Hk0.
Qed.

Lemma dict_get_set d k v k' :
  dict_get (dict_set d k v) k'
  = if String.eqb k k' then Some v else dict_get d k'.
Proof.
  induction d as [|[k0 v0] d IH]; simpl.
  - reflexivity.
  - destruct (String.eqb_spec k0 k) as [->|Hne]; simpl.
    + destruct (String.eqb k k'); reflexivity.
    + rewrite IH. destruct (String.eqb_spec k0 k') as [->|Hne'];
        [|reflexivity].
      destruct (String.eqb_spec k k') as [->|_]; [now destruct Hne|reflexivity].
Qed.

Lemma keys_dict_update_in kvs :
  forall d k, In k (keys (dict_update d kvs)) <-> In k (keys d) \/ In k (map fst kvs).
Proof.
  induction kvs as [|[k0 v0] kvs IH]; intros d k.
  - simpl. intuition.
  - rewrite dict_update_cons, IH, keys_dict_set_in. simpl. intuition.
Qed.

Lemma keys_dict_update_NoDup kvs :
  forall d, NoDup (keys d) -> NoDup (keys (dict_update d kvs)).
Proof.
  induction kvs as [|[k0 v0] kvs IH]; intros d Hnd; [exact Hnd|].
  rewrite dict_update_cons. apply IH. now apply keys_dict_set_NoDup.
Qed.

Lemma dict_get_app d d' k :
  dict_get (d ++ d') k
  = match dict_get d k with Some v => Some v | None => dict_get d' k end.
Proof.
  induction d as [|[k0 v0] d IH]; simpl; [reflexivity|].
  destruct (String.eqb k0 k); [reflexivity|exact IH].
Qed.

Lemma dict_get_update kvs :
  forall d k,
    dict_get (dict_update d kvs) k
    = match dict_get (rev kvs) k with
      | Some v => Some v
      | None => dict_get d k
      end.
Proof.
  induction kvs as [|[k0 v0] kvs IH]; intros d k; [reflexivity|].
  rewrite dict_update_cons, IH. simpl rev. rewrite dict_get_app. simpl.
  destruct (dict_get (rev kvs) k); [reflexivity|].
  rewrite dict_get_set. destruct (String.eqb k0 k); reflexivity.
Qed.

Lemma dict_get_none d k : ~ In k (keys d) -> dict_get d k = None.
Proof.
  induction d as [|[k0 v0] d IH]; simpl; intros Hk; [reflexivity|].
  destruct (String.eqb_spec k0 k) as [->|Hne]; [|apply IH; tauto].
  exfalso. apply Hk. now left.
Qed.

Lemma dict_get_in d k v :
  NoDup (keys d) -> (dict_get d k = Some v <-> In (k, v) d).
Proof.
  induction d as [|[k0 v0] d IH]; simpl; intros Hnd.
  - split; [discriminate|intros []].
  - inversion Hnd as [|? ? Hk0 Hd]; subst.
    destruct (String.eqb_spec k0 k) as [->|Hne].
    + split.
      * intros [= ->]. now left.
      * intros [[= ->]|Hin]; [reflexivity|].
        exfalso. apply Hk0. apply (in_map fst) in Hin. exact Hin.
    + rewrite (IH Hd). split; [now right|].
      intros [[= -> _]|Hin]; [now destruct Hne|exact Hin].
Qed.

Lemma dict_get_rev d k :
  NoDup (keys d) -> dict_get (rev d) k = dict_get d k.
Proof.
  intros Hnd.
  assert (Hrev : NoDup (keys (rev d))).
  { unfold keys. rewrite map_rev. now apply NoDup_rev. }
  destruct (dict_get d k) as [v|] eqn:Hd.
  - apply (dict_get_in _ _ _ Hrev). apply in_rev. rewrite rev_involutive.
    now apply (dict_get_in _ _ _ Hnd).
  - destruct (dict_get (rev d) k) as [v|] eqn:Hr; [|reflexivity].
    apply (dict_get_in _ _ _ Hrev) in Hr. apply in_rev in Hr.
    apply (dict_get_in _ _ _ Hnd) in Hr. congruence.
Qed.

End DictFacts.

(* ================================================================== *)
(** ** Tabulator *)

Section TabulatorFacts.
Import Py SDK Spec.
Open Scope py_scope.

Variable t : nat -> string.   (* the text of an [IndexError] at an index *)

Lemma getitem_middle {A} (pre : list A) (x : A) (post : list A) :
  getitem t (pre ++ x :: post) (List.length pre) = Ok x.
Proof.
  unfold getitem. rewrite nth_error_app2 by lia. now rewrite Nat.sub_diag.
Qed.

Lemma getitem_end {A} (pre : list A) :
  getitem t pre (List.length pre) = Raise (Exc IndexError (t (List.length pre))).
Proof.
  unfold getitem.
  destruct (nth_error pre (List.length pre)) eqn:H; [|reflexivity].
  assert (Hs : nth_error pre (List.length pre) <> None) by congruence.
  apply nth_error_Some in Hs. lia.
Qed.

(** The loop over [range(len(names))] that indexes both sequences. *)
Lemma range_loop_zip {A} (proj : A -> string) (names' : list string) :
  forall (pre : list string) (prev vals' : list A) (acc : dict string),
    List.length pre = List.length prev ->
    for_each (fun acc i =>
                k <- getitem t (pre ++ names') i ;;
                v <- getitem t (prev ++ vals') i ;;
                Ok (dict_set acc k (proj v)))
             (seq (List.length pre) (List.length names')) acc
    = zip_into t names' (map proj vals') (List.length pre) acc.
Proof.
  induction names' as [|k names' IH]; intros pre prev vals' acc Hlen;
    [reflexivity|].
  cbn [List.length seq for_each]. rewrite getitem_middle. cbn [bind].
  destruct vals' as [|v vals'].
  - rewrite app_nil_r, Hlen, getitem_end. reflexivity.
  - rewrite Hlen at 1. rewrite getitem_middle. cbn [bind map zip_into].
    specialize (IH (pre ++ [k]) (prev ++ [v]) vals' (dict_set acc k (proj v))).
    rewrite <- !app_assoc in IH. cbn [app] in IH.
    rewrite !length_app in IH. cbn [List.length] in IH.
    rewrite !Nat.add_1_r in IH. apply IH. now rewrite Hlen.
Qed.

(** The loop over [enumerate(names)] that indexes the values. *)
Lemma enumerate_loop_zip {A} (proj : A -> string) (names' : list string) :
  forall (prev vals' : list A) (acc : dict string),
    for_each (fun acc item =>
                let '(i, k) := item in
                v <- getitem t (prev ++ vals') i ;;
                Ok (dict_set acc k (proj v)))
             (combine (seq (List.length prev) (List.length names')) names') acc
    = zip_into t names' (map proj vals') (List.length prev) acc.
Proof.
  induction names' as [|k names' IH]; intros prev vals' acc; [reflexivity|].
  cbn [List.length seq combine for_each].
  destruct vals' as [|v vals'].
  - rewrite app_nil_r, getitem_end. reflexivity.
  - rewrite getitem_middle. cbn [bind map zip_into].
    specialize (IH (prev ++ [v]) vals' (dict_set acc k (proj v))).
    rewrite <- !app_assoc in IH. cbn [app] in IH.
    rewrite !length_app in IH. cbn [List.length] in IH.
    rewrite !Nat.add_1_r in IH. exact IH.
Qed.

Lemma zip_into_ok (names : list string) :
  forall values i acc,
    (List.length names <= List.length values)%nat ->
    zip_into t names values i acc = Ok (dict_update acc (combine names values)).
Proof.
  induction names as [|k names IH]; intros values i acc Hlen; [reflexivity|].
  destruct values as [|v values]; [simpl in Hlen; lia|].
  cbn [zip_into combine]. rewrite dict_update_cons. apply IH.
  simpl in Hlen. lia.
Qed.

Lemma zip_into_short (names : list string) :
  forall values i acc,
    (List.length values < List.length names)%nat ->
    zip_into t names values i acc
    = Raise (Exc IndexError (t (i + List.length values))).
Proof.
  induction names as [|k names IH]; intros values i acc Hlen;
    [simpl in Hlen; lia|].
  destruct values as [|v values].
  - simpl. now rewrite Nat.add_0_r.
  - cbn [zip_into List.length]. rewrite IH by (simpl in Hlen; lia).
    now rewrite Nat.add_succ_r.
Qed.

Lemma zip_into_cases (names values : list string) (acc : dict string) :
  zip_into t names values 0 acc
  = if (List.length values <? List.length names)%nat
    then Raise (Exc IndexError (t (List.length values)))
    else Ok (dict_update acc (combine names values)).
Proof.
  destruct (Nat.ltb_spec (List.length values) (List.length names)).
  - now rewrite zip_into_short.
  - now rewrite zip_into_ok.
Qed.

(** One row, in [convert_response_to_dataframe]. *)
Lemma api_row_to_dict (dimensions metrics : list string) (row : Row) :
  Ga4Api.row_to_dict t dimensions metrics row
  = if (List.length (dimension_values row) <? List.length dimensions)%nat
    then Raise (Exc IndexError (t (List.length (dimension_values row))))
    else if (List.length (metric_values row) <? List.length metrics)%nat
    then Raise (Exc IndexError (t (List.length (metric_values row))))
    else Ok (dict_update
               (dict_update [] (combine dimensions
                                  (map dv_value (dimension_values row))))
               (dict_update [] (combine metrics
                                  (map mv_value (metric_values row))))).
Proof.
  unfold Ga4Api.row_to_dict, Ga4Api.dimension_dict, Ga4Api.metric_dict, range.
  pose proof (range_loop_zip dv_value dimensions [] [] (dimension_values row)
                [] eq_refl) as Hd.
  pose proof (range_loop_zip mv_value metrics [] [] (metric_values row)
                [] eq_refl) as Hm.
  cbn [app List.length] in Hd, Hm. rewrite Hd, Hm.
  rewrite !zip_into_cases, !length_map.
  destruct (_ <? _)%nat; [reflexivity|].
  destruct (_ <? _)%nat; reflexivity.
Qed.

(** One row, in [_convert_to_dataframe]. *)
Lemma app_row_dict_of (dimensions metrics : list string) (row : Row) :
  Ga4App.row_dict_of t dimensions metrics row
  = if (List.length (dimension_values row) <? List.length dimensions)%nat
    then Raise (Exc IndexError (t (List.length (dimension_values row))))
    else if (List.length (metric_values row) <? List.length metrics)%nat
    then Raise (Exc IndexError (t (List.length (metric_values row))))
    else Ok (dict_update
               (dict_update [] (combine dimensions
                                  (map dv_value (dimension_values row))))
               (combine metrics (map mv_value (metric_values row)))).
Proof.
  unfold Ga4App.row_dict_of, enumerate.
  pose proof (enumerate_loop_zip dv_value dimensions [] (dimension_values row)
                []) as Hd.
  cbn [app List.length] in Hd. rewrite Hd.
  rewrite zip_into_cases, length_map.
  destruct (_ <? _)%nat; [reflexivity|]. cbn [bind].
  pose proof (enumerate_loop_zip mv_value metrics [] (metric_values row)) as Hm.
  cbn [app List.length] in Hm. rewrite Hm.
  rewrite zip_into_cases, length_map.
  destruct (_ <? _)%nat; reflexivity.
Qed.

(** A list comprehension whose element fails exactly on short rows. *)
Lemma list_comp_first_missing (dimensions metrics : list string)
    (f : Row -> result (dict string)) (g : Row -> dict string) :
  (forall row,
      f row
      = if (List.length (dimension_values row) <? List.length dimensions)%nat
        then Raise (Exc IndexError (t (List.length (dimension_values row))))
        else if (List.length (metric_values row) <? List.length metrics)%nat
        then Raise (Exc IndexError (t (List.length (metric_values row))))
        else Ok (g row)) ->
  forall all_data,
    list_comp f all_data
    = match first_missing dimensions metrics all_data with
      | Some i => Raise (Exc IndexError (t i))
      | None => Ok (map g all_data)
      end.
Proof.
  intros Hf. induction all_data as [|row all_data IH]; [reflexivity|].
  cbn [list_comp first_missing map]. rewrite Hf, IH.
  destruct (_ <? _)%nat; [reflexivity|].
  destruct (_ <? _)%nat; [reflexivity|].
  cbn [bind]. destruct (first_missing _ _ _); reflexivity.
Qed.

(** [for x in xs: data.append(f(x))] is the list comprehension. *)
Lemma for_each_append {A B} (f : A -> result B) (xs : list A) :
  forall acc,
    for_each (fun data x => y <- f x ;; Ok (data ++ [y])) xs acc
    = (ys <- list_comp f xs ;; Ok (acc ++ ys)).
Proof.
  induction xs as [|x xs IH]; intros acc; simpl.
  - now rewrite app_nil_r.
  - destruct (f x) as [y|e]; simpl; [|reflexivity].
    rewrite IH. destruct (list_comp f xs) as [ys|e]; simpl; [|reflexivity].
    now rewrite <- app_assoc.
Qed.

End TabulatorFacts.

Section TableFacts.
Import Py SDK Pandas Spec.
Open Scope py_scope.

Variable t : nat -> string.   (* the text of an [IndexError] at an index *)
Variables dimensions metrics : list string.

Lemma api_data (all_data : list Row) :
  Ga4Api.convert_response_data t all_data dimensions metrics
  = match first_missing dimensions metrics all_data with
    | Some i => Raise (Exc IndexError (t i))
    | None => Ok (map (merged_record dimensions metrics) all_data)
    end.
Proof.
  unfold Ga4Api.convert_response_data.
  apply list_comp_first_missing. intros row. apply api_row_to_dict.
Qed.

Lemma app_data (all_data : list Row) :
  Ga4App._convert_to_dataframe_data t all_data dimensions metrics
  = match first_missing dimensions metrics all_data with
    | Some i => Raise (Exc IndexError (t i))
    | None => Ok (map (assigned_record dimensions metrics) all_data)
    end.
Proof.
  unfold Ga4App._convert_to_dataframe_data.
  rewrite for_each_append.
  rewrite (list_comp_first_missing t dimensions metrics _
             (assigned_record dimensions metrics))
    by (intros row; apply app_row_dict_of).
  destruct (first_missing _ _ _); reflexivity.
Qed.

Lemma api_dataframe (all_data : list Row) :
  Ga4Api.convert_response_to_dataframe t all_data dimensions metrics
  = match first_missing dimensions metrics all_data with
    | Some i =>
        Raise (Exc RuntimeError
                 ("Failed to convert response to DataFrame: "
                  ++ str_exc (Exc IndexError (t i))))
    | None => Ok (pd_DataFrame (map (merged_record dimensions metrics) all_data))
    end.
Proof.
  unfold Ga4Api.convert_response_to_dataframe. rewrite api_data.
  destruct (first_missing _ _ _); reflexivity.
Qed.

Lemma app_dataframe (all_data : list Row) :
  Ga4App._convert_to_dataframe t all_data dimensions metrics
  = match first_missing dimensions metrics all_data with
    | Some i =>
        Raise (Exc RuntimeError
                 ("DataFrame conversion failed: "
                  ++ str_exc (Exc IndexError (t i))))
    | None => Ok (pd_DataFrame (map (assigned_record dimensions metrics) all_data))
    end.
Proof.
  unfold Ga4App._convert_to_dataframe. rewrite app_data.
  destruct (first_missing _ _ _); reflexivity.
Qed.

Lemma first_missing_too_short (all_data : list Row) :
  Exists (too_short dimensions metrics) all_data ->
  exists i, first_missing dimensions metrics all_data = Some i.
Proof.
  induction all_data as [|row all_data IH]; intros Hex;
    [inversion Hex|].
  cbn [first_missing].
  destruct (Nat.ltb_spec (List.length (dimension_values row))
              (List.length dimensions)); [eauto|].
  destruct (Nat.ltb_spec (List.length (metric_values row))
              (List.length metrics)); [eauto|].
  apply IH. inversion Hex as [? ? [Hd|Hm]|]; subst; [lia|lia|assumption].
Qed.

Lemma first_missing_long_enough (all_data : list Row) :
  Forall (long_enough dimensions metrics) all_data ->
  first_missing dimensions metrics all_data = None.
Proof.
  induction 1 as [|row all_data [Hd Hm] _ IH]; [reflexivity|].
  cbn [first_missing].
  destruct (Nat.ltb_spec (List.length (dimension_values row))
              (List.length dimensions)); [lia|].
  destruct (Nat.ltb_spec (List.length (metric_values row))
              (List.length metrics)); [lia|exact IH].
Qed.

Lemma combine_firstn_values {A B} (l : list A) :
  forall l' : list B, combine l (firstn (List.length l) l') = combine l l'.
Proof.
  induction l as [|x l IH]; intros [|y l']; simpl; try reflexivity.
  now rewrite IH.
Qed.

Lemma merged_record_truncated (row : Row) :
  merged_record dimensions metrics (truncated dimensions metrics row)
  = merged_record dimensions metrics row.
Proof.
  unfold merged_record, truncated; cbn [dimension_values metric_values].
  now rewrite <- !firstn_map, !combine_firstn_values.
Qed.

Lemma assigned_record_truncated (row : Row) :
  assigned_record dimensions metrics (truncated dimensions metrics row)
  = assigned_record dimensions metrics row.
Proof.
  unfold assigned_record, truncated; cbn [dimension_values metric_values].
  now rewrite <- !firstn_map, !combine_firstn_values.
Qed.

Lemma truncated_long_enough (all_data : list Row) :
  Forall (long_enough dimensions metrics) all_data ->
  Forall (well_shaped dimensions metrics)
    (map (truncated dimensions metrics) all_data).
Proof.
  induction 1 as [|row all_data [Hd Hm] _ IH]; constructor; [|exact IH].
  split; cbn [truncated dimension_values metric_values];
    rewrite length_firstn; lia.
Qed.

Lemma well_shaped_long_enough (all_data : list Row) :
  Forall (well_shaped dimensions metrics) all_data ->
  Forall (long_enough dimensions metrics) all_data.
Proof.
  apply Forall_impl. intros row [Hd Hm]. split; lia.
Qed.

End TableFacts.

(** C8, as the specification words it, fails: a row with more dimension
    values than there are dimension names is tabulated without an error, the
    value beyond the names being left out. *)
Lemma tabulator_accepts_surplus_values :
  List.length (SDK.dimension_values Samples.surplus_row)
    <> List.length Samples.sample_dimensions /\
  Ga4Api.convert_response_to_dataframe Samples.list_index_error
    [Samples.surplus_row] Samples.sample_dimensions Samples.sample_metrics
  = Py.Ok {| Pandas.columns := ["date"; "deviceCategory"; "sessions"];
             Pandas.data := [[Pandas.CStr "20250601"; Pandas.CStr "mobile";
                              Pandas.CStr "42"]] |} /\
  Ga4App._convert_to_dataframe Samples.list_index_error
    [Samples.surplus_row] Samples.sample_dimensions Samples.sample_metrics
  = Py.Ok {| Pandas.columns := ["date"; "deviceCategory"; "sessions"];
             Pandas.data := [[Pandas.CStr "20250601"; Pandas.CStr "mobile";
                              Pandas.CStr "42"]] |}.
Proof. repeat split. discriminate. Qed.

(** C8, amended.  When some row has fewer dimension values than there are
    dimension names, or fewer metric values than metric names, the tabulator
    of either file raises a [RuntimeError] whose text ends with the text of
    the [IndexError] that caused it, and builds no table.  When every row has
    at least as many values as names it raises nothing: the table is the one
    of the rows cut to the number of names. *)
Theorem tabulator_fails_on_short_rows
    (index_error_text : nat -> string) (all_data : list SDK.Row)
    (dimensions metrics : list string) :
  (Exists (Spec.too_short dimensions metrics) all_data ->
   exists i : nat,
     Ga4Api.convert_response_to_dataframe index_error_text all_data
       dimensions metrics
     = Py.Raise (Py.Exc Py.RuntimeError
         ("Failed to convert response to DataFrame: "
          ++ Py.str_exc (Py.Exc Py.IndexError (index_error_text i)))) /\
     Ga4App._convert_to_dataframe index_error_text all_data dimensions metrics
     = Py.Raise (Py.Exc Py.RuntimeError
         ("DataFrame conversion failed: "
          ++ Py.str_exc (Py.Exc Py.IndexError (index_error_text i)))))
  /\
  (Forall (Spec.long_enough dimensions metrics) all_data ->
   exists df_api df_app : Pandas.DataFrame,
     Ga4Api.convert_response_to_dataframe index_error_text all_data
       dimensions metrics = Py.Ok df_api /\
     Ga4Api.convert_response_to_dataframe index_error_text
       (map (Spec.truncated dimensions metrics) all_data) dimensions metrics
     = Py.Ok df_api /\
     Ga4App._convert_to_dataframe index_error_text all_data dimensions metrics
     = Py.Ok df_app /\
     Ga4App._convert_to_dataframe index_error_text
       (map (Spec.truncated dimensions metrics) all_data) dimensions metrics
     = Py.Ok df_app).
Proof.
  split.
  - intros Hshort.
    destruct (first_missing_too_short dimensions metrics all_data Hshort)
      as [i Hi].
    exists i. rewrite api_dataframe, app_dataframe, Hi. split; reflexivity.
  - intros Hlong.
    rewrite !api_dataframe, !app_dataframe.
    rewrite (first_missing_long_enough _ _ _ Hlong).
    rewrite (first_missing_long_enough _ _ _
               (well_shaped_long_enough _ _ _
                  (truncated_long_enough _ _ _ Hlong))).
    rewrite !map_map.
    rewrite (map_ext _ _ (merged_record_truncated dimensions metrics)).
    rewrite (map_ext _ _ (assigned_record_truncated dimensions metrics)).
    eexists _, _. repeat split.
Qed.

(** A row without a value for the second dimension; and a row with a value
    more than there are dimension names. *)
Lemma tabulator_fails_on_short_rows_witness :
  (Ga4Api.convert_response_to_dataframe Samples.list_index_error
     [Samples.sample_row; Samples.short_row] Samples.sample_dimensions
     Samples.sample_metrics
   = Py.Raise (Py.Exc Py.RuntimeError
       "Failed to convert response to DataFrame: list index out of range") /\
   Ga4App._convert_to_dataframe Samples.list_index_error
     [Samples.sample_row; Samples.short_row] Samples.sample_dimensions
     Samples.sample_metrics
   = Py.Raise (Py.Exc Py.RuntimeError
       "DataFrame conversion failed: list index out of range"))
  /\
  (exists df_api df_app : Pandas.DataFrame,
     Ga4Api.convert_response_to_dataframe Samples.list_index_error
       [Samples.surplus_row] Samples.sample_dimensions Samples.sample_metrics
     = Py.Ok df_api /\
     Ga4Api.convert_response_to_dataframe Samples.list_index_error
       [Samples.sample_row] Samples.sample_dimensions Samples.sample_metrics
     = Py.Ok df_api /\
     Ga4App._convert_to_dataframe Samples.list_index_error
       [Samples.surplus_row] Samples.sample_dimensions Samples.sample_metrics
     = Py.Ok df_app /\
     Ga4App._convert_to_dataframe Samples.list_index_error
       [Samples.sample_row] Samples.sample_dimensions Samples.sample_metrics
     = Py.Ok df_app).
Proof.
  split.
  - destruct (proj1 (tabulator_fails_on_short_rows Samples.list_index_error
                       [Samples.sample_row; Samples.short_row]
                       Samples.sample_dimensions Samples.sample_metrics))
      as (i & Hapi & Happ).
    + right. left. left. simpl. lia.
    + split; [exact Hapi|exact Happ].
  - apply (proj2 (tabulator_fails_on_short_rows Samples.list_index_error
                    [Samples.surplus_row]
                    Samples.sample_dimensions Samples.sample_metrics)).
    repeat constructor.
Defined.

Section RecordFacts.
Import Py SDK Pandas Spec.

Lemma map_fst_combine_le {A B} (l : list A) :
  forall l' : list B,
    (List.length l <= List.length l')%nat -> map fst (combine l l') = l.
Proof.
  induction l as [|x l IH]; intros [|y l'] Hlen; simpl in *;
    try reflexivity; try lia.
  rewrite IH by lia. reflexivity.
Qed.

Lemma map_snd_combine_eq {A B} (l : list A) :
  forall l' : list B,
    List.length l = List.length l' -> map snd (combine l l') = l'.
Proof.
  induction l as [|x l IH]; intros [|y l'] Hlen; simpl in *;
    try reflexivity; try discriminate.
  rewrite IH by lia. reflexivity.
Qed.

Lemma combine_app_eq {A B} (l1 l2 : list A) :
  forall l1' l2' : list B,
    List.length l1 = List.length l1' ->
    combine (l1 ++ l2) (l1' ++ l2') = combine l1 l1' ++ combine l2 l2'.
Proof.
  induction l1 as [|x l1 IH]; intros [|y l1'] l2' Hlen; simpl in *;
    try reflexivity; try discriminate.
  rewrite IH by lia. reflexivity.
Qed.

Lemma in_map_fst_combine {A B} (l : list A) (l' : list B) (x : A) :
  In x (map fst (combine l l')) -> In x l.
Proof.
  intros Hin. apply in_map_iff in Hin as ([a b] & <- & Hab).
  now apply in_combine_l in Hab.
Qed.

Lemma NoDup_app_disjoint {A} (l1 l2 : list A) (a : A) :
  NoDup (l1 ++ l2) -> In a l1 -> In a l2 -> False.
Proof.
  induction l1 as [|x l1 IH]; simpl; intros Hnd Hin1 Hin2; [exact Hin1|].
  inversion Hnd as [|? ? Hx Hnd']; subst.
  destruct Hin1 as [->|Hin1].
  - apply Hx, in_or_app. now right.
  - now apply IH.
Qed.

Variables dimensions metrics : list string.

(** With pairwise distinct names and a value per name, both files build the
    record of the specification. *)
Lemma records_of_distinct_names (row : Row) :
  NoDup (dimensions ++ metrics) ->
  well_shaped dimensions metrics row ->
  merged_record dimensions metrics row = record_of dimensions metrics row /\
  assigned_record dimensions metrics row = record_of dimensions metrics row.
Proof.
  intros Hnd [Hd Hm].
  assert (Hkd : map fst (combine dimensions (map dv_value (dimension_values row)))
                = dimensions)
    by (apply map_fst_combine_le; rewrite length_map; lia).
  assert (Hkm : map fst (combine metrics (map mv_value (metric_values row)))
                = metrics)
    by (apply map_fst_combine_le; rewrite length_map; lia).
  assert (Hdims : dict_update [] (combine dimensions
                                    (map dv_value (dimension_values row)))
                  = combine dimensions (map dv_value (dimension_values row))).
  { rewrite dict_update_fresh; [reflexivity|].
    simpl. rewrite Hkd. now apply NoDup_app_remove_r in Hnd. }
  assert (Hmets : dict_update [] (combine metrics
                                    (map mv_value (metric_values row)))
                  = combine metrics (map mv_value (metric_values row))).
  { rewrite dict_update_fresh; [reflexivity|].
    simpl. rewrite Hkm. now apply NoDup_app_remove_l in Hnd. }
  assert (Hall : dict_update
                   (combine dimensions (map dv_value (dimension_values row)))
                   (combine metrics (map mv_value (metric_values row)))
                 = record_of dimensions metrics row).
  { rewrite dict_update_fresh.
    - unfold record_of, row_values. rewrite combine_app_eq; [reflexivity|].
      rewrite length_map; lia.
    - unfold keys. now rewrite Hkd, Hkm. }
  unfold merged_record, assigned_record. rewrite Hdims, Hmets.
  split; exact Hall.
Qed.

Lemma record_of_keys (row : Row) :
  well_shaped dimensions metrics row ->
  keys (record_of dimensions metrics row) = dimensions ++ metrics.
Proof.
  intros [Hd Hm]. unfold keys, record_of, row_values.
  apply map_fst_combine_le. rewrite !length_app, !length_map. lia.
Qed.

Lemma record_of_values (row : Row) :
  well_shaped dimensions metrics row ->
  map snd (record_of dimensions metrics row) = row_values row.
Proof.
  intros [Hd Hm]. unfold record_of, row_values.
  apply map_snd_combine_eq. rewrite !length_app, !length_map. lia.
Qed.

(** In a record of distinct names the value under the [i]-th name is the
    [i]-th value. *)
Lemma dict_get_combine_nth (names : list string) :
  forall (values : list string) (i : nat) (name : string),
    NoDup names ->
    List.length names = List.length values ->
    nth_error names i = Some name ->
    dict_get (combine names values) name = nth_error values i.
Proof.
  induction names as [|k names IH]; intros [|v values] i name Hnd Hlen Hi;
    simpl in Hlen; try discriminate.
  - destruct i; discriminate.
  - inversion Hnd as [|? ? Hk Hnd']; subst.
    destruct i as [|i]; simpl in Hi |- *.
    + injection Hi as ->. now rewrite String.eqb_refl.
    + destruct (String.eqb_spec k name) as [->|Hne].
      * exfalso. apply Hk. eapply nth_error_In; exact Hi.
      * apply IH; [assumption|lia|assumption].
Qed.

(** The keys of the record either file builds are the names, each once. *)
Lemma built_record_keys (row : Row) :
  long_enough dimensions metrics row ->
  forall r,
    r = merged_record dimensions metrics row \/
    r = assigned_record dimensions metrics row ->
    NoDup (keys r) /\
    (forall k, In k (keys r) <-> In k (dimensions ++ metrics)).
Proof.
  intros [Hd Hm] r Hr.
  assert (Hkd : map fst (combine dimensions (map dv_value (dimension_values row)))
                = dimensions)
    by (apply map_fst_combine_le; rewrite length_map; lia).
  assert (Hkm : map fst (combine metrics (map mv_value (metric_values row)))
                = metrics)
    by (apply map_fst_combine_le; rewrite length_map; lia).
  destruct Hr as [-> | ->]; unfold merged_record, assigned_record; split.
  - apply keys_dict_update_NoDup, keys_dict_update_NoDup. constructor.
  - intros k. rewrite keys_dict_update_in, keys_dict_update_in.
    fold (keys (dict_update [] (combine metrics
                                  (map mv_value (metric_values row))))).
    rewrite keys_dict_update_in, Hkd, Hkm, in_app_iff. simpl. tauto.
  - apply keys_dict_update_NoDup, keys_dict_update_NoDup. constructor.
  - intros k. rewrite keys_dict_update_in, keys_dict_update_in.
    rewrite Hkd, Hkm, in_app_iff. simpl. tauto.
Qed.

Lemma dict_get_rev_combine_last (names : list string) :
  forall (values : list string) (i : nat) (name : string),
    (List.length names <= List.length values)%nat ->
    nth_error names i = Some name ->
    ~ In name (skipn (S i) names) ->
    dict_get (rev (combine names values)) name = nth_error values i.
Proof.
  induction names as [|k names IH]; intros [|v values] i name Hlen Hi Hlast;
    simpl in Hlen; try lia.
  - destruct i; discriminate.
  - destruct i; discriminate.
  - cbn [combine rev]. rewrite dict_get_app.
    destruct i as [|i]; simpl in Hi.
    + injection Hi as ->. simpl in Hlast.
      rewrite dict_get_none.
      * simpl. now rewrite String.eqb_refl.
      * unfold keys. rewrite map_rev, <- in_rev. intros Hin.
        apply Hlast. eapply in_map_fst_combine; exact Hin.
    + rewrite (IH values i name); [|lia|exact Hi|exact Hlast].
      simpl. destruct (nth_error values i) eqn:Hv; [reflexivity|].
      apply nth_error_None in Hv.
      assert (Hs : nth_error names i <> None) by congruence.
      apply nth_error_Some in Hs. lia.
Qed.

(** The value either file stores under a name that is a metric name: the
    metric value at the last position of that name. *)
Lemma built_record_metric_value (row : Row) (name : string) (i : nat) :
  long_enough dimensions metrics row ->
  nth_error metrics i = Some name ->
  ~ In name (skipn (S i) metrics) ->
  forall r,
    r = merged_record dimensions metrics row \/
    r = assigned_record dimensions metrics row ->
    dict_get r name = option_map mv_value (nth_error (metric_values row) i).
Proof.
  intros [Hd Hm] Hi Hlast r Hr.
  assert (Hrev : dict_get (rev (combine metrics
                                  (map mv_value (metric_values row)))) name
                 = option_map mv_value (nth_error (metric_values row) i)).
  { rewrite (dict_get_rev_combine_last metrics _ i name);
      [apply nth_error_map|rewrite length_map; lia|exact Hi|exact Hlast]. }
  assert (Hsome : exists v, nth_error (metric_values row) i = Some v).
  { destruct (nth_error (metric_values row) i) eqn:Hv; [eauto|].
    apply nth_error_None in Hv.
    assert (Hs : nth_error metrics i <> None) by congruence.
    apply nth_error_Some in Hs. lia. }
  destruct Hsome as [v Hv]. rewrite Hv in Hrev |- *. simpl in Hrev |- *.
  destruct Hr as [-> | ->]; unfold merged_record, assigned_record.
  - rewrite dict_get_update.
    rewrite dict_get_rev
      by (apply keys_dict_update_NoDup; constructor).
    rewrite dict_get_update, Hrev. reflexivity.
  - rewrite dict_get_update, Hrev. reflexivity.
Qed.

(** The number of keys is the number of names exactly when the names are
    pairwise distinct. *)
Lemma built_record_size (row : Row) :
  long_enough dimensions metrics row ->
  forall r,
    r = merged_record dimensions metrics row \/
    r = assigned_record dimensions metrics row ->
    (List.length (keys r) <= List.length dimensions + List.length metrics)%nat /\
    (List.length (keys r) = (List.length dimensions + List.length metrics)%nat
     <-> NoDup (dimensions ++ metrics)).
Proof.
  intros Hlong r Hr.
  destruct (built_record_keys row Hlong r Hr) as [Hnd Hin].
  rewrite <- length_app.
  assert (Hle : (List.length (keys r) <= List.length (dimensions ++ metrics))%nat).
  { apply NoDup_incl_length; [exact Hnd|]. intros k Hk. now apply Hin. }
  split; [exact Hle|]. split.
  - intros Heq. apply (@NoDup_incl_NoDup _ (keys r) (dimensions ++ metrics) Hnd); [lia|].
    intros k Hk. now apply Hin.
  - intros Hnames. apply Nat.le_antisymm; [exact Hle|].
    apply NoDup_incl_length; [exact Hnames|]. intros k Hk. now apply Hin.
Qed.

End RecordFacts.

Section FrameFacts.
Import Py SDK Pandas Spec.

Lemma has_name_in (name : string) (names : list string) :
  has_name name names = true <-> In name names.
Proof.
  unfold has_name. rewrite existsb_exists. split.
  - intros (x & Hx & Heq). apply String.eqb_eq in Heq. now subst.
  - intros Hin. exists name. split; [exact Hin|apply String.eqb_refl].
Qed.

Lemma add_names_fresh (ks : list string) :
  forall acc, NoDup (acc ++ ks) -> fold_left add_column_name ks acc = acc ++ ks.
Proof.
  induction ks as [|k ks IH]; intros acc Hnd; simpl.
  - now rewrite app_nil_r.
  - unfold add_column_name at 2.
    destruct (has_name k acc) eqn:Hk.
    + apply has_name_in in Hk. apply NoDup_remove_2 in Hnd.
      exfalso. apply Hnd. apply in_or_app. now left.
    + rewrite IH; rewrite <- app_assoc; [reflexivity|exact Hnd].
Qed.

Lemma add_names_known (ks : list string) :
  forall acc, incl ks acc -> fold_left add_column_name ks acc = acc.
Proof.
  induction ks as [|k ks IH]; intros acc Hincl; simpl; [reflexivity|].
  unfold add_column_name at 2.
  assert (Hk : has_name k acc = true)
    by (apply has_name_in, Hincl; now left).
  rewrite Hk. apply IH. intros x Hx. apply Hincl. now right.
Qed.

Lemma columns_known (ks : list string) (records : list (dict string)) :
  Forall (fun r => keys r = ks) records ->
  fold_left (fun acc r => fold_left add_column_name (keys r) acc) records ks
  = ks.
Proof.
  induction 1 as [|r records Hr _ IH]; simpl; [reflexivity|].
  rewrite Hr, add_names_known by apply incl_refl. exact IH.
Qed.

Lemma frame_columns (ks : list string) (records : list (dict string)) :
  NoDup ks ->
  Forall (fun r => keys r = ks) records ->
  records <> [] ->
  columns (pd_DataFrame records) = ks.
Proof.
  intros Hnd Hall Hne. unfold pd_DataFrame; cbn [columns].
  destruct Hall as [|r records Hr Hall]; [contradiction|]. simpl.
  rewrite Hr, add_names_fresh by exact Hnd. simpl.
  now apply columns_known.
Qed.

Lemma cells_of_combine (ks : list string) :
  forall vs : list string,
    NoDup ks -> List.length ks = List.length vs ->
    map (cell_of (combine ks vs)) ks = map CStr vs.
Proof.
  induction ks as [|k ks IH]; intros [|v vs] Hnd Hlen; simpl in Hlen;
    try discriminate; [reflexivity|].
  inversion Hnd as [|? ? Hk Hnd']; subst.
  cbn [combine map]. f_equal.
  - unfold cell_of. simpl. now rewrite String.eqb_refl.
  - rewrite <- (IH vs Hnd') by lia.
    apply map_ext_in. intros k' Hk'. unfold cell_of. simpl.
    destruct (String.eqb_spec k k') as [->|Hne]; [contradiction|reflexivity].
Qed.

(** The frame of the records of well-shaped rows under distinct names. *)
Lemma frame_of_records (dimensions metrics : list string) (all_data : list Row) :
  NoDup (dimensions ++ metrics) ->
  Forall (well_shaped dimensions metrics) all_data ->
  pd_DataFrame (map (record_of dimensions metrics) all_data)
  = {| columns := match all_data with
                  | [] => []
                  | _ :: _ => dimensions ++ metrics
                  end;
       data := map (fun row => map CStr (row_values row)) all_data |}.
Proof.
  intros Hnd Hall.
  assert (Hkeys : Forall (fun r => keys r = dimensions ++ metrics)
                    (map (record_of dimensions metrics) all_data)).
  { apply Forall_map. revert Hall. apply Forall_impl.
    intros row. apply record_of_keys. }
  destruct all_data as [|row rest] eqn:E; [reflexivity|].
  change (match row :: rest with
          | [] => []
          | _ :: _ => dimensions ++ metrics
          end) with (dimensions ++ metrics).
  assert (Hne : all_data <> []) by (rewrite E; discriminate).
  rewrite <- E in *. clear E.
  set (records := map (record_of dimensions metrics) all_data) in *.
  assert (Hc : columns (pd_DataFrame records) = dimensions ++ metrics).
  { apply frame_columns; [exact Hnd|exact Hkeys|].
    subst records. destruct all_data; [contradiction|discriminate]. }
  clear Hne.
  assert (Hd : data (pd_DataFrame records)
               = map (fun r => map (cell_of r) (columns (pd_DataFrame records)))
                     records) by reflexivity.
  destruct (pd_DataFrame records) as [cols cells]. cbn in Hc, Hd. subst cols cells.
  f_equal. subst records. rewrite map_map. apply map_ext_in. intros row' Hrow.
  rewrite Forall_forall in Hall. destruct (Hall row' Hrow) as [Hdv Hmv].
  unfold record_of. apply cells_of_combine; [exact Hnd|].
  unfold row_values. rewrite !length_app, !length_map. lia.
Qed.

(** Every row of a frame built from records has a cell per column. *)
Lemma pd_DataFrame_rows_aligned (records : list (dict string)) :
  Forall (fun r => List.length r = List.length (columns (pd_DataFrame records)))
         (data (pd_DataFrame records)).
Proof.
  unfold pd_DataFrame; cbn [columns data].
  apply Forall_map, Forall_forall. intros r _. apply length_map.
Qed.

Lemma Forall2_map_of {A B} (P : A -> B -> Prop) (f : A -> B) (l : list A) :
  Forall (fun x => P x (f x)) l -> Forall2 P l (map f l).
Proof. induction 1; constructor; assumption. Qed.

End FrameFacts.

(** C7, as the specification words it, fails: a name asked for both as a
    dimension and as a metric gives one key, so a row of two dimension values
    and one metric value under two dimension names and one metric name makes
    a record of two keys, not three, in both files. *)
Lemma tabulator_shared_name_drops_a_key :
  Spec.well_shaped Samples.clash_dimensions Samples.clash_metrics
    Samples.sample_row /\
  Ga4Api.convert_response_data Samples.list_index_error [Samples.sample_row]
    Samples.clash_dimensions Samples.clash_metrics
  = Py.Ok [[("date", "20250601"); ("sessions", "42")]] /\
  Ga4App._convert_to_dataframe_data Samples.list_index_error
    [Samples.sample_row] Samples.clash_dimensions Samples.clash_metrics
  = Py.Ok [[("date", "20250601"); ("sessions", "42")]] /\
  List.length (Py.keys [("date", "20250601"); ("sessions", "42")])
  <> (List.length Samples.clash_dimensions
      + List.length Samples.clash_metrics)%nat.
Proof. repeat split. discriminate. Qed.

(** C7, amended.  For N rows that each carry exactly D dimension values and M
    metric values, under D dimension names and M metric names that are
    pairwise distinct, the tabulator of either file builds N records; each
    has exactly the D + M names as keys, in order, and under the i-th name the
    i-th value of the row, unchanged.  The table has N rows of these values
    as strings and, when N > 0, the names as columns. *)
Theorem tabulator_records_of_distinct_names
    (index_error_text : nat -> string) (all_data : list SDK.Row)
    (dimensions metrics : list string) :
  NoDup (dimensions ++ metrics) ->
  Forall (Spec.well_shaped dimensions metrics) all_data ->
  let records := map (Spec.record_of dimensions metrics) all_data in
  Ga4Api.convert_response_data index_error_text all_data dimensions metrics
  = Py.Ok records /\
  Ga4App._convert_to_dataframe_data index_error_text all_data dimensions metrics
  = Py.Ok records /\
  Ga4Api.convert_response_to_dataframe index_error_text all_data dimensions
    metrics = Py.Ok (Pandas.pd_DataFrame records) /\
  Ga4App._convert_to_dataframe index_error_text all_data dimensions metrics
  = Py.Ok (Pandas.pd_DataFrame records) /\
  List.length records = List.length all_data /\
  Forall2 (fun row record =>
             Py.keys record = dimensions ++ metrics /\
             List.length (Py.keys record)
             = (List.length dimensions + List.length metrics)%nat /\
             map snd record = Spec.row_values row /\
             forall i name,
               nth_error (dimensions ++ metrics) i = Some name ->
               Py.dict_get record name = nth_error (Spec.row_values row) i)
          all_data records /\
  Pandas.len (Pandas.pd_DataFrame records) = List.length all_data /\
  Pandas.data (Pandas.pd_DataFrame records)
  = map (fun row => map Pandas.CStr (Spec.row_values row)) all_data /\
  (all_data <> [] ->
   Pandas.columns (Pandas.pd_DataFrame records) = dimensions ++ metrics).
Proof.
  intros Hnd Hall records.
  assert (Hlong := well_shaped_long_enough _ _ _ Hall).
  assert (Hmerged : map (Spec.merged_record dimensions metrics) all_data = records).
  { apply map_ext_in. intros row Hrow. rewrite Forall_forall in Hall.
    apply (records_of_distinct_names dimensions metrics row Hnd (Hall row Hrow)). }
  assert (Hassigned : map (Spec.assigned_record dimensions metrics) all_data
                      = records).
  { apply map_ext_in. intros row Hrow. rewrite Forall_forall in Hall.
    apply (records_of_distinct_names dimensions metrics row Hnd (Hall row Hrow)). }
  rewrite api_data, app_data, api_dataframe, app_dataframe.
  rewrite (first_missing_long_enough _ _ _ Hlong), Hmerged, Hassigned.
  subst records. rewrite (frame_of_records _ _ _ Hnd Hall).
  unfold Pandas.len. cbn [Pandas.columns Pandas.data]. rewrite !length_map.
  repeat split.
  - apply Forall2_map_of. revert Hall. apply Forall_impl.
    intros row Hrow. pose proof Hrow as [Hd Hm].
    rewrite record_of_keys by exact Hrow. rewrite length_app.
    repeat split.
    + now apply record_of_values.
    + intros i name Hi. unfold Spec.record_of.
      apply dict_get_combine_nth; [exact Hnd| |exact Hi].
      unfold Spec.row_values. rewrite !length_app, !length_map. lia.
  - destruct all_data; [contradiction|reflexivity].
Qed.

(** Two rows under the names of the sample report. *)
Lemma tabulator_records_of_distinct_names_witness :
  Ga4App._convert_to_dataframe Samples.list_index_error
    [Samples.sample_row; Samples.sample_row] Samples.sample_dimensions
    Samples.sample_metrics
  = Py.Ok {| Pandas.columns := ["date"; "deviceCategory"; "sessions"];
             Pandas.data :=
               [[Pandas.CStr "20250601"; Pandas.CStr "mobile"; Pandas.CStr "42"];
                [Pandas.CStr "20250601"; Pandas.CStr "mobile"; Pandas.CStr "42"]] |}.
Proof.
  destruct (tabulator_records_of_distinct_names Samples.list_index_error
              [Samples.sample_row; Samples.sample_row]
              Samples.sample_dimensions Samples.sample_metrics)
    as (_ & _ & _ & Happ & _).
  - repeat constructor; simpl; intuition discriminate.
  - repeat constructor.
  - exact Happ.
Defined.

(* ================================================================== *)
(** ** The date step of [get_report] *)

Section DateFacts.
Import Py SDK Pandas.
Open Scope Z_scope.

Lemma digit_of_ascii_of_digit (d : Z) :
  0 <= d <= 9 -> digit_of_ascii (ascii_of_digit d) = Some d.
Proof.
  intros Hd.
  assert (Hcases : d = 0 \/ d = 1 \/ d = 2 \/ d = 3 \/ d = 4 \/ d = 5 \/
                   d = 6 \/ d = 7 \/ d = 8 \/ d = 9) by lia.
  repeat (destruct Hcases as [-> | Hcases]; [reflexivity|]).
  subst d. reflexivity.
Qed.

Lemma days_in_month_le (y m : Z) : days_in_month y m <= 31.
Proof.
  unfold days_in_month.
  destruct m as [|m|m]; try lia.
  repeat (destruct m as [m|m|]; try lia); destruct (is_leap y); lia.
Qed.

(** Parsing what [%Y%m%d] writes gives the date back. *)
Lemma strptime_strftime (d : Date) :
  valid_date d = true -> strptime_Ymd (strftime_Ymd d) = Some d.
Proof.
  intros Hvalid. pose proof Hvalid as Hv.
  unfold valid_date in Hv.
  repeat (apply andb_prop in Hv as [Hv ?]).
  repeat match goal with
         | H : (_ <=? _) = true |- _ => apply Z.leb_le in H
         end.
  pose proof (days_in_month_le (year d) (month d)) as Hdays.
  unfold strptime_Ymd, strftime_Ymd.
  rewrite list_ascii_of_string_of_list_ascii. cbn [map].
  rewrite !digit_of_ascii_of_digit
    by (Z.div_mod_to_equations; lia).
  replace (1000 * (year d / 1000) + 100 * (year d / 100 mod 10)
           + 10 * (year d / 10 mod 10) + year d mod 10) with (year d)
    by (Z.div_mod_to_equations; lia).
  replace (10 * (month d / 10) + month d mod 10) with (month d)
    by (Z.div_mod_to_equations; lia).
  replace (10 * (day d / 10) + day d mod 10) with (day d)
    by (Z.div_mod_to_equations; lia).
  destruct d as [y m dd]; cbn [year month day] in *. now rewrite Hvalid.
Qed.

Lemma to_datetime_formatted (dates : list Date) :
  Forall (fun d => valid_date d = true) dates ->
  to_datetime (map (fun d => CStr (strftime_Ymd d)) dates)
  = Ok (map CTimestamp dates).
Proof.
  unfold to_datetime.
  induction 1 as [|d dates Hd _ IH]; [reflexivity|].
  cbn [map list_comp to_datetime_cell]. rewrite (strptime_strftime d Hd).
  cbn [bind]. rewrite IH. reflexivity.
Qed.

End DateFacts.

Section ColumnFacts.
Import Py SDK Pandas.

Lemma index_of_nth (name : string) (names : list string) :
  forall i, index_of name names = Some i -> nth_error names i = Some name.
Proof.
  induction names as [|n names IH]; intros i Hi; simpl in Hi; [discriminate|].
  destruct (String.eqb_spec n name) as [->|Hne].
  - injection Hi as <-. reflexivity.
  - destruct (index_of name names) as [j|]; [|discriminate].
    injection Hi as <-. now apply IH.
Qed.

Lemma index_of_has_name (name : string) (names : list string) :
  has_name name names = true -> exists i, index_of name names = Some i.
Proof.
  induction names as [|n names IH]; simpl; [discriminate|].
  rewrite (String.eqb_sym name n).
  destruct (String.eqb n name); simpl; [eauto|].
  intros H. destruct (IH H) as [i ->]. simpl. eauto.
Qed.

Lemma index_of_no_name (name : string) (names : list string) :
  has_name name names = false -> index_of name names = None.
Proof.
  induction names as [|n names IH]; simpl; [reflexivity|].
  rewrite (String.eqb_sym name n).
  destruct (String.eqb n name); simpl; [discriminate|].
  intros H. now rewrite (IH H).
Qed.

Lemma nth_replace_nth_same {A} (x default : A) (l : list A) :
  forall i, (i < List.length l)%nat -> nth i (replace_nth i x l) default = x.
Proof.
  induction l as [|y l IH]; intros [|i] Hi; simpl in *; try lia.
  - reflexivity.
  - apply IH. lia.
Qed.

Lemma nth_replace_nth_other {A} (x default : A) (l : list A) :
  forall i j, i <> j -> nth j (replace_nth i x l) default = nth j l default.
Proof.
  induction l as [|y l IH]; intros [|i] [|j] Hij; simpl; try reflexivity;
    try congruence.
  apply IH. congruence.
Qed.

Lemma map_replace_same (i : nat) (rows : list (list Cell)) :
  forall series : list Cell,
    Forall (fun r => (i < List.length r)%nat) rows ->
    List.length series = List.length rows ->
    map (fun r => nth i r CNaN)
        (map (fun rc => replace_nth i (snd rc) (fst rc)) (combine rows series))
    = series.
Proof.
  induction rows as [|r rows IH]; intros [|c series] Hrows Hlen;
    simpl in Hlen; try discriminate; [reflexivity|].
  inversion Hrows as [|? ? Hr Hrows']; subst.
  cbn [combine map fst snd]. rewrite nth_replace_nth_same by exact Hr.
  rewrite IH; [reflexivity|exact Hrows'|lia].
Qed.

Lemma map_replace_other (i j : nat) (rows : list (list Cell)) :
  forall series : list Cell,
    i <> j ->
    List.length series = List.length rows ->
    map (fun r => nth j r CNaN)
        (map (fun rc => replace_nth i (snd rc) (fst rc)) (combine rows series))
    = map (fun r => nth j r CNaN) rows.
Proof.
  induction rows as [|r rows IH]; intros [|c series] Hij Hlen;
    simpl in Hlen; try discriminate; [reflexivity|].
  cbn [combine map fst snd]. rewrite nth_replace_nth_other by exact Hij.
  rewrite IH; [reflexivity|exact Hij|lia].
Qed.

(** Assigning a column of a well-formed frame: that column holds the series,
    the column names and every other column stay. *)
Lemma set_column_spec (df : DataFrame) (name : string) (series : list Cell) :
  has_name name (columns df) = true ->
  Forall (fun r => List.length r = List.length (columns df)) (data df) ->
  List.length series = len df ->
  columns (set_column df name series) = columns df /\
  len (set_column df name series) = len df /\
  get_column (set_column df name series) name = series /\
  forall other, other <> name ->
    get_column (set_column df name series) other = get_column df other.
Proof.
  intros Hname Hrows Hlen. unfold len in *.
  destruct (index_of_has_name _ _ Hname) as [i Hi].
  pose proof (index_of_nth _ _ _ Hi) as Hnth.
  assert (Hlt : (i < List.length (columns df))%nat).
  { apply nth_error_Some. congruence. }
  unfold set_column, get_column. rewrite Hi. cbn [columns data]. rewrite Hi.
  repeat split.
  - rewrite length_map, length_combine. lia.
  - apply map_replace_same; [|exact Hlen].
    revert Hrows. apply Forall_impl. intros r Hr. lia.
  - intros other Hother.
    destruct (index_of other (columns df)) as [j|] eqn:Hj; [|reflexivity].
    apply map_replace_other; [|exact Hlen].
    intros ->. pose proof (index_of_nth _ _ _ Hj) as Hnth'. congruence.
Qed.

End ColumnFacts.

Section DateStep.
Import Py Pandas.

Lemma date_step_reparses (df : DataFrame) (dates : list Date) :
  has_name "date" (columns df) = true ->
  Forall (fun r => List.length r = List.length (columns df)) (data df) ->
  Forall (fun d => valid_date d = true) dates ->
  get_column df "date" = map (fun d => CStr (strftime_Ymd d)) dates ->
  exists df' : DataFrame,
    Ga4App.convert_date_step true df = Ok df' /\
    get_column df' "date" = map CTimestamp dates /\
    columns df' = columns df /\
    len df' = len df /\
    forall other : string,
      other <> "date" -> get_column df' other = get_column df other.
Proof.
  intros Hname Hrows Hvalid Hcol.
  exists (set_column df "date" (map CTimestamp dates)).
  assert (Hlen : List.length (map CTimestamp dates) = len df).
  { rewrite length_map.
    rewrite <- (length_map (fun d => CStr (strftime_Ymd d))).
    rewrite <- Hcol. unfold get_column, len.
    destruct (index_of_has_name _ _ Hname) as [i ->].
    apply length_map. }
  destruct (set_column_spec df "date" _ Hname Hrows Hlen)
    as (Hcols & Hlen' & Hget & Hother).
  repeat split; trivial.
  unfold Ga4App.convert_date_step. rewrite Hname, Hcol.
  rewrite (to_datetime_formatted dates Hvalid). reflexivity.
Qed.

End DateStep.

(** C9.  In the date step of [get_report]: a table without a column named
    "date" is returned as it is, whatever [convert_date_columns]; with
    [convert_date_columns] enabled, a table built from records whose "date"
    column holds dates written as YYYYMMDD gets in that column the dates
    themselves, each equal to the calendar date that was written ("20250601"
    becomes June 1, 2025), and keeps its column names, its number of rows and
    every other column.  [get_report] returns the tabulated pages after this
    step. *)
Theorem date_column_is_reparsed :
  (forall (df : Pandas.DataFrame) (convert_date_columns : bool),
      Pandas.has_name "date" (Pandas.columns df) = false ->
      Ga4App.convert_date_step convert_date_columns df = Py.Ok df)
  /\
  (forall (records : list (Py.dict string)) (dates : list Pandas.Date),
      let df := Pandas.pd_DataFrame records in
      Pandas.has_name "date" (Pandas.columns df) = true ->
      Forall (fun d => Pandas.valid_date d = true) dates ->
      Pandas.get_column df "date"
      = map (fun d => Pandas.CStr (Pandas.strftime_Ymd d)) dates ->
      exists df' : Pandas.DataFrame,
        Ga4App.convert_date_step true df = Py.Ok df' /\
        Pandas.get_column df' "date" = map Pandas.CTimestamp dates /\
        Pandas.columns df' = Pandas.columns df /\
        Pandas.len df' = Pandas.len df /\
        forall other : string,
          other <> "date" ->
          Pandas.get_column df' other = Pandas.get_column df other)
  /\
  Pandas.to_datetime [Pandas.CStr "20250601"]
  = Py.Ok [Pandas.CTimestamp
             {| Pandas.year := 2025; Pandas.month := 6; Pandas.day := 1 |}]
  /\
  (forall (St : Type) (connect : option string -> Py.result St)
          (run_report : SDK.Fetcher St) (index_error_text : nat -> string)
          (fuel : nat) (self : Ga4App.GA4AnalyticsClient St)
          (start_date end_date : string)
          (dimensions metrics : option (list string))
          (dimensions_filter : option (Py.dict Py.PyValue))
          (order_bys : option (list string)) (convert_date_columns : bool)
          (all_data : list SDK.Row) (df : Pandas.DataFrame),
      Trace.outcome
        (Ga4App._run_paginated_request St connect run_report fuel self
           start_date end_date (Some (Py.or_empty dimensions))
           (Some (Py.or_empty metrics)) dimensions_filter order_bys)
      = Some (Py.Ok all_data) ->
      Ga4App._convert_to_dataframe index_error_text all_data
        (Py.or_empty dimensions) (Py.or_empty metrics) = Py.Ok df ->
      Trace.outcome
        (Ga4App.get_report St connect run_report index_error_text fuel self
           start_date end_date dimensions metrics dimensions_filter order_bys
           convert_date_columns)
      = Some (Ga4App.convert_date_step convert_date_columns df)).
Proof.
  split; [|split; [|split]].
  - intros df cdc Hno. unfold Ga4App.convert_date_step. rewrite Hno.
    now rewrite andb_false_r.
  - intros records dates df Hname Hvalid Hcol.
    apply date_step_reparses; trivial.
    apply pd_DataFrame_rows_aligned.
  - reflexivity.
  - intros St connect run_report t fuel self sd ed dims mets df obs cdc
      all_data frame Hrun Hframe.
    unfold Ga4App.get_report. cbn [Trace.outcome].
    rewrite Hrun, Hframe. reflexivity.
Qed.

(** The table of the sample report, and the table of a report without the
    date dimension. *)
Lemma date_column_is_reparsed_witness :
  Ga4App.convert_date_step true Samples.dateless_frame
  = Py.Ok Samples.dateless_frame /\
  exists df' : Pandas.DataFrame,
    Ga4App.convert_date_step true
      (Pandas.pd_DataFrame
         [Spec.record_of Samples.sample_dimensions Samples.sample_metrics
            Samples.sample_row])
    = Py.Ok df' /\
    Pandas.get_column df' "date" = [Pandas.CTimestamp Samples.june_first].
Proof.
  split.
  - apply (proj1 date_column_is_reparsed). reflexivity.
  - destruct (proj1 (proj2 date_column_is_reparsed)
                [Spec.record_of Samples.sample_dimensions
                   Samples.sample_metrics Samples.sample_row]
                [Samples.june_first])
      as (df' & Hstep & Hcol & _).
    + reflexivity.
    + repeat constructor.
    + reflexivity.
    + exists df'. split; [exact Hstep|exact Hcol].
Defined.

(** [get_report] on a source of one page: the row is tabulated and its date
    reparsed; with [convert_date_columns] off the date stays a string. *)
Example get_report_sample :
  let source := [Samples.reply [Samples.sample_row]; Samples.reply []] in
  let report (convert_date_columns : bool) :=
    Trace.outcome
      (Ga4App.get_report _ (fun _ => Py.Ok source) Samples.scripted
         Samples.list_index_error 2 (Samples.sample_self _)
         "2025-06-01" "yesterday" (Some Samples.sample_dimensions)
         (Some Samples.sample_metrics) None None convert_date_columns) in
  report true
  = Some (Py.Ok
      {| Pandas.columns := ["date"; "deviceCategory"; "sessions"];
         Pandas.data := [[Pandas.CTimestamp Samples.june_first;
                          Pandas.CStr "mobile"; Pandas.CStr "42"]] |}) /\
  report false = Some (Py.Ok Samples.sample_frame).
Proof. split; reflexivity. Qed.

(** The requests of the two builders for the arguments of the sample
    reports: [ga4_app] orders by the dimensions, [ga4_api] does not order. *)
Example request_samples :
  Ga4Api.create_request "123456789" "30daysAgo" "today"
    (Some Samples.sample_dimensions) (Some Samples.list_filters)
    (Some Samples.sample_metrics) (Some []) None None
  = {| SDK.property := "properties/123456789";
       SDK.date_ranges := [{| SDK.start_date := "30daysAgo";
                              SDK.end_date := "today" |}];
       SDK.dimensions := [SDK.Build_Dimension "date";
                          SDK.Build_Dimension "deviceCategory"];
       SDK.metrics := [SDK.Build_Metric "sessions"];
       SDK.keep_empty_rows := true;
       SDK.offset := 0;
       SDK.limit := 100000;
       SDK.dimension_filter :=
         Some (SDK.and_group (SDK.Build_FilterExpressionList
           [Spec.membership "continent" ["Europe"];
            Spec.membership "deviceCategory" ["mobile"; "desktop"]]));
       SDK.order_bys := [] |}
  /\
  Ga4App._create_request unit (Samples.sample_self unit) "2025-06-01"
    "yesterday" (Some Samples.sample_dimensions) (Some Samples.sample_metrics)
    (Some []) None None None
  = {| SDK.property := "properties/123456789";
       SDK.date_ranges := [{| SDK.start_date := "2025-06-01";
                              SDK.end_date := "yesterday" |}];
       SDK.dimensions := [SDK.Build_Dimension "date";
                          SDK.Build_Dimension "deviceCategory"];
       SDK.metrics := [SDK.Build_Metric "sessions"];
       SDK.keep_empty_rows := true;
       SDK.offset := 0;
       SDK.limit := 250000;
       SDK.dimension_filter := None;
       SDK.order_bys :=
         [{| SDK.dimension := {| SDK.dimension_name := "date" |} |};
          {| SDK.dimension := {| SDK.dimension_name := "deviceCategory" |} |}] |}.
Proof. split; reflexivity. Qed.

(* ================================================================== *)
(** ** Further properties of the paginators *)

Section RunFacts.
Import Py SDK Trace PaginationSpec RunSpec.

(** The requests of a run of [run_paginated_request], whatever the source
    does: the calls so far, then the requests for [offset],
    [offset + MAX_ROWS_PER_REQUEST], ... *)
Lemma api_loop_calls St (run_report : Fetcher St) (fuel : nat) :
  forall client pid sd ed dims df mets obs all_rows offset calls,
    exists n : nat,
      (n <= fuel)%nat /\
      Trace.calls
        (Ga4Api.run_paginated_request_loop St run_report fuel client pid sd
           ed dims df mets obs all_rows offset calls)
      = calls ++
        map (fun o => Ga4Api.create_request pid sd ed dims df mets obs
                        (Some o) (Some Ga4Api.MAX_ROWS_PER_REQUEST))
            (offsets Ga4Api.MAX_ROWS_PER_REQUEST offset n).
Proof.
  induction fuel as [|fuel IH]; intros client pid sd ed dims df mets obs
    all_rows offset calls.
  - exists 0%nat. simpl. now rewrite app_nil_r.
  - simpl Ga4Api.run_paginated_request_loop.
    destruct (run_report client _) as [[response|e] client'].
    + destruct (rows response) as [|row page].
      * exists 1%nat. split; [lia|reflexivity].
      * destruct (IH client' pid sd ed dims df mets obs
                    (all_rows ++ row :: page)
                    (offset + Ga4Api.MAX_ROWS_PER_REQUEST)%Z
                    (calls ++ [Ga4Api.create_request pid sd ed dims df mets
                                 obs (Some offset)
                                 (Some Ga4Api.MAX_ROWS_PER_REQUEST)]))
          as (n & Hn & Hcalls).
        exists (S n). split; [lia|]. rewrite Hcalls.
        now rewrite <- app_assoc.
    + exists 1%nat. split; [lia|reflexivity].
Qed.

(** Reading the property [client] keeps the other attributes of [self]. *)
Lemma client_keeps_attributes St connect (self : Ga4App.GA4AnalyticsClient St) :
  Ga4App.property_id St (snd (Ga4App.client St connect self))
  = Ga4App.property_id St self /\
  Ga4App.credentials_path St (snd (Ga4App.client St connect self))
  = Ga4App.credentials_path St self.
Proof.
  unfold Ga4App.client.
  destruct (Ga4App._client St self); [split; reflexivity|].
  destruct (Ga4App._establish_connection St connect self); split; reflexivity.
Qed.

(** The request of [_create_request] depends on [self] through
    [property_id] only. *)
Lemma app_request_of_property St (self self' : Ga4App.GA4AnalyticsClient St)
    sd ed dims mets df obs o l :
  Ga4App.property_id St self' = Ga4App.property_id St self ->
  Ga4App._create_request St self' sd ed dims mets df obs o l
  = Ga4App._create_request St self sd ed dims mets df obs o l.
Proof. intros H. unfold Ga4App._create_request. now rewrite H. Qed.

Lemma app_loop_calls St connect (run_report : Fetcher St) (fuel : nat) :
  forall self sd ed dims mets df obs all_rows offset calls,
    let run :=
      Ga4App._run_paginated_request_loop St connect run_report fuel self
        sd ed dims mets df obs all_rows offset calls in
    Ga4App.property_id St (state run) = Ga4App.property_id St self /\
    Ga4App.credentials_path St (state run) = Ga4App.credentials_path St self /\
    exists n : nat,
      (n <= fuel)%nat /\
      Trace.calls run
      = calls ++
        map (fun o => Ga4App._create_request St self sd ed dims mets df obs
                        (Some o) (Some Ga4App.MAX_ROWS_PER_REQUEST))
            (offsets Ga4App.MAX_ROWS_PER_REQUEST offset n).
Proof.
  induction fuel as [|fuel IH]; intros self sd ed dims mets df obs
    all_rows offset calls run; subst run.
  - repeat split. exists 0%nat. simpl. now rewrite app_nil_r.
  - simpl Ga4App._run_paginated_request_loop.
    pose proof (client_keeps_attributes St connect self) as [Hpid Hcred].
    destruct (Ga4App.client St connect self) as [[c|e] self'];
      cbn [snd] in Hpid, Hcred.
    + destruct (run_report c _) as [[response|e] c'].
      * destruct (rows response) as [|row page].
        -- repeat split; trivial. exists 1%nat. split; [lia|reflexivity].
        -- destruct (IH (Ga4App.with_client St self' c') sd ed dims mets df
                       obs (all_rows ++ row :: page)
                       (offset + Ga4App.MAX_ROWS_PER_REQUEST)%Z
                       (calls ++ [Ga4App._create_request St self sd ed dims
                                    mets df obs (Some offset)
                                    (Some Ga4App.MAX_ROWS_PER_REQUEST)]))
             as (Hp & Hc & n & Hn & Hcalls).
           cbn [Ga4App.with_client Ga4App.property_id
                  Ga4App.credentials_path] in Hp, Hc.
           repeat split; [congruence|congruence|].
           exists (S n). split; [lia|]. rewrite Hcalls.
           rewrite <- app_assoc. cbn [offsets map app]. do 2 f_equal.
           apply map_ext. intros o. apply app_request_of_property.
           exact Hpid.
      * repeat split; trivial. exists 1%nat. split; [lia|reflexivity].
    + repeat split; trivial. exists 0%nat. split; [lia|].
      simpl. now rewrite app_nil_r.
Qed.

End RunFacts.

(** X1.  The requests a paginator sends are determined by its arguments, whatever
    the source answers: at most one per unit of fuel, the i-th one (from 0)
    being the request the builder makes for offset i * MAX_ROWS_PER_REQUEST
    with limit MAX_ROWS_PER_REQUEST.  In [ga4_app] a run also leaves
    [property_id] and [credentials_path] of the object as they were. *)
Theorem paginator_requests_are_fixed :
  (forall (St : Type) (run_report : SDK.Fetcher St) (fuel : nat) (client : St)
          (property_id start_date end_date : string)
          (dimensions : option (list string))
          (dimensions_filter : option (Py.dict Py.PyValue))
          (metrics order_bys : option (list string)),
      let run :=
        Ga4Api.run_paginated_request St run_report fuel client property_id
          start_date end_date dimensions dimensions_filter metrics order_bys in
      (List.length (Trace.calls run) <= fuel)%nat /\
      Trace.calls run
      = map (fun o => Ga4Api.create_request property_id start_date end_date
                        dimensions dimensions_filter metrics order_bys
                        (Some o) (Some Ga4Api.MAX_ROWS_PER_REQUEST))
            (PaginationSpec.offsets Ga4Api.MAX_ROWS_PER_REQUEST 0%Z
               (List.length (Trace.calls run))))
  /\
  (forall (St : Type) (connect : option string -> Py.result St)
          (run_report : SDK.Fetcher St) (fuel : nat)
          (self : Ga4App.GA4AnalyticsClient St)
          (start_date end_date : string)
          (dimensions metrics : option (list string))
          (dimensions_filter : option (Py.dict Py.PyValue))
          (order_bys : option (list string)),
      let run :=
        Ga4App._run_paginated_request St connect run_report fuel self
          start_date end_date dimensions metrics dimensions_filter order_bys in
      (List.length (Trace.calls run) <= fuel)%nat /\
      Trace.calls run
      = map (fun o => Ga4App._create_request St self start_date end_date
                        dimensions metrics dimensions_filter order_bys
                        (Some o) (Some Ga4App.MAX_ROWS_PER_REQUEST))
            (PaginationSpec.offsets Ga4App.MAX_ROWS_PER_REQUEST 0%Z
               (List.length (Trace.calls run))) /\
      Ga4App.property_id St (Trace.state run) = Ga4App.property_id St self /\
      Ga4App.credentials_path St (Trace.state run)
      = Ga4App.credentials_path St self).
Proof.
  split.
  - intros St run_report fuel client pid sd ed dims df mets obs run.
    destruct (api_loop_calls St run_report fuel client pid sd ed dims df mets
                obs [] 0%Z []) as (n & Hn & Hcalls).
    subst run. unfold Ga4Api.run_paginated_request.
    rewrite Hcalls. cbn [app]. rewrite length_map, offsets_length.
    split; [exact Hn|reflexivity].
  - intros St connect run_report fuel self sd ed dims mets df obs run.
    destruct (app_loop_calls St connect run_report fuel self sd ed dims mets
                df obs [] 0%Z []) as (Hp & Hc & n & Hn & Hcalls).
    subst run. unfold Ga4App._run_paginated_request.
    rewrite Hcalls. cbn [app]. rewrite length_map, offsets_length.
    repeat split; assumption.
Qed.

Section RunPages.
Import Py SDK Trace PaginationSpec RunSpec.

Variable St : Type.
Variable connect : option string -> result St.
Variable run_report : Fetcher St.

Lemma api_loop_answers pid sd ed dims df mets obs (pages : list (list Row)) :
  forall (fuel : nat) (client final : St) (offset : Z) (all_rows : list Row)
         (calls : list RunReportRequest),
    answers run_report
      (fun o => Ga4Api.create_request pid sd ed dims df mets obs (Some o)
                  (Some Ga4Api.MAX_ROWS_PER_REQUEST))
      Ga4Api.MAX_ROWS_PER_REQUEST client offset pages final ->
    (List.length pages < fuel)%nat ->
    let run :=
      Ga4Api.run_paginated_request_loop St run_report fuel client pid sd ed
        dims df mets obs all_rows offset calls in
    outcome run = Some (Ok (all_rows ++ List.concat pages)) /\
    state run = final /\
    List.length (Trace.calls run)
    = (List.length calls + S (List.length pages))%nat.
Proof.
  induction pages as [|page pages IH]; intros fuel client final offset all_rows
    calls Hanswers Hfuel run; subst run.
  - destruct Hanswers as (response & Hcall & Hrows).
    destruct fuel as [|fuel]; [inversion Hfuel|].
    simpl. rewrite Hcall, Hrows. cbn [outcome state Trace.calls].
    rewrite app_nil_r, length_app. repeat split.
  - destruct Hanswers as (response & client' & Hcall & Hrows & Hne & Hrest).
    destruct fuel as [|fuel]; [inversion Hfuel|].
    simpl Ga4Api.run_paginated_request_loop. rewrite Hcall, Hrows.
    destruct page as [|row page]; [contradiction|].
    destruct (IH fuel client' final _ (all_rows ++ row :: page)
                (calls ++ [Ga4Api.create_request pid sd ed dims df mets obs
                             (Some offset) (Some Ga4Api.MAX_ROWS_PER_REQUEST)])
                Hrest) as (Hout & Hstate & Hlen); [simpl in Hfuel; lia|].
    rewrite Hout, Hstate, Hlen. cbn [List.concat List.length].
    rewrite <- !app_assoc, length_app. cbn [List.length].
    repeat split. lia.
Qed.

Lemma app_loop_answers sd ed dims mets df obs (pages : list (list Row)) :
  forall (fuel : nat) (self : Ga4App.GA4AnalyticsClient St) (c final : St)
         (offset : Z) (all_rows : list Row) (calls : list RunReportRequest),
    Ga4App._client St self = Some c ->
    answers run_report
      (fun o => Ga4App._create_request St self sd ed dims mets df obs (Some o)
                  (Some Ga4App.MAX_ROWS_PER_REQUEST))
      Ga4App.MAX_ROWS_PER_REQUEST c offset pages final ->
    (List.length pages < fuel)%nat ->
    let run :=
      Ga4App._run_paginated_request_loop St connect run_report fuel self sd ed
        dims mets df obs all_rows offset calls in
    outcome run = Some (Ok (all_rows ++ List.concat pages)) /\
    state run = Ga4App.with_client St self final /\
    List.length (Trace.calls run)
    = (List.length calls + S (List.length pages))%nat.
Proof.
  induction pages as [|page pages IH]; intros fuel self c final offset all_rows
    calls Hc Hanswers Hfuel run; subst run.
  - destruct Hanswers as (response & Hcall & Hrows).
    destruct fuel as [|fuel]; [inversion Hfuel|].
    simpl. unfold Ga4App.client. rewrite Hc, Hcall, Hrows.
    cbn [outcome state Trace.calls].
    rewrite app_nil_r, length_app. repeat split.
  - destruct Hanswers as (response & c' & Hcall & Hrows & Hne & Hrest).
    destruct fuel as [|fuel]; [inversion Hfuel|].
    simpl Ga4App._run_paginated_request_loop.
    unfold Ga4App.client. rewrite Hc, Hcall, Hrows.
    destruct page as [|row page]; [contradiction|].
    destruct (IH fuel (Ga4App.with_client St self c') c' final _
                (all_rows ++ row :: page)
                (calls ++ [Ga4App._create_request St self sd ed dims mets df
                             obs (Some offset)
                             (Some Ga4App.MAX_ROWS_PER_REQUEST)])
                eq_refl Hrest) as (Hout & Hstate & Hlen);
      [simpl in Hfuel; lia|].
    rewrite Hout, Hstate, Hlen. cbn [List.concat List.length].
    rewrite <- !app_assoc, length_app. cbn [List.length].
    repeat split. lia.
Qed.

(** A source that never returns an empty page uses up any fuel. *)
Lemma api_loop_never_empty pid sd ed dims df mets obs (fuel : nat) :
  never_empty run_report ->
  forall client all_rows offset calls,
    let run :=
      Ga4Api.run_paginated_request_loop St run_report fuel client pid sd ed
        dims df mets obs all_rows offset calls in
    outcome run = None /\
    List.length (Trace.calls run) = (List.length calls + fuel)%nat.
Proof.
  intros Hnever. induction fuel as [|fuel IH]; intros client all_rows offset
    calls run; subst run.
  - simpl. split; [reflexivity|lia].
  - simpl Ga4Api.run_paginated_request_loop.
    destruct (Hnever client
                (Ga4Api.create_request pid sd ed dims df mets obs (Some offset)
                   (Some Ga4Api.MAX_ROWS_PER_REQUEST)))
      as (response & client' & Hcall & Hne).
    rewrite Hcall. destruct (rows response) as [|row page]; [contradiction|].
    destruct (IH client' (all_rows ++ row :: page)
                (offset + Ga4Api.MAX_ROWS_PER_REQUEST)%Z
                (calls ++ [Ga4Api.create_request pid sd ed dims df mets obs
                             (Some offset) (Some Ga4Api.MAX_ROWS_PER_REQUEST)]))
      as (Hout & Hlen).
    rewrite Hout, Hlen, length_app. cbn [List.length]. split; [reflexivity|lia].
Qed.

Lemma app_loop_never_empty sd ed dims mets df obs (fuel : nat) :
  never_empty run_report ->
  forall self c all_rows offset calls,
    Ga4App._client St self = Some c ->
    let run :=
      Ga4App._run_paginated_request_loop St connect run_report fuel self sd ed
        dims mets df obs all_rows offset calls in
    outcome run = None /\
    List.length (Trace.calls run) = (List.length calls + fuel)%nat.
Proof.
  intros Hnever. induction fuel as [|fuel IH]; intros self c all_rows offset
    calls Hc run; subst run.
  - simpl. split; [reflexivity|lia].
  - simpl Ga4App._run_paginated_request_loop.
    unfold Ga4App.client. rewrite Hc.
    destruct (Hnever c
                (Ga4App._create_request St self sd ed dims mets df obs
                   (Some offset) (Some Ga4App.MAX_ROWS_PER_REQUEST)))
      as (response & c' & Hcall & Hne).
    rewrite Hcall. destruct (rows response) as [|row page]; [contradiction|].
    destruct (IH (Ga4App.with_client St self c') c' (all_rows ++ row :: page)
                (offset + Ga4App.MAX_ROWS_PER_REQUEST)%Z
                (calls ++ [Ga4App._create_request St self sd ed dims mets df
                             obs (Some offset)
                             (Some Ga4App.MAX_ROWS_PER_REQUEST)])
                eq_refl)
      as (Hout & Hlen).
    rewrite Hout, Hlen, length_app. cbn [List.length]. split; [reflexivity|lia].
Qed.

(** A run of an object that holds a client never uses [connect]. *)
Lemma app_loop_connected (connect' : option string -> result St)
    sd ed dims mets df obs (fuel : nat) :
  forall self c all_rows offset calls,
    Ga4App._client St self = Some c ->
    Ga4App._run_paginated_request_loop St connect' run_report fuel self sd ed
      dims mets df obs all_rows offset calls
    = Ga4App._run_paginated_request_loop St connect run_report fuel self sd ed
        dims mets df obs all_rows offset calls.
Proof.
  induction fuel as [|fuel IH]; intros self c all_rows offset calls Hc;
    [reflexivity|].
  simpl. unfold Ga4App.client. rewrite Hc.
  destruct (run_report c _) as [[response|e] c']; [|reflexivity].
  destruct (rows response); [reflexivity|].
  apply (IH _ c'). reflexivity.
Qed.

(** After a run that could connect, the object holds a client. *)
Lemma app_loop_leaves_client sd ed dims mets df obs (fuel : nat) :
  forall self c all_rows offset calls,
    fst (Ga4App.client St connect self) = Ok c ->
    exists c',
      Ga4App._client St
        (state (Ga4App._run_paginated_request_loop St connect run_report
                  (S fuel) self sd ed dims mets df obs all_rows offset calls))
      = Some c'.
Proof.
  induction fuel as [|fuel IH]; intros self c all_rows offset calls Hc.
  - simpl. destruct (Ga4App.client St connect self) as [[c0|e0] self'];
      [|discriminate].
    destruct (run_report c0 _) as [[response|e] c']; [|simpl; eauto].
    destruct (rows response); simpl; eauto.
  - remember (S fuel) as fuel1.
    simpl. destruct (Ga4App.client St connect self) as [[c0|e0] self'];
      [|discriminate].
    destruct (run_report c0 _) as [[response|e] c']; [|simpl; eauto].
    destruct (rows response); [simpl; eauto|].
    subst fuel1. apply (IH _ c'). reflexivity.
Qed.

End RunPages.

(** X2.  The paginators do not look at the size of a page: when the source
    returns k pages of at least one row each, of whatever lengths, and then an
    empty page, either paginator (given fuel for k + 1 iterations) returns the
    rows of the k pages in order after exactly k + 1 requests. *)
Theorem paginator_collects_pages_of_any_length :
  (forall (St : Type) (run_report : SDK.Fetcher St)
          (property_id start_date end_date : string)
          (dimensions : option (list string))
          (dimensions_filter : option (Py.dict Py.PyValue))
          (metrics order_bys : option (list string))
          (client final : St) (pages : list (list SDK.Row)) (fuel : nat),
      RunSpec.answers run_report
        (fun offset =>
           Ga4Api.create_request property_id start_date end_date dimensions
             dimensions_filter metrics order_bys (Some offset)
             (Some Ga4Api.MAX_ROWS_PER_REQUEST))
        Ga4Api.MAX_ROWS_PER_REQUEST client 0%Z pages final ->
      (List.length pages < fuel)%nat ->
      let run :=
        Ga4Api.run_paginated_request St run_report fuel client property_id
          start_date end_date dimensions dimensions_filter metrics order_bys in
      Trace.outcome run = Some (Py.Ok (List.concat pages)) /\
      Trace.state run = final /\
      List.length (Trace.calls run) = S (List.length pages))
  /\
  (forall (St : Type) (connect : option string -> Py.result St)
          (run_report : SDK.Fetcher St)
          (self : Ga4App.GA4AnalyticsClient St)
          (start_date end_date : string)
          (dimensions metrics : option (list string))
          (dimensions_filter : option (Py.dict Py.PyValue))
          (order_bys : option (list string))
          (client final : St) (pages : list (list SDK.Row)) (fuel : nat),
      fst (Ga4App.client St connect self) = Py.Ok client ->
      RunSpec.answers run_report
        (fun offset =>
           Ga4App._create_request St self start_date end_date dimensions
             metrics dimensions_filter order_bys (Some offset)
             (Some Ga4App.MAX_ROWS_PER_REQUEST))
        Ga4App.MAX_ROWS_PER_REQUEST client 0%Z pages final ->
      (List.length pages < fuel)%nat ->
      let run :=
        Ga4App._run_paginated_request St connect run_report fuel self
          start_date end_date dimensions metrics dimensions_filter order_bys in
      Trace.outcome run = Some (Py.Ok (List.concat pages)) /\
      Trace.state run = Ga4App.with_client St self final /\
      List.length (Trace.calls run) = S (List.length pages)).
Proof.
  split.
  - intros St run_report pid sd ed dims df mets obs client final pages fuel
      Hanswers Hfuel run.
    exact (api_loop_answers St run_report pid sd ed dims df mets obs pages
             fuel client final 0%Z [] [] Hanswers Hfuel).
  - intros St connect run_report self sd ed dims mets df obs client final
      pages fuel Hclient Hanswers Hfuel run.
    destruct fuel as [|fuel]; [inversion Hfuel|].
    subst run. unfold Ga4App._run_paginated_request.
    rewrite (app_loop_connect St connect run_report sd ed dims mets obs df
               fuel self client 0%Z [] [] Hclient).
    exact (app_loop_answers St connect run_report sd ed dims mets df obs pages
             (S fuel) (Ga4App.with_client St self client) client final 0%Z []
             [] eq_refl Hanswers Hfuel).
Qed.

(** A page of one row, a page of two rows, an empty page. *)
Lemma paginator_collects_pages_of_any_length_witness :
  (let run :=
     Ga4Api.run_paginated_request _ Samples.scripted 3
       [Samples.reply [Samples.sample_row];
        Samples.reply [Samples.sample_row; Samples.surplus_row];
        Samples.reply []]
       "123456789" "30daysAgo" "today" (Some Samples.sample_dimensions)
       None (Some Samples.sample_metrics) None in
   Trace.outcome run
   = Some (Py.Ok [Samples.sample_row; Samples.sample_row; Samples.surplus_row])
   /\ List.length (Trace.calls run) = 3%nat)
  /\
  (let run :=
     Ga4App._run_paginated_request _
       (fun _ => Py.Ok [Samples.reply [Samples.sample_row];
                        Samples.reply [Samples.sample_row; Samples.surplus_row];
                        Samples.reply []])
       Samples.scripted 3 (Samples.sample_self _)
       "2025-06-01" "yesterday" (Some Samples.sample_dimensions)
       (Some Samples.sample_metrics) None None in
   Trace.outcome run
   = Some (Py.Ok [Samples.sample_row; Samples.sample_row; Samples.surplus_row])
   /\ List.length (Trace.calls run) = 3%nat).
Proof.
  split.
  - intros run.
    destruct (proj1 paginator_collects_pages_of_any_length _ Samples.scripted
                "123456789" "30daysAgo" "today" (Some Samples.sample_dimensions)
                None (Some Samples.sample_metrics) None
                [Samples.reply [Samples.sample_row];
                 Samples.reply [Samples.sample_row; Samples.surplus_row];
                 Samples.reply []] []
                MoreSamples.short_pages 3%nat)
      as (Hout & _ & Hlen).
    + simpl. eexists _, _. repeat split; [discriminate|].
      eexists _, _. repeat split; [discriminate|].
      eexists. split; reflexivity.
    + simpl; lia.
    + split; assumption.
  - intros run.
    destruct (proj2 paginator_collects_pages_of_any_length _
                (fun _ => Py.Ok [Samples.reply [Samples.sample_row];
                                 Samples.reply [Samples.sample_row;
                                                Samples.surplus_row];
                                 Samples.reply []])
                Samples.scripted (Samples.sample_self _)
                "2025-06-01" "yesterday" (Some Samples.sample_dimensions)
                (Some Samples.sample_metrics) None None
                [Samples.reply [Samples.sample_row];
                 Samples.reply [Samples.sample_row; Samples.surplus_row];
                 Samples.reply []] []
                MoreSamples.short_pages 3%nat)
      as (Hout & _ & Hlen).
    + reflexivity.
    + simpl. eexists _, _. repeat split; [discriminate|].
      eexists _, _. repeat split; [discriminate|].
      eexists. split; reflexivity.
    + simpl; lia.
    + split; assumption.
Defined.

(** X3.  Neither paginator bounds the number of pages: against a source that
    answers every request with a page of at least one row, a run has not
    returned after any number of iterations, and has sent one request per
    iteration. *)
Theorem paginator_does_not_stop_on_full_source :
  (forall (St : Type) (run_report : SDK.Fetcher St)
          (property_id start_date end_date : string)
          (dimensions : option (list string))
          (dimensions_filter : option (Py.dict Py.PyValue))
          (metrics order_bys : option (list string))
          (client : St) (fuel : nat),
      RunSpec.never_empty run_report ->
      let run :=
        Ga4Api.run_paginated_request St run_report fuel client property_id
          start_date end_date dimensions dimensions_filter metrics order_bys in
      Trace.outcome run = None /\ List.length (Trace.calls run) = fuel)
  /\
  (forall (St : Type) (connect : option string -> Py.result St)
          (run_report : SDK.Fetcher St)
          (self : Ga4App.GA4AnalyticsClient St)
          (start_date end_date : string)
          (dimensions metrics : option (list string))
          (dimensions_filter : option (Py.dict Py.PyValue))
          (order_bys : option (list string))
          (client : St) (fuel : nat),
      fst (Ga4App.client St connect self) = Py.Ok client ->
      RunSpec.never_empty run_report ->
      let run :=
        Ga4App._run_paginated_request St connect run_report fuel self
          start_date end_date dimensions metrics dimensions_filter order_bys in
      Trace.outcome run = None /\ List.length (Trace.calls run) = fuel).
Proof.
  split.
  - intros St run_report pid sd ed dims df mets obs client fuel Hnever run.
    exact (api_loop_never_empty St run_report pid sd ed dims df mets obs fuel
             Hnever client [] 0%Z []).
  - intros St connect run_report self sd ed dims mets df obs client fuel
      Hclient Hnever run.
    destruct fuel as [|fuel]; [split; reflexivity|].
    subst run. unfold Ga4App._run_paginated_request.
    rewrite (app_loop_connect St connect run_report sd ed dims mets obs df
               fuel self client 0%Z [] [] Hclient).
    exact (app_loop_never_empty St connect run_report sd ed dims mets df obs
             (S fuel) Hnever (Ga4App.with_client St self client) client []
             0%Z [] eq_refl).
Qed.

(** A source that returns the same page for ever, run for 50 iterations. *)
Lemma paginator_does_not_stop_on_full_source_witness :
  (let run :=
     Ga4Api.run_paginated_request _ MoreSamples.endless 50 tt
       "123456789" "30daysAgo" "today" (Some Samples.sample_dimensions)
       None (Some Samples.sample_metrics) None in
   Trace.outcome run = None /\ List.length (Trace.calls run) = 50%nat)
  /\
  (let run :=
     Ga4App._run_paginated_request _ (fun _ => Py.Ok tt) MoreSamples.endless
       50 (Samples.sample_self _) "2025-06-01" "yesterday"
       (Some Samples.sample_dimensions) (Some Samples.sample_metrics)
       None None in
   Trace.outcome run = None /\ List.length (Trace.calls run) = 50%nat).
Proof.
  assert (Hnever : RunSpec.never_empty MoreSamples.endless).
  { intros client request. eexists _, _. split; [reflexivity|discriminate]. }
  split.
  - apply (proj1 paginator_does_not_stop_on_full_source). exact Hnever.
  - apply (proj2 paginator_does_not_stop_on_full_source _ _ _ _ _ _ _ _ _ _ tt).
    + reflexivity.
    + exact Hnever.
Defined.

(** X5.  In [ga4_app] the client is opened inside the [try] of the loop: when the
    object holds no client and connecting fails, the paginator raises the
    error of the fetch wrapped around the error of the connection, at
    offset 0, without having sent a request, and the object stays without a
    client. *)
Theorem paginator_wraps_connection_failure
    (St : Type) (connect : option string -> Py.result St)
    (run_report : SDK.Fetcher St) (fuel : nat)
    (self : Ga4App.GA4AnalyticsClient St)
    (start_date end_date : string)
    (dimensions metrics : option (list string))
    (dimensions_filter : option (Py.dict Py.PyValue))
    (order_bys : option (list string)) (e : Py.PyExc) :
  Ga4App._client St self = None ->
  connect (Ga4App.credentials_path St self) = Py.Raise e ->
  Ga4App._run_paginated_request St connect run_report (S fuel) self
    start_date end_date dimensions metrics dimensions_filter order_bys
  = {| Trace.outcome :=
         Some (Py.Raise (Py.Exc Py.RuntimeError
           ("API request failed at offset 0: "
            ++ "Failed to establish GA4 API connection: " ++ Py.str_exc e)));
       Trace.state := self;
       Trace.calls := [] |}.
Proof.
  intros Hnone Hconnect.
  unfold Ga4App._run_paginated_request. simpl.
  unfold Ga4App.client, Ga4App._establish_connection.
  rewrite Hnone, Hconnect. reflexivity.
Qed.

Lemma paginator_wraps_connection_failure_witness :
  Trace.outcome
    (Ga4App._run_paginated_request (list (Py.result SDK.RunReportResponse))
       (fun _ => Py.Raise MoreSamples.no_credentials) Samples.scripted 3
       (Samples.sample_self _) "2025-06-01" "yesterday"
       (Some Samples.sample_dimensions) (Some Samples.sample_metrics)
       None None)
  = Some (Py.Raise (Py.Exc Py.RuntimeError
      "API request failed at offset 0: Failed to establish GA4 API connection: [Errno 2] No such file or directory: 'credentials.json'")).
Proof.
  rewrite (paginator_wraps_connection_failure _
             (fun _ => Py.Raise MoreSamples.no_credentials) Samples.scripted 2
             (Samples.sample_self _) "2025-06-01" "yesterday"
             (Some Samples.sample_dimensions) (Some Samples.sample_metrics)
             None None MoreSamples.no_credentials eq_refl eq_refl).
  reflexivity.
Defined.

(** X6.  The client of a [GA4AnalyticsClient] is opened at most once: once the
    property [client] has returned a client, reading it again returns the
    same client without connecting; and after a run of the paginator that
    could connect, the object holds a client, so a later run on it does not
    depend on [connect]. *)
Theorem client_is_opened_once
    (St : Type) (connect connect' : option string -> Py.result St)
    (run_report : SDK.Fetcher St) (self : Ga4App.GA4AnalyticsClient St)
    (c : St) :
  fst (Ga4App.client St connect self) = Py.Ok c ->
  Ga4App.client St connect' (snd (Ga4App.client St connect self))
  = (Py.Ok c, snd (Ga4App.client St connect self)) /\
  forall (fuel fuel' : nat) (start_date end_date start_date' end_date' : string)
         (dimensions metrics dimensions' metrics' : option (list string))
         (dimensions_filter dimensions_filter' : option (Py.dict Py.PyValue))
         (order_bys order_bys' : option (list string)),
    let self' :=
      Trace.state
        (Ga4App._run_paginated_request St connect run_report (S fuel) self
           start_date end_date dimensions metrics dimensions_filter order_bys) in
    (exists c', Ga4App._client St self' = Some c') /\
    Ga4App._run_paginated_request St connect' run_report fuel' self'
      start_date' end_date' dimensions' metrics' dimensions_filter' order_bys'
    = Ga4App._run_paginated_request St connect run_report fuel' self'
        start_date' end_date' dimensions' metrics' dimensions_filter'
        order_bys'.
Proof.
  intros Hc. split.
  - unfold Ga4App.client in *.
    destruct (Ga4App._client St self) as [c0|] eqn:Hself.
    + simpl in Hc |- *. rewrite Hself. injection Hc as ->. reflexivity.
    + destruct (Ga4App._establish_connection St connect self) as [c0|e0];
        simpl in Hc |- *; [|discriminate].
      injection Hc as ->. reflexivity.
  - intros fuel fuel' sd ed sd' ed' dims mets dims' mets' df df' obs obs' self'.
    destruct (app_loop_leaves_client St connect run_report sd ed dims mets df
                obs fuel self c [] 0%Z [] Hc) as [c' Hc'].
    fold (Ga4App._run_paginated_request St connect run_report (S fuel) self
            sd ed dims mets df obs) in Hc'.
    fold self' in Hc'. split; [eauto|].
    unfold Ga4App._run_paginated_request.
    apply (app_loop_connected St connect run_report connect' sd' ed' dims'
             mets' df' obs' fuel' self' c' [] 0%Z [] Hc').
Qed.

Lemma client_is_opened_once_witness :
  let connect : option string -> Py.result unit := fun _ => Py.Ok tt in
  let broken : option string -> Py.result unit :=
    fun _ => Py.Raise MoreSamples.no_credentials in
  Ga4App.client unit broken
    (snd (Ga4App.client unit connect (Samples.sample_self unit)))
  = (Py.Ok tt, snd (Ga4App.client unit connect (Samples.sample_self unit))).
Proof.
  intros connect broken.
  apply (proj1 (client_is_opened_once unit connect broken MoreSamples.endless
                  (Samples.sample_self unit) tt eq_refl)).
Defined.

(* ================================================================== *)
(** ** Further properties of the request builders *)

(** X7.  Ordering.  An ordering the caller gives (a non-empty list) is used by both
    builders.  Without one, [create_request] orders by nothing and
    [_create_request] by the dimensions in their order; so the two orderings
    coincide exactly when the caller gives an ordering or there is no
    dimension. *)
Theorem ordering_defaults
    (St : Type) (self : Ga4App.GA4AnalyticsClient St)
    (property_id start_date end_date : string)
    (dimensions metrics order_bys : option (list string))
    (dimensions_filter : option (Py.dict Py.PyValue))
    (offset limit : option Z) :
  let by_dimension (name : string) : SDK.OrderBy :=
    {| SDK.dimension := {| SDK.dimension_name := name |} |} in
  let api :=
    Ga4Api.create_request property_id start_date end_date dimensions
      dimensions_filter metrics order_bys offset limit in
  let app :=
    Ga4App._create_request St self start_date end_date dimensions metrics
      dimensions_filter order_bys offset limit in
  SDK.order_bys api
  = map by_dimension (if Py.truthy order_bys then Py.or_empty order_bys else []) /\
  SDK.order_bys app
  = map by_dimension
      (if Py.truthy order_bys then Py.or_empty order_bys
       else Py.or_empty dimensions) /\
  (SDK.order_bys api = SDK.order_bys app
   <-> Py.truthy order_bys = true \/ Py.or_empty dimensions = []).
Proof.
  intros by_dimension api app. subst api app.
  cbn [Ga4Api.create_request Ga4App._create_request SDK.order_bys].
  destruct order_bys as [[|ob obs]|]; destruct dimensions as [[|d ds]|];
    cbn; repeat split; auto;
    try (intros [H|H]; discriminate); try discriminate.
Qed.

(** X8.  Apart from the group operator of the filter, the default ordering and
    the default limit, the two builders make the same request: for the same
    property, no filter, an ordering given (or no dimension) and a limit
    given, the requests are equal. *)
Theorem request_builders_agree
    (St : Type) (self : Ga4App.GA4AnalyticsClient St)
    (property_id start_date end_date : string)
    (dimensions metrics order_bys : option (list string))
    (dimensions_filter : option (Py.dict Py.PyValue))
    (offset : option Z) (limit : Z) :
  Ga4App.property_id St self = Some property_id ->
  Py.truthy dimensions_filter = false ->
  Py.truthy order_bys = true \/ Py.or_empty dimensions = [] ->
  limit <> 0%Z ->
  Ga4Api.create_request property_id start_date end_date dimensions
    dimensions_filter metrics order_bys offset (Some limit)
  = Ga4App._create_request St self start_date end_date dimensions metrics
      dimensions_filter order_bys offset (Some limit).
Proof.
  intros Hpid Hfilter Horder Hlimit.
  unfold Ga4Api.create_request, Ga4App._create_request. rewrite Hpid.
  assert (Hl : match limit with
               | 0%Z => Ga4App.MAX_ROWS_PER_REQUEST
               | _ => limit
               end = limit) by (destruct limit; congruence).
  cbn [Ga4App.str_opt].
  destruct dimensions_filter as [[|item d]|]; try discriminate;
    destruct order_bys as [[|ob obs]|]; destruct dimensions as [[|dim dims]|];
    cbn in Horder |- *; try (destruct Horder; discriminate);
    destruct limit; try congruence; reflexivity.
Qed.

Lemma request_builders_agree_witness :
  Ga4Api.create_request "123456789" "2025-06-01" "yesterday"
    (Some Samples.sample_dimensions) (Some []) (Some Samples.sample_metrics)
    (Some ["date"]) None (Some 5000%Z)
  = Ga4App._create_request unit (Samples.sample_self unit) "2025-06-01"
      "yesterday" (Some Samples.sample_dimensions)
      (Some Samples.sample_metrics) (Some []) (Some ["date"]) None
      (Some 5000%Z).
Proof.
  apply request_builders_agree.
  - reflexivity.
  - reflexivity.
  - left. reflexivity.
  - discriminate.
Defined.

(** X9.  A non-empty mapping whose values are all of a type the filter builder
    skips still attaches a filter: a group without any predicate. *)
Theorem skipped_values_leave_an_empty_group
    (St : Type) (self : Ga4App.GA4AnalyticsClient St)
    (property_id start_date end_date : string)
    (dimensions metrics order_bys : option (list string))
    (offset limit : option Z) (d : Py.dict Py.PyValue) :
  d <> [] ->
  forallb (fun item => negb (Spec.is_supported (snd item))) d = true ->
  SDK.dimension_filter
    (Ga4Api.create_request property_id start_date end_date dimensions
       (Some d) metrics order_bys offset limit)
  = Some (SDK.and_group (SDK.Build_FilterExpressionList [])) /\
  SDK.dimension_filter
    (Ga4App._create_request St self start_date end_date dimensions metrics
       (Some d) order_bys offset limit)
  = Some (SDK.or_group (SDK.Build_FilterExpressionList [])).
Proof.
  intros Hd Hskip.
  assert (Hnone : flat_map (Spec.predicate_of false) d = []).
  { clear Hd. induction d as [|[k v] d IH]; [reflexivity|].
    simpl in Hskip. apply andb_prop in Hskip as [Hv Hrest].
    change (flat_map (Spec.predicate_of false) ((k, v) :: d))
      with (Spec.predicate_of false (k, v)
            ++ flat_map (Spec.predicate_of false) d).
    rewrite (IH Hrest). destruct v; try discriminate; reflexivity. }
  destruct d as [|item d]; [contradiction|].
  cbn [Ga4Api.create_request Ga4App._create_request SDK.dimension_filter].
  rewrite dimension_filtering_flat_map, create_filter_expressions_flat_map.
  rewrite Hnone. split; reflexivity.
Qed.

Lemma skipped_values_leave_an_empty_group_witness :
  SDK.dimension_filter
    (Ga4Api.create_request "123456789" "30daysAgo" "today" None
       (Some MoreSamples.unsupported_filter) None None None None)
  = Some (SDK.and_group (SDK.Build_FilterExpressionList [])) /\
  SDK.dimension_filter
    (Ga4App._create_request unit (Samples.sample_self unit) "30daysAgo"
       "today" None None (Some MoreSamples.unsupported_filter) None None None)
  = Some (SDK.or_group (SDK.Build_FilterExpressionList [])).
Proof.
  apply (skipped_values_leave_an_empty_group unit (Samples.sample_self unit)
           "123456789" "30daysAgo" "today" None None None None None
           MoreSamples.unsupported_filter).
  - discriminate.
  - reflexivity.
Defined.

(** X10.  The property a [GA4AnalyticsClient] queries.  A non-empty [property_id]
    given to the constructor is used, whatever the environment holds; without
    one (none, or the empty string) the environment variable GA4_PROPERTY_ID
    is used; and when that is unset too, construction still succeeds, no
    client is opened, and every request names the property
    "properties/None". *)
Theorem property_of_requests
    (St : Type) (getenv : string -> option string)
    (credentials_path property_id : option string)
    (start_date end_date : string)
    (dimensions metrics order_bys : option (list string))
    (dimensions_filter : option (Py.dict Py.PyValue))
    (offset limit : option Z) :
  let self := Ga4App.__init__ St getenv credentials_path property_id in
  let request :=
    Ga4App._create_request St self start_date end_date dimensions metrics
      dimensions_filter order_bys offset limit in
  Ga4App._client St self = None /\
  (forall id : string,
      property_id = Some id -> id <> "" ->
      SDK.property request = ("properties/" ++ id)%string) /\
  (property_id = None \/ property_id = Some "" ->
   forall id : string,
     getenv "GA4_PROPERTY_ID" = Some id ->
     SDK.property request = ("properties/" ++ id)%string) /\
  (property_id = None \/ property_id = Some "" ->
   getenv "GA4_PROPERTY_ID" = None ->
   SDK.property request = "properties/None").
Proof.
  intros self request. subst self request.
  cbn [Ga4App.__init__ Ga4App._create_request SDK.property Ga4App.property_id
         Ga4App._client].
  split; [reflexivity|]. split; [|split].
  - intros id -> Hid. destruct id; [contradiction|reflexivity].
  - intros [-> | ->] id Henv; cbn [Ga4App.str_or]; now rewrite Henv.
  - intros [-> | ->] Henv; cbn [Ga4App.str_or]; now rewrite Henv.
Qed.

(** An object made without a property id in an empty environment. *)
Lemma property_of_requests_witness :
  SDK.property
    (Ga4App._create_request unit
       (Ga4App.__init__ unit (fun _ => None) (Some "credentials.json") None)
       "2025-06-01" "yesterday" None None None None None None)
  = "properties/None" /\
  SDK.property
    (Ga4App._create_request unit
       (Ga4App.__init__ unit (fun _ => Some "987654321")
          (Some "credentials.json") (Some "123456789"))
       "2025-06-01" "yesterday" None None None None None None)
  = "properties/123456789".
Proof.
  split.
  - apply (proj2 (proj2 (proj2
             (property_of_requests unit (fun _ => None)
                (Some "credentials.json") None "2025-06-01" "yesterday"
                None None None None None None)))).
    + left. reflexivity.
    + reflexivity.
  - apply (proj1 (proj2
             (property_of_requests unit (fun _ => Some "987654321")
                (Some "credentials.json") (Some "123456789") "2025-06-01"
                "yesterday" None None None None None None)) "123456789").
    + reflexivity.
    + discriminate.
Defined.

(* ================================================================== *)
(** ** Further properties of the tabulators and of [get_report] *)

Section DictMerge.
Import Py.

Context {V : Type}.
Implicit Types (d acc : dict V) (k : string) (v : V) (kvs : list (string * V)).

Lemma dict_set_twice d k v v' :
  dict_set (dict_set d k v) k v' = dict_set d k v'.
Proof.
  induction d as [|[k0 v0] d IH]; simpl.
  - now rewrite String.eqb_refl.
  - destruct (String.eqb_spec k0 k) as [->|Hne]; simpl.
    + now rewrite String.eqb_refl.
    + destruct (String.eqb_spec k0 k) as [->|_]; [now destruct Hne|].
      now rewrite IH.
Qed.

Lemma dict_set_swap d k v k' v' :
  k <> k' -> In k (keys d) ->
  dict_set (dict_set d k' v') k v = dict_set (dict_set d k v) k' v'.
Proof.
  intros Hkk'. induction d as [|[k0 v0] d IH]; simpl; intros Hin;
    [contradiction|].
  destruct (String.eqb_spec k0 k') as [Heq'|Hne'];
    destruct (String.eqb_spec k0 k) as [Heq|Hne]; simpl.
  - congruence.
  - destruct (String.eqb_spec k0 k) as [?|_]; [contradiction|].
    destruct (String.eqb_spec k0 k') as [_|?]; [reflexivity|contradiction].
  - destruct (String.eqb_spec k0 k') as [?|_]; [contradiction|].
    destruct (String.eqb_spec k0 k) as [_|?]; [reflexivity|contradiction].
  - destruct (String.eqb_spec k0 k) as [?|_]; [contradiction|].
    destruct (String.eqb_spec k0 k') as [?|_]; [contradiction|].
    rewrite IH; [reflexivity|]. destruct Hin as [?|Hin]; [contradiction|exact Hin].
Qed.

(** Setting a key that is present commutes with updates of other keys. *)
Lemma dict_update_set_present kvs :
  forall d k v,
    In k (keys d) -> ~ In k (map fst kvs) ->
    dict_set (dict_update d kvs) k v = dict_update (dict_set d k v) kvs.
Proof.
  induction kvs as [|[k0 v0] kvs IH]; intros d k v Hin Hnot; [reflexivity|].
  rewrite !dict_update_cons. simpl in Hnot.
  rewrite IH.
  - rewrite dict_set_swap; [reflexivity| |exact Hin].
    intros ->. apply Hnot. now left.
  - apply keys_dict_set_in. now right.
  - intros H. apply Hnot. now right.
Qed.

Lemma in_keys_split acc k :
  In k (keys acc) ->
  exists before v0 after,
    acc = before ++ (k, v0) :: after /\ ~ In k (keys before).
Proof.
  induction acc as [|[k0 v0] acc IH]; simpl; intros Hin; [contradiction|].
  destruct (String.eqb_spec k0 k) as [->|Hne].
  - exists [], v0, acc. split; [reflexivity|intros []].
  - destruct Hin as [Heq|Hin]; [now destruct Hne|].
    destruct (IH Hin) as (before & v1 & after & -> & Hnot).
    exists ((k0, v0) :: before), v1, after. split; [reflexivity|].
    simpl. intros [Heq|H]; [now destruct Hne|now apply Hnot].
Qed.

Lemma dict_set_split before k v0 after v :
  ~ In k (keys before) ->
  dict_set (before ++ (k, v0) :: after) k v = before ++ (k, v) :: after.
Proof.
  induction before as [|[k1 v1] before IH]; simpl; intros Hnot.
  - now rewrite String.eqb_refl.
  - destruct (String.eqb_spec k1 k) as [->|Hne].
    + exfalso. apply Hnot. now left.
    + rewrite IH; [reflexivity|]. intros H. apply Hnot. now right.
Qed.

(** Updating with a dict in which one key was set is updating and then
    setting the key. *)
Lemma dict_update_with_set d acc k v :
  NoDup (keys acc) ->
  dict_update d (dict_set acc k v) = dict_set (dict_update d acc) k v.
Proof.
  intros Hnd.
  destruct (in_dec string_dec k (keys acc)) as [Hin|Hnot].
  - destruct (in_keys_split acc k Hin) as (before & v0 & after & -> & Hbefore).
    rewrite dict_set_split by exact Hbefore.
    assert (Hafter : ~ In k (map fst after)).
    { unfold keys in Hnd. rewrite map_app in Hnd. simpl in Hnd.
      apply NoDup_remove_2 in Hnd. intros H. apply Hnd.
      apply in_or_app. now right. }
    rewrite !dict_update_app, !dict_update_cons.
    rewrite (dict_update_set_present after
               (dict_set (dict_update d before) k v0) k v);
      [|apply keys_dict_set_in; now left|exact Hafter].
    now rewrite dict_set_twice.
  - rewrite dict_set_fresh by exact Hnot.
    now rewrite dict_update_app.
Qed.

(** Merging a dict built by assignments is making the assignments. *)
Lemma dict_update_with_update kvs :
  forall d acc,
    NoDup (keys acc) ->
    dict_update d (dict_update acc kvs) = dict_update (dict_update d acc) kvs.
Proof.
  induction kvs as [|[k v] kvs IH]; intros d acc Hnd; [reflexivity|].
  rewrite !dict_update_cons.
  rewrite IH by now apply keys_dict_set_NoDup.
  now rewrite dict_update_with_set.
Qed.

End DictMerge.

Section TabulatorsAgree.
Import Py SDK Pandas Spec.

(** The record of [ga4_api] and the record of [ga4_app] for a row are the
    same dict, also when names repeat. *)
Lemma merged_is_assigned (dimensions metrics : list string) (row : Row) :
  merged_record dimensions metrics row = assigned_record dimensions metrics row.
Proof.
  unfold merged_record, assigned_record.
  rewrite dict_update_with_update by constructor. reflexivity.
Qed.

Lemma columns_from_keys (records : list (dict string)) :
  forall acc c,
    In c (fold_left (fun acc r => fold_left add_column_name (keys r) acc)
            records acc) ->
    In c acc \/ exists r, In r records /\ In c (keys r).
Proof.
  assert (Hnames : forall ks acc c,
             In c (fold_left add_column_name ks acc) -> In c acc \/ In c ks).
  { induction ks as [|k ks IH]; intros acc c Hin; [now left|].
    simpl in Hin. apply IH in Hin as [Hin|Hin]; [|right; now right].
    unfold add_column_name in Hin.
    destruct (has_name k acc); [now left|].
    apply in_app_or in Hin as [Hin|[<-|[]]]; [now left|right; now left]. }
  induction records as [|r records IH]; intros acc c Hin; [now left|].
  simpl in Hin. apply IH in Hin as [Hin|(r' & Hr' & Hc)].
  - apply Hnames in Hin as [Hin|Hin]; [now left|].
    right. exists r. split; [now left|exact Hin].
  - right. exists r'. split; [now right|exact Hc].
Qed.

End TabulatorsAgree.

(** X11.  The tabulators of the two files agree on every input, also under names
    that repeat: they build the same records, fail on the same inputs with
    the same [IndexError], and so return the same table or both raise a
    [RuntimeError] that ends with the text of that [IndexError]. *)
Theorem tabulators_agree
    (index_error_text : nat -> string) (all_data : list SDK.Row)
    (dimensions metrics : list string) :
  Ga4Api.convert_response_data index_error_text all_data dimensions metrics
  = Ga4App._convert_to_dataframe_data index_error_text all_data dimensions
      metrics /\
  (forall df : Pandas.DataFrame,
      Ga4Api.convert_response_to_dataframe index_error_text all_data
        dimensions metrics = Py.Ok df
      <-> Ga4App._convert_to_dataframe index_error_text all_data dimensions
            metrics = Py.Ok df) /\
  (forall e : Py.PyExc,
      Ga4Api.convert_response_data index_error_text all_data dimensions metrics
      = Py.Raise e ->
      Py.exc_class e = Py.IndexError /\
      Ga4Api.convert_response_to_dataframe index_error_text all_data
        dimensions metrics
      = Py.Raise (Py.Exc Py.RuntimeError
          ("Failed to convert response to DataFrame: " ++ Py.str_exc e)) /\
      Ga4App._convert_to_dataframe index_error_text all_data dimensions metrics
      = Py.Raise (Py.Exc Py.RuntimeError
          ("DataFrame conversion failed: " ++ Py.str_exc e))).
Proof.
  rewrite api_data, app_data, api_dataframe, app_dataframe.
  rewrite (map_ext _ _ (merged_is_assigned dimensions metrics)).
  destruct (Spec.first_missing dimensions metrics all_data) as [i|].
  - split; [reflexivity|]. split.
    + intros df. split; discriminate.
    + intros e [= <-]. repeat split.
  - split; [reflexivity|]. split.
    + intros df. split; intros Hdf; exact Hdf.
    + intros e He. discriminate.
Qed.

Lemma tabulators_agree_witness :
  Py.exc_class (Py.Exc Py.IndexError (Samples.list_index_error 1))
  = Py.IndexError /\
  Ga4Api.convert_response_to_dataframe Samples.list_index_error
    [Samples.short_row] Samples.sample_dimensions Samples.sample_metrics
  = Py.Raise (Py.Exc Py.RuntimeError
      "Failed to convert response to DataFrame: list index out of range") /\
  Ga4App._convert_to_dataframe Samples.list_index_error
    [Samples.short_row] Samples.sample_dimensions Samples.sample_metrics
  = Py.Raise (Py.Exc Py.RuntimeError
      "DataFrame conversion failed: list index out of range").
Proof.
  apply (proj2 (proj2 (tabulators_agree Samples.list_index_error
                         [Samples.short_row] Samples.sample_dimensions
                         Samples.sample_metrics))).
  reflexivity.
Defined.

(* ================================================================== *)
(** ** Names that repeat *)

Section UniqueNames.
Import Py SDK Pandas Spec TableSpec.

Lemma keys_dict_set_names {V} (d : dict V) (k : string) (v : V) :
  keys (dict_set d k v) = add_column_name (keys d) k.
Proof.
  unfold add_column_name, has_name.
  induction d as [|[k0 v0] d IH]; [reflexivity|].
  cbn [dict_set keys map fst existsb].
  rewrite (String.eqb_sym k k0).
  destruct (String.eqb_spec k0 k) as [->|Hne]; [reflexivity|].
  cbn [keys map fst orb]. fold (keys (dict_set d k v)). fold (keys d).
  rewrite IH. destruct (existsb (String.eqb k) (keys d)); reflexivity.
Qed.

Lemma keys_dict_update_names {V} (kvs : list (string * V)) :
  forall d : dict V,
    keys (dict_update d kvs) = fold_left add_column_name (map fst kvs) (keys d).
Proof.
  induction kvs as [|[k v] kvs IH]; intros d; [reflexivity|].
  rewrite dict_update_cons, IH, keys_dict_set_names. reflexivity.
Qed.

(** The keys of the record of a row that is long enough are the names, each
    once, whatever the values. *)
Lemma assigned_record_keys (dimensions metrics : list string) (row : Row) :
  long_enough dimensions metrics row ->
  keys (assigned_record dimensions metrics row)
  = unique_names (dimensions ++ metrics).
Proof.
  intros [Hd Hm]. unfold assigned_record, unique_names.
  rewrite !keys_dict_update_names.
  rewrite !map_fst_combine_le by (rewrite length_map; lia).
  now rewrite fold_left_app.
Qed.

Lemma add_names_in (ks : list string) :
  forall acc c,
    In c (fold_left add_column_name ks acc) <-> In c acc \/ In c ks.
Proof.
  induction ks as [|k ks IH]; intros acc c; simpl; [tauto|].
  rewrite IH. unfold add_column_name.
  destruct (has_name k acc) eqn:Hk.
  - apply has_name_in in Hk. split; [tauto|].
    intros [H|[<-|H]]; tauto.
  - rewrite in_app_iff. simpl. tauto.
Qed.

Lemma add_names_NoDup (ks : list string) :
  forall acc, NoDup acc -> NoDup (fold_left add_column_name ks acc).
Proof.
  induction ks as [|k ks IH]; intros acc Hnd; [exact Hnd|].
  simpl. apply IH. unfold add_column_name.
  destruct (has_name k acc) eqn:Hk; [exact Hnd|].
  apply NoDup_app; [exact Hnd|repeat constructor; intros []|].
  intros a Ha [<-|[]].
  apply has_name_in in Ha. congruence.
Qed.

Lemma unique_names_in (names : list string) (c : string) :
  In c (unique_names names) <-> In c names.
Proof. unfold unique_names. rewrite add_names_in. simpl. tauto. Qed.

Lemma unique_names_NoDup (names : list string) : NoDup (unique_names names).
Proof. apply add_names_NoDup. constructor. Qed.

(** There are as many unique names as names exactly when no name repeats. *)
Lemma unique_names_size (names : list string) :
  (List.length (unique_names names) <= List.length names)%nat /\
  (List.length (unique_names names) = List.length names <-> NoDup names).
Proof.
  pose proof (unique_names_NoDup names) as Hnd.
  assert (Hle : (List.length (unique_names names) <= List.length names)%nat).
  { apply NoDup_incl_length; [exact Hnd|].
    intros c Hc. now apply unique_names_in. }
  split; [exact Hle|]. split.
  - intros Heq. apply (@NoDup_incl_NoDup _ (unique_names names) names Hnd);
      [lia|]. intros c Hc. now apply unique_names_in.
  - intros Hnames. apply Nat.le_antisymm; [exact Hle|].
    apply NoDup_incl_length; [exact Hnames|].
    intros c Hc. now apply unique_names_in.
Qed.

Lemma nth_map_index_of {B} (f : string -> B) (default : B) (name : string)
    (names : list string) (i : nat) :
  index_of name names = Some i -> nth i (map f names) default = f name.
Proof.
  intros Hi. apply index_of_nth in Hi.
  apply nth_error_nth. rewrite nth_error_map, Hi. reflexivity.
Qed.

(** A column of a table built from records holds, row by row, the value of
    the record under the name of the column. *)
Lemma get_column_of_records (records : list (dict string)) (name : string) :
  In name (columns (pd_DataFrame records)) ->
  get_column (pd_DataFrame records) name
  = map (fun r => cell_of r name) records.
Proof.
  intros Hin. apply has_name_in in Hin.
  destruct (index_of_has_name _ _ Hin) as [i Hi].
  unfold get_column. rewrite Hi.
  unfold pd_DataFrame in *. cbn [columns data] in *.
  rewrite map_map. apply map_ext. intros r.
  now apply nth_map_index_of.
Qed.

End UniqueNames.

(** C10.  When every row has a value for each name, the tabulators of both
    files return the same table, the table of one record per row; the keys of
    every record, and for at least one row the columns of the table, are the
    names in order of first appearance, each once, and their number is D + M
    exactly when the D + M names are pairwise distinct.  For a name that is
    both a dimension name and a metric name: it is a key of every record and a
    column of the table exactly once; the record, and the column of the table,
    hold under it the metric value (the one at the last position of the name
    among the metric names), not the dimension value; and the records and the
    table have fewer than D + M keys and columns. *)
Theorem shared_name_keeps_metric_value
    (index_error_text : nat -> string) (all_data : list SDK.Row)
    (dimensions metrics : list string) :
  Forall (Spec.long_enough dimensions metrics) all_data ->
  exists records : list (Py.dict string),
    Ga4Api.convert_response_data index_error_text all_data dimensions metrics
    = Py.Ok records /\
    Ga4App._convert_to_dataframe_data index_error_text all_data dimensions
      metrics = Py.Ok records /\
    Ga4Api.convert_response_to_dataframe index_error_text all_data dimensions
      metrics = Py.Ok (Pandas.pd_DataFrame records) /\
    Ga4App._convert_to_dataframe index_error_text all_data dimensions metrics
    = Py.Ok (Pandas.pd_DataFrame records) /\
    List.length records = List.length all_data /\
    Pandas.len (Pandas.pd_DataFrame records) = List.length all_data /\
    Forall (fun record =>
              Py.keys record = TableSpec.unique_names (dimensions ++ metrics))
           records /\
    (all_data <> [] ->
     Pandas.columns (Pandas.pd_DataFrame records)
     = TableSpec.unique_names (dimensions ++ metrics)) /\
    (List.length (TableSpec.unique_names (dimensions ++ metrics))
     = (List.length dimensions + List.length metrics)%nat
     <-> NoDup (dimensions ++ metrics)) /\
    forall (name : string) (i : nat),
      In name dimensions ->
      nth_error metrics i = Some name ->
      ~ In name (skipn (S i) metrics) ->
      count_occ string_dec (TableSpec.unique_names (dimensions ++ metrics)) name
      = 1%nat /\
      (List.length (TableSpec.unique_names (dimensions ++ metrics))
       < List.length dimensions + List.length metrics)%nat /\
      Forall2 (fun row record =>
                 Py.dict_get record name
                 = option_map SDK.mv_value
                     (nth_error (SDK.metric_values row) i))
              all_data records /\
      (all_data <> [] ->
       Forall2 (TableSpec.metric_cell i) all_data
         (Pandas.get_column (Pandas.pd_DataFrame records) name)).
Proof.
  intros Hlong.
  exists (map (Spec.assigned_record dimensions metrics) all_data).
  rewrite api_data, app_data, api_dataframe, app_dataframe.
  rewrite (first_missing_long_enough _ _ _ Hlong).
  rewrite (map_ext _ _ (merged_is_assigned dimensions metrics)).
  do 4 (split; [reflexivity|]).
  assert (Hkeys : Forall (fun record =>
                            Py.keys record
                            = TableSpec.unique_names (dimensions ++ metrics))
                    (map (Spec.assigned_record dimensions metrics) all_data)).
  { apply Forall_map. revert Hlong. apply Forall_impl.
    intros row. apply assigned_record_keys. }
  assert (Hcols : all_data <> [] ->
                  Pandas.columns
                    (Pandas.pd_DataFrame
                       (map (Spec.assigned_record dimensions metrics) all_data))
                  = TableSpec.unique_names (dimensions ++ metrics)).
  { intros Hne. apply frame_columns;
      [apply unique_names_NoDup|exact Hkeys|].
    destruct all_data; [contradiction|discriminate]. }
  pose proof (unique_names_size (dimensions ++ metrics)) as [Hle Hsize].
  rewrite length_app in Hle, Hsize.
  split; [apply length_map|].
  split; [unfold Pandas.len, Pandas.pd_DataFrame; cbn [Pandas.data];
          now rewrite !length_map|].
  split; [exact Hkeys|]. split; [exact Hcols|]. split; [exact Hsize|].
  intros name i Hdim Hmet Hlast.
  assert (Hname : In name (TableSpec.unique_names (dimensions ++ metrics))).
  { apply unique_names_in, in_or_app. now left. }
  assert (Hvalue : Forall (fun row =>
                     Py.dict_get (Spec.assigned_record dimensions metrics row)
                       name
                     = option_map SDK.mv_value
                         (nth_error (SDK.metric_values row) i)) all_data).
  { rewrite Forall_forall in Hlong |- *. intros row Hrow.
    now apply (built_record_metric_value dimensions metrics row name i
                 (Hlong row Hrow) Hmet Hlast _ (or_intror eq_refl)). }
  split; [|split; [|split]].
  - apply NoDup_count_occ'; [apply unique_names_NoDup|exact Hname].
  - apply Nat.le_neq. split; [exact Hle|]. intros Heq.
    apply Hsize in Heq.
    apply (NoDup_app_disjoint dimensions metrics name Heq Hdim).
    eapply nth_error_In; exact Hmet.
  - apply Forall2_map_of. exact Hvalue.
  - intros Hne. rewrite get_column_of_records
      by (rewrite (Hcols Hne); exact Hname).
    rewrite map_map. apply Forall2_map_of.
    rewrite Forall_forall in Hlong, Hvalue |- *. intros row Hrow.
    unfold TableSpec.metric_cell, Pandas.cell_of. rewrite (Hvalue row Hrow).
    destruct (nth_error (SDK.metric_values row) i) as [v|] eqn:Hv.
    + exists v. split; reflexivity.
    + exfalso. apply nth_error_None in Hv.
      assert (Hs : nth_error metrics i <> None) by congruence.
      apply nth_error_Some in Hs. destruct (Hlong row Hrow) as [_ Hm]. lia.
Qed.

(** "sessions" asked for as the second dimension and as the metric: both
    tabulators return a table of two columns, with the metric value 42 (not
    the dimension value) under "sessions". *)
Lemma shared_name_keeps_metric_value_witness :
  Ga4Api.convert_response_to_dataframe Samples.list_index_error
    [Samples.sample_row] Samples.clash_dimensions Samples.clash_metrics
  = Py.Ok {| Pandas.columns := ["date"; "sessions"];
             Pandas.data := [[Pandas.CStr "20250601"; Pandas.CStr "42"]] |} /\
  Ga4App._convert_to_dataframe Samples.list_index_error
    [Samples.sample_row] Samples.clash_dimensions Samples.clash_metrics
  = Py.Ok {| Pandas.columns := ["date"; "sessions"];
             Pandas.data := [[Pandas.CStr "20250601"; Pandas.CStr "42"]] |} /\
  exists records : list (Py.dict string),
    Ga4Api.convert_response_to_dataframe Samples.list_index_error
      [Samples.sample_row] Samples.clash_dimensions Samples.clash_metrics
    = Py.Ok (Pandas.pd_DataFrame records) /\
    count_occ string_dec
      (TableSpec.unique_names (Samples.clash_dimensions ++ Samples.clash_metrics))
      "sessions" = 1%nat /\
    (List.length
       (TableSpec.unique_names (Samples.clash_dimensions ++ Samples.clash_metrics))
     < 2 + 1)%nat /\
    Forall2 (TableSpec.metric_cell 0) [Samples.sample_row]
      (Pandas.get_column (Pandas.pd_DataFrame records) "sessions").
Proof.
  destruct (shared_name_keeps_metric_value Samples.list_index_error
              [Samples.sample_row] Samples.clash_dimensions
              Samples.clash_metrics)
    as (records & _ & _ & Hapi & Happ & _ & _ & _ & _ & _ & Hshared).
  - repeat constructor.
  - destruct (Hshared "sessions" 0%nat) as (Hcount & Hless & _ & Hcolumn).
    + right. left. reflexivity.
    + reflexivity.
    + simpl. tauto.
    + split; [reflexivity|]. split; [reflexivity|].
      exists records. split; [exact Hapi|]. split; [exact Hcount|].
      split; [exact Hless|]. apply Hcolumn. discriminate.
Defined.

Section ReportFacts.
Import Py SDK Pandas Trace Spec RunSpec.

Lemma answers_ext {St} (run_report : Fetcher St)
    (f g : Z -> RunReportRequest) (page_size : Z) (pages : list (list Row)) :
  (forall o, f o = g o) ->
  forall client offset final,
    answers run_report f page_size client offset pages final ->
    answers run_report g page_size client offset pages final.
Proof.
  intros Hfg. induction pages as [|page pages IH]; intros client offset final;
    simpl; rewrite <- Hfg.
  - trivial.
  - intros (response & client' & Hcall & Hrows & Hne & Hrest).
    exists response, client'. repeat split; auto.
Qed.

(** A table built from records has no column that is not a key of one of
    them. *)
Lemma frame_columns_are_keys (records : list (dict string)) (c : string) :
  In c (columns (pd_DataFrame records)) ->
  exists r, In r records /\ In c (keys r).
Proof.
  unfold pd_DataFrame; cbn [columns]. intros Hin.
  apply columns_from_keys in Hin as [[]|Hin]. exact Hin.
Qed.

Lemma date_step_skipped_without_date (cdc : bool) (df : DataFrame) :
  cdc = false \/ ~ In "date" (columns df) ->
  Ga4App.convert_date_step cdc df = Ok df.
Proof.
  unfold Ga4App.convert_date_step. intros [-> | Hno]; [reflexivity|].
  destruct (has_name "date" (columns df)) eqn:Hname.
  - apply has_name_in in Hname. contradiction.
  - now rewrite andb_false_r.
Qed.

End ReportFacts.

(** X12.  [get_report] composes the paginator, the tabulator and the date step:
    when the source returns k pages of at least one row each and then an
    empty page, every row has a value for each name, and either
    [convert_date_columns] is off or no dimension or metric is named "date",
    the report is the table of the records of all rows in fetch order; k + 1
    requests were sent and the object holds the client. *)
Theorem report_is_the_table_of_all_pages
    (St : Type) (connect : option string -> Py.result St)
    (run_report : SDK.Fetcher St) (index_error_text : nat -> string)
    (self : Ga4App.GA4AnalyticsClient St)
    (start_date end_date : string)
    (dimensions metrics : option (list string))
    (dimensions_filter : option (Py.dict Py.PyValue))
    (order_bys : option (list string)) (convert_date_columns : bool)
    (client final : St) (pages : list (list SDK.Row)) (fuel : nat) :
  fst (Ga4App.client St connect self) = Py.Ok client ->
  RunSpec.answers run_report
    (fun offset =>
       Ga4App._create_request St self start_date end_date dimensions metrics
         dimensions_filter order_bys (Some offset)
         (Some Ga4App.MAX_ROWS_PER_REQUEST))
    Ga4App.MAX_ROWS_PER_REQUEST client 0%Z pages final ->
  (List.length pages < fuel)%nat ->
  Forall (Spec.long_enough (Py.or_empty dimensions) (Py.or_empty metrics))
    (List.concat pages) ->
  convert_date_columns = false \/
  ~ In "date" (Py.or_empty dimensions ++ Py.or_empty metrics) ->
  let report :=
    Ga4App.get_report St connect run_report index_error_text fuel self
      start_date end_date dimensions metrics dimensions_filter order_bys
      convert_date_columns in
  Trace.outcome report
  = Some (Py.Ok (Pandas.pd_DataFrame
       (map (Spec.assigned_record (Py.or_empty dimensions)
               (Py.or_empty metrics))
            (List.concat pages)))) /\
  Trace.state report = Ga4App.with_client St self final /\
  List.length (Trace.calls report) = S (List.length pages).
Proof.
  intros Hclient Hanswers Hfuel Hlong Hdate report.
  destruct fuel as [|fuel]; [inversion Hfuel|].
  assert (Hanswers' := answers_ext run_report _ _ _ pages
             (fun o => eq_sym (app_request_or_empty St self start_date end_date
                                 dimensions metrics dimensions_filter order_bys
                                 (Some o) (Some Ga4App.MAX_ROWS_PER_REQUEST)))
             _ _ _ Hanswers).
  destruct (app_loop_answers St connect run_report start_date end_date
              (Some (Py.or_empty dimensions)) (Some (Py.or_empty metrics))
              dimensions_filter order_bys pages (S fuel)
              (Ga4App.with_client St self client) client final 0%Z [] []
              eq_refl Hanswers' Hfuel) as (Hout & Hstate & Hlen).
  subst report. unfold Ga4App.get_report, Ga4App._run_paginated_request.
  rewrite !(app_loop_connect St connect run_report _ _ _ _ _ _
              fuel self client 0%Z [] [] Hclient).
  cbn [Trace.outcome Trace.state Trace.calls].
  rewrite Hout, Hstate, Hlen. cbn [app].
  split; [|split; reflexivity].
  rewrite app_dataframe, (first_missing_long_enough _ _ _ Hlong).
  cbn [Py.bind]. f_equal.
  apply date_step_skipped_without_date.
  destruct Hdate as [Hoff|Hdate]; [now left|right].
  intros Hin. apply Hdate.
  apply frame_columns_are_keys in Hin as (r & Hr & Hkey).
  apply in_map_iff in Hr as (row & <- & Hrow).
  rewrite Forall_forall in Hlong.
  apply (built_record_keys _ _ row (Hlong row Hrow) _ (or_intror eq_refl)).
  exact Hkey.
Qed.

(** One page of one row, for a report of device categories and sessions. *)
Lemma report_is_the_table_of_all_pages_witness :
  Trace.outcome
    (Ga4App.get_report _
       (fun _ => Py.Ok [Samples.reply [Samples.sample_row]; Samples.reply []])
       Samples.scripted Samples.list_index_error 2 (Samples.sample_self _)
       "2025-06-01" "yesterday" (Some ["day"; "deviceCategory"])
       (Some ["sessions"]) None None true)
  = Some (Py.Ok
      {| Pandas.columns := ["day"; "deviceCategory"; "sessions"];
         Pandas.data := [[Pandas.CStr "20250601"; Pandas.CStr "mobile";
                          Pandas.CStr "42"]] |}).
Proof.
  apply (report_is_the_table_of_all_pages _
           (fun _ => Py.Ok [Samples.reply [Samples.sample_row]; Samples.reply []])
           Samples.scripted Samples.list_index_error (Samples.sample_self _)
           "2025-06-01" "yesterday" (Some ["day"; "deviceCategory"])
           (Some ["sessions"]) None None true
           [Samples.reply [Samples.sample_row]; Samples.reply []] []
           [[Samples.sample_row]] 2%nat).
  - reflexivity.
  - simpl. eexists _, _. repeat split; [discriminate|].
    eexists. split; reflexivity.
  - simpl; lia.
  - repeat constructor.
  - right. simpl. intuition discriminate.
Defined.

(** X13.  When the first page is empty the report is a table without rows and
    without columns, whatever dimensions and metrics were asked for: the date
    step does nothing even when "date" is among them and
    [convert_date_columns] is on.  In [ga4_api] the rows fetched then
    tabulate to the same empty table. *)
Theorem empty_source_gives_table_without_columns :
  (forall (St : Type) (connect : option string -> Py.result St)
          (run_report : SDK.Fetcher St) (index_error_text : nat -> string)
          (self : Ga4App.GA4AnalyticsClient St)
          (start_date end_date : string)
          (dimensions metrics : option (list string))
          (dimensions_filter : option (Py.dict Py.PyValue))
          (order_bys : option (list string)) (convert_date_columns : bool)
          (client final : St) (response : SDK.RunReportResponse) (fuel : nat),
      fst (Ga4App.client St connect self) = Py.Ok client ->
      run_report client
        (Ga4App._create_request St self start_date end_date dimensions metrics
           dimensions_filter order_bys (Some 0%Z)
           (Some Ga4App.MAX_ROWS_PER_REQUEST))
      = (Py.Ok response, final) ->
      SDK.rows response = [] ->
      let report :=
        Ga4App.get_report St connect run_report index_error_text (S fuel) self
          start_date end_date dimensions metrics dimensions_filter order_bys
          convert_date_columns in
      Trace.outcome report
      = Some (Py.Ok {| Pandas.columns := []; Pandas.data := [] |}) /\
      List.length (Trace.calls report) = 1%nat)
  /\
  (forall (St : Type) (run_report : SDK.Fetcher St)
          (index_error_text : nat -> string)
          (property_id start_date end_date : string)
          (dimensions : option (list string))
          (dimensions_filter : option (Py.dict Py.PyValue))
          (metrics order_bys : option (list string))
          (client final : St) (response : SDK.RunReportResponse) (fuel : nat),
      run_report client
        (Ga4Api.create_request property_id start_date end_date dimensions
           dimensions_filter metrics order_bys (Some 0%Z)
           (Some Ga4Api.MAX_ROWS_PER_REQUEST))
      = (Py.Ok response, final) ->
      SDK.rows response = [] ->
      exists all_data : list SDK.Row,
        Trace.outcome
          (Ga4Api.run_paginated_request St run_report (S fuel) client
             property_id start_date end_date dimensions dimensions_filter
             metrics order_bys)
        = Some (Py.Ok all_data) /\
        Ga4Api.convert_response_to_dataframe index_error_text all_data
          (Py.or_empty dimensions) (Py.or_empty metrics)
        = Py.Ok {| Pandas.columns := []; Pandas.data := [] |}).
Proof.
  split.
  - intros St connect run_report t self sd ed dims mets df obs cdc client
      final response fuel Hclient Hcall Hrows report.
    subst report. unfold Ga4App.get_report, Ga4App._run_paginated_request.
    rewrite !(app_loop_connect St connect run_report _ _ _ _ _ _
                fuel self client 0%Z [] [] Hclient).
    simpl Ga4App._run_paginated_request_loop. unfold Ga4App.client.
    cbn [Ga4App.with_client Ga4App._client].
    rewrite app_request_or_empty.
    rewrite (app_request_of_property St self
               (Ga4App.with_client St self client)) by reflexivity.
    rewrite Hcall, Hrows. cbn [Trace.outcome Trace.calls app List.length].
    split; [|reflexivity].
    destruct cdc; reflexivity.
  - intros St run_report t pid sd ed dims df mets obs client final response
      fuel Hcall Hrows.
    exists []. unfold Ga4Api.run_paginated_request. simpl.
    rewrite Hcall, Hrows. split; reflexivity.
Qed.

Lemma empty_source_gives_table_without_columns_witness :
  Trace.outcome
    (Ga4App.get_report _ (fun _ => Py.Ok [Samples.reply []]) Samples.scripted
       Samples.list_index_error 1 (Samples.sample_self _)
       "2025-06-01" "yesterday" (Some Samples.sample_dimensions)
       (Some Samples.sample_metrics) None None true)
  = Some (Py.Ok {| Pandas.columns := []; Pandas.data := [] |}).
Proof.
  apply (proj1 empty_source_gives_table_without_columns _
           (fun _ => Py.Ok [Samples.reply []]) Samples.scripted
           Samples.list_index_error (Samples.sample_self _)
           "2025-06-01" "yesterday" (Some Samples.sample_dimensions)
           (Some Samples.sample_metrics) None None true
           [Samples.reply []] [] {| SDK.rows := [] |} 0%nat).
  - reflexivity.
  - reflexivity.
  - reflexivity.
Defined.

Section DateErrors.
Import Py Pandas.

(** [pd.to_datetime] can only fail on a column that is there. *)
Lemma to_datetime_failure_has_column (df : DataFrame) (name : string)
    (e : PyExc) :
  to_datetime (get_column df name) = Raise e ->
  has_name name (columns df) = true.
Proof.
  intros Hfail. destruct (has_name name (columns df)) eqn:Hname;
    [reflexivity|].
  unfold get_column in Hfail. rewrite (index_of_no_name _ _ Hname) in Hfail.
  discriminate.
Qed.

End DateErrors.

(** X14.  The date step of [get_report] is outside every [try]: when all
    pages were fetched and tabulated, [convert_date_columns] is on and
    [pd.to_datetime] raises e on the "date" column of the report's own table,
    [get_report] raises exactly e, not wrapped in a [RuntimeError], after the
    k + 1 requests; the same call with [convert_date_columns] off returns the
    table. *)
Theorem report_date_error_is_not_wrapped
    (St : Type) (connect : option string -> Py.result St)
    (run_report : SDK.Fetcher St) (index_error_text : nat -> string)
    (self : Ga4App.GA4AnalyticsClient St)
    (start_date end_date : string)
    (dimensions metrics : option (list string))
    (dimensions_filter : option (Py.dict Py.PyValue))
    (order_bys : option (list string))
    (client final : St) (pages : list (list SDK.Row)) (fuel : nat)
    (e : Py.PyExc) :
  fst (Ga4App.client St connect self) = Py.Ok client ->
  RunSpec.answers run_report
    (fun offset =>
       Ga4App._create_request St self start_date end_date dimensions metrics
         dimensions_filter order_bys (Some offset)
         (Some Ga4App.MAX_ROWS_PER_REQUEST))
    Ga4App.MAX_ROWS_PER_REQUEST client 0%Z pages final ->
  (List.length pages < fuel)%nat ->
  Forall (Spec.long_enough (Py.or_empty dimensions) (Py.or_empty metrics))
    (List.concat pages) ->
  let table :=
    Pandas.pd_DataFrame
      (map (Spec.assigned_record (Py.or_empty dimensions) (Py.or_empty metrics))
           (List.concat pages)) in
  Pandas.to_datetime (Pandas.get_column table "date") = Py.Raise e ->
  let report (convert_date_columns : bool) :=
    Ga4App.get_report St connect run_report index_error_text fuel self
      start_date end_date dimensions metrics dimensions_filter order_bys
      convert_date_columns in
  Trace.outcome (report true) = Some (Py.Raise e) /\
  List.length (Trace.calls (report true)) = S (List.length pages) /\
  Trace.outcome (report false) = Some (Py.Ok table).
Proof.
  intros Hclient Hanswers Hfuel Hlong table Hfail report.
  destruct fuel as [|fuel]; [inversion Hfuel|].
  assert (Hanswers' := answers_ext run_report _ _ _ pages
             (fun o => eq_sym (app_request_or_empty St self start_date end_date
                                 dimensions metrics dimensions_filter order_bys
                                 (Some o) (Some Ga4App.MAX_ROWS_PER_REQUEST)))
             _ _ _ Hanswers).
  destruct (app_loop_answers St connect run_report start_date end_date
              (Some (Py.or_empty dimensions)) (Some (Py.or_empty metrics))
              dimensions_filter order_bys pages (S fuel)
              (Ga4App.with_client St self client) client final 0%Z [] []
              eq_refl Hanswers' Hfuel) as (Hout & Hstate & Hlen).
  pose proof (to_datetime_failure_has_column table "date" e Hfail) as Hname.
  subst report. unfold Ga4App.get_report, Ga4App._run_paginated_request.
  rewrite !(app_loop_connect St connect run_report _ _ _ _ _ _
              fuel self client 0%Z [] [] Hclient).
  cbn [Trace.outcome Trace.state Trace.calls].
  rewrite Hout, Hlen. cbn [app].
  rewrite app_dataframe, (first_missing_long_enough _ _ _ Hlong).
  cbn [Py.bind]. fold table. unfold Ga4App.convert_date_step.
  rewrite Hname, Hfail. repeat split.
Qed.

(** A page that holds, after a dated row, the row "(other)" of the API. *)
Lemma report_date_error_is_not_wrapped_witness :
  exists e : Py.PyExc,
    Py.exc_class e = Py.ValueError /\
    Trace.outcome
      (Ga4App.get_report _
         (fun _ => Py.Ok [Samples.reply [Samples.sample_row;
                                         MoreSamples.other_row];
                          Samples.reply []])
         Samples.scripted Samples.list_index_error 2 (Samples.sample_self _)
         "2025-06-01" "yesterday" (Some Samples.sample_dimensions)
         (Some Samples.sample_metrics) None None true)
    = Some (Py.Raise e).
Proof.
  eexists. split; cycle 1.
  - apply (report_date_error_is_not_wrapped _
             (fun _ => Py.Ok [Samples.reply [Samples.sample_row;
                                             MoreSamples.other_row];
                              Samples.reply []])
             Samples.scripted Samples.list_index_error (Samples.sample_self _)
             "2025-06-01" "yesterday" (Some Samples.sample_dimensions)
             (Some Samples.sample_metrics) None None
             [Samples.reply [Samples.sample_row; MoreSamples.other_row];
              Samples.reply []] []
             [[Samples.sample_row; MoreSamples.other_row]] 2%nat).
    + reflexivity.
    + simpl. eexists _, _. repeat split; [discriminate|].
      eexists. split; reflexivity.
    + simpl; lia.
    + repeat constructor.
    + reflexivity.
  - reflexivity.
Defined.
